(** * EmSec payment backend: payment authorisation and GPS fraud detection

    A shallow embedding of [src/utils/gps.js] and of the payment handlers of
    [src/controllers/paymentController.js] and [routes/payment.js], with the
    properties of the specification stated over it.

    - JavaScript numbers are IEEE-754 binary64 values, so they are embedded
      as Rocq's primitive floats: [+], [-], [*], [/], [<] and [===] on
      numbers are the kernel's binary64 operations, and the facts about them
      are proved from their specification ([SpecFloat]).
    - The fields of a request body and of a stored row are typed: a numeric
      field holds a number, a text field a string, and an optional field is
      [None] when it is absent or [null].
    - The store is a record of tables, each a list of rows in insertion
      order.  A handler is a function from the store to a response and a
      store; it runs alone (one request at a time).
    - Whether a call to the store errs is decided outside the handler: every
      run takes the outcome of its calls, the fresh identifiers, the clock
      and the configuration from an environment record.
    - [Math.sin], [Math.cos], [Math.atan2], [Math.round], [bcrypt.compare]
      and [toFixed] are parameters. *)

From Stdlib Require Import Floats ZArith List String Ascii Bool Lia.
Import ListNotations.

Set Implicit Arguments.
Set Warnings "-inexact-float".

(** ** JavaScript values *)

Module JS.

Definition number := float.

Definition Infinity : number := infinity.

(** [x < y], [x > y] and [x === y] on numbers. *)
Definition lt (x y : number) : bool := PrimFloat.ltb x y.
Definition gt (x y : number) : bool := PrimFloat.ltb y x.
Definition strict_eq (x y : number) : bool := PrimFloat.eqb x y.

(** ToBoolean: [+0], [-0] and [NaN] are falsy, every other number is
    truthy; the empty string is falsy; [undefined] and [null] are falsy. *)
Definition truthy_number (x : number) : bool :=
  negb (PrimFloat.eqb x 0) && PrimFloat.eqb x x.

Definition truthy_string (s : string) : bool := negb (String.eqb s "").

(** An optional field of a JSON object: [None] is an absent ([undefined])
    or [null] field. *)
Definition truthy {A : Type} (t : A -> bool) (v : option A) : bool :=
  match v with
  | Some a => t a
  | None => false
  end.

(** [v || null] *)
Definition or_null {A : Type} (t : A -> bool) (v : option A) : option A :=
  if truthy t v then v else None.

(** [x || d] on numbers *)
Definition or_else (x d : number) : number :=
  if truthy_number x then x else d.

(** [parseFloat] applied to a number: the argument goes through ToString
    first, which prints [-0] as ["0"]; every other number is read back
    unchanged. *)
Definition parseFloat (x : number) : number :=
  if PrimFloat.eqb x 0 then 0%float else x.

End JS.

(** ** [src/utils/gps.js] *)

(** The part of the [Math] object the module calls.  ECMAScript leaves the
    values of [Math.sin], [Math.cos] and [Math.atan2] to the implementation,
    so they are parameters of the development; [Math.sqrt] is the binary64
    square root. *)
Record MathLib : Type := {
  Math_sin : JS.number -> JS.number;
  Math_cos : JS.number -> JS.number;
  Math_atan2 : JS.number -> JS.number -> JS.number;
  Math_round : JS.number -> JS.number
}.

Definition Math_PI : JS.number := 3.141592653589793%float.
Definition Math_sqrt : JS.number -> JS.number := PrimFloat.sqrt.

(** A stop of a route's [stops] JSONB array. *)
Module Stop.
Record t : Type := {
  id : string;
  name : string;
  latitude : option JS.number;
  longitude : option JS.number
}.
End Stop.

(** The value [{...stop, distance_meters: distance}] built by
    [findNearestStop]. *)
Module NearestStop.
Record t : Type := {
  stop : Stop.t;
  distance_meters : JS.number
}.
Definition id (n : t) : string := Stop.id (stop n).
Definition name (n : t) : string := Stop.name (stop n).
End NearestStop.

Section Gps.

Variable Math : MathLib.

Definition calculateDistance (lat1 lon1 lat2 lon2 : JS.number) : JS.number :=
  let R := 6371000%float in
  let phi1 := (lat1 * Math_PI / 180)%float in
  let phi2 := (lat2 * Math_PI / 180)%float in
  let dphi := ((lat2 - lat1) * Math_PI / 180)%float in
  let dlambda := ((lon2 - lon1) * Math_PI / 180)%float in
  let a :=
    (Math_sin Math (dphi / 2) * Math_sin Math (dphi / 2) +
     Math_cos Math phi1 * Math_cos Math phi2 *
     Math_sin Math (dlambda / 2) * Math_sin Math (dlambda / 2))%float in
  let c := (2 * Math_atan2 Math (Math_sqrt a) (Math_sqrt (1 - a)))%float in
  let distance := (R * c)%float in
  Math_round Math distance.

(** [!stop.latitude || !stop.longitude] *)
Definition lacks_coordinates (stop : Stop.t) : bool :=
  negb (JS.truthy JS.truthy_number (Stop.latitude stop))
  || negb (JS.truthy JS.truthy_number (Stop.longitude stop)).

(** The distance from the fix to a stop; a coordinate that is absent is
    [undefined], which the arithmetic of [calculateDistance] turns into
    [NaN]. *)
Definition coordinate (v : option JS.number) : JS.number :=
  match v with
  | Some x => x
  | None => nan
  end.

Definition distance_to (latitude longitude : JS.number) (stop : Stop.t) : JS.number :=
  calculateDistance latitude longitude
    (coordinate (Stop.latitude stop)) (coordinate (Stop.longitude stop)).

(** The [for (const stop of stops)] loop, with its two mutable locals
    [nearest] and [minDistance] as accumulators. *)
Fixpoint nearest_loop (latitude longitude : JS.number) (stops : list Stop.t)
    (nearest : option NearestStop.t) (minDistance : JS.number) : option NearestStop.t :=
  match stops with
  | [] => nearest
  | stop :: rest =>
      if lacks_coordinates stop then
        nearest_loop latitude longitude rest nearest minDistance
      else
        let distance := distance_to latitude longitude stop in
        if JS.lt distance minDistance then
          nearest_loop latitude longitude rest
            (Some {| NearestStop.stop := stop; NearestStop.distance_meters := distance |})
            distance
        else
          nearest_loop latitude longitude rest nearest minDistance
  end.

Definition findNearestStop (latitude longitude : JS.number) (stops : list Stop.t)
    : option NearestStop.t :=
  match stops with
  | [] => None
  | _ => nearest_loop latitude longitude stops None JS.Infinity
  end.

End Gps.

(** ** [src/utils/response.js] *)

Inductive ErrorCodes : Type :=
  | INVALID_TOKEN | TOKEN_EXPIRED | UNAUTHORIZED | INVALID_CREDENTIALS
  | PHONE_EXISTS | USER_NOT_FOUND | ACCOUNT_SUSPENDED | ACCOUNT_CLOSED
  | INSUFFICIENT_BALANCE | INVALID_PIN | FRAUD_DETECTED | ORIGIN_MISMATCH
  | DUPLICATE_TRANSACTION
  | INVALID_QR | MERCHANT_INACTIVE | GPS_UNAVAILABLE
  | INVALID_INPUT | MISSING_FIELD | INVALID_PHONE | WEAK_PASSWORD
  | SERVER_ERROR | NOT_FOUND | RATE_LIMIT_EXCEEDED.

(** ** The tables of the store *)

Module User.
Record t : Type := {
  user_id : string;
  balance : JS.number;
  pin_hash : string;
  status : string
}.
Definition with_balance (b : JS.number) (u : t) : t :=
  {| user_id := user_id u; balance := b; pin_hash := pin_hash u; status := status u |}.
End User.

Module Merchant.
Record t : Type := {
  business_name : string;
  matatu_plate : string;
  commission_rate : JS.number
}.
End Merchant.

(** A row of [devices] with its [merchants (...)] join. *)
Module Device.
Record t : Type := {
  device_id : string;
  merchant_id : string;
  merchants : Merchant.t
}.
End Device.

Module Route.
Record t : Type := {
  route_id : string;
  stops : list Stop.t
}.
End Route.

Module Transaction.
Record t : Type := {
  transaction_id : string;
  user_id : string;
  merchant_id : string;
  device_id : string;
  transaction_type : string;
  amount : JS.number;
  currency : string;
  route_id : option string;
  origin_stop : option string;
  destination_stop : option string;
  status : string;
  merchant_commission : JS.number;
  net_amount : JS.number;
  reference_code : string;
  gps_boarding_latitude : option JS.number;
  gps_boarding_longitude : option JS.number;
  auto_detected_origin : bool;
  nearest_stop_distance_meters : option JS.number;
  user_balance_before : JS.number;
  user_balance_after : JS.number;
  processed_at : string;
  created_at : string
}.
End Transaction.

Module FraudDetails.
Record t : Type := {
  gps_latitude : option JS.number;
  gps_longitude : option JS.number;
  selected_origin : option string;
  distance_meters : JS.number
}.
End FraudDetails.

Module FraudAlert.
Record t : Type := {
  user_id : string;
  transaction_id : option string;
  alert_type : string;
  risk_score : Z;
  alert_level : string;
  details : FraudDetails.t
}.
End FraudAlert.

Module Notification.
Record t : Type := {
  user_id : option string;
  merchant_id : option string;
  transaction_id : string;
  notification_type : string;
  recipient : string;
  message : string;
  status : string
}.
End Notification.

Module AuditLog.
Record t : Type := {
  log_id : string;
  user_id : string;
  action : string;
  entity_type : string;
  entity_id : string;
  details_amount : JS.number;
  details_merchant_id : string;
  details_reference : string;
  ip_address : string;
  created_at : string
}.
End AuditLog.

Record DB : Type := {
  users : list User.t;
  devices : list Device.t;
  merchants : list (string * Merchant.t);
  routes : list Route.t;
  transactions : list Transaction.t;
  fraud_alerts : list FraudAlert.t;
  notifications : list Notification.t;
  audit_logs : list AuditLog.t
}.

(** Functional updates of one table. *)
Definition set_users (f : list User.t -> list User.t) (db : DB) : DB :=
  {| users := f (users db); devices := devices db; merchants := merchants db;
     routes := routes db; transactions := transactions db;
     fraud_alerts := fraud_alerts db; notifications := notifications db;
     audit_logs := audit_logs db |}.

Definition set_transactions (f : list Transaction.t -> list Transaction.t) (db : DB) : DB :=
  {| users := users db; devices := devices db; merchants := merchants db;
     routes := routes db; transactions := f (transactions db);
     fraud_alerts := fraud_alerts db; notifications := notifications db;
     audit_logs := audit_logs db |}.

Definition set_fraud_alerts (f : list FraudAlert.t -> list FraudAlert.t) (db : DB) : DB :=
  {| users := users db; devices := devices db; merchants := merchants db;
     routes := routes db; transactions := transactions db;
     fraud_alerts := f (fraud_alerts db); notifications := notifications db;
     audit_logs := audit_logs db |}.

Definition set_notifications (f : list Notification.t -> list Notification.t) (db : DB) : DB :=
  {| users := users db; devices := devices db; merchants := merchants db;
     routes := routes db; transactions := transactions db;
     fraud_alerts := fraud_alerts db; notifications := f (notifications db);
     audit_logs := audit_logs db |}.

Definition set_audit_logs (f : list AuditLog.t -> list AuditLog.t) (db : DB) : DB :=
  {| users := users db; devices := devices db; merchants := merchants db;
     routes := routes db; transactions := transactions db;
     fraud_alerts := fraud_alerts db; notifications := notifications db;
     audit_logs := f (audit_logs db) |}.

(** ** The supabase client

    Every call resolves to [{ data, error }].  Whether a call errs (network,
    policy, constraint) is not decided by the handler: each handler run takes
    the outcome of its calls from a [Faults] record, one flag per call in
    program order.  A call that errs returns no data and changes no table. *)

(** [.select(...).eq(...).single()]: the row when exactly one row matches,
    [null] (with an error) when none or several do. *)
Definition single {A : Type} (p : A -> bool) (rows : list A) : option A :=
  match filter p rows with
  | [row] => Some row
  | _ => None
  end.

(** [.update({ balance }).eq('user_id', user_id)] *)
Definition update_balance (user_id : string) (b : JS.number) (rows : list User.t) : list User.t :=
  map (fun u => if String.eqb (User.user_id u) user_id then User.with_balance b u else u) rows.

(** The queries of the handlers, each ending in [.single()]. *)

(** [from('transactions').eq('reference_code', key)] *)
Definition transaction_by_reference (key : string) (db : DB) : option Transaction.t :=
  single (fun t => String.eqb (Transaction.reference_code t) key) (transactions db).

(** [from('users').eq('user_id', user_id)] *)
Definition user_by_id (user_id : string) (db : DB) : option User.t :=
  single (fun u => String.eqb (User.user_id u) user_id) (users db).

(** [from('devices').eq('device_id', device_id)] *)
Definition device_by_id (device_id : string) (db : DB) : option Device.t :=
  single (fun d => String.eqb (Device.device_id d) device_id) (devices db).

(** [from('routes').eq('route_id', route_id)] *)
Definition route_by_id (route_id : string) (db : DB) : option Route.t :=
  single (fun r => String.eqb (Route.route_id r) route_id) (routes db).

(** [from('merchants').eq('merchant_id', merchant_id)] *)
Definition merchant_by_id (merchant_id : string) (db : DB) : option Merchant.t :=
  option_map snd (single (fun m => String.eqb (fst m) merchant_id) (merchants db)).

(** The balance of the account [user_id], as the handlers read it. *)
Definition balance_of (db : DB) (user_id : string) : option JS.number :=
  option_map User.balance (user_by_id user_id db).

(** The outcome of the store calls of one handler run, in program order:
    [true] means that the call resolved with an error. *)
Record Faults : Type := {
  txn_lookup_error : bool;
  user_lookup_error : bool;
  device_lookup_error : bool;
  route_lookup_error : bool;
  alert_insert_error : bool;
  txn_insert_error : bool;
  balance_update_error : bool;
  notifications_insert_error : bool;
  merchant_lookup_error : bool;
  audit_insert_error : bool
}.

Definition no_faults : Faults :=
  {| txn_lookup_error := false; user_lookup_error := false;
     device_lookup_error := false; route_lookup_error := false;
     alert_insert_error := false; txn_insert_error := false;
     balance_update_error := false; notifications_insert_error := false;
     merchant_lookup_error := false; audit_insert_error := false |}.

(** What a handler run takes from its surroundings: the identifier
    [uuidv4()] (or the first [crypto.randomUUID()]) returns, the identifier
    of the audit-log row, the code [generateReferenceCode()] returns, the
    clock, the [created_at] default of the store, the value of
    [parseInt(process.env.GPS_MAX_DISTANCE_METERS)] ([NaN] when the variable
    is not set) and the outcome of the store calls. *)
Record Env : Type := {
  uuidv4 : string;
  log_uuid : string;
  generateReferenceCode : string;
  new_Date : string;
  created_at_default : string;
  GPS_MAX_DISTANCE_METERS : JS.number;
  faults : Faults
}.

(** The library functions the handlers call: [bcrypt.compare] and
    [Number.prototype.toFixed(2)]. *)
Record Platform : Type := {
  bcrypt_compare : string -> string -> bool;
  toFixed2 : JS.number -> string
}.

(** [req.user] and [req.body] *)
Module Request.
Record t : Type := {
  user_id : string;
  phone_number : string;
  ip : string;
  merchant_id : option string;
  device_id : string;
  route_id : option string;
  origin_stop : option string;
  destination_stop : option string;
  amount : JS.number;
  pin : string;
  idempotency_key : string;
  gps_latitude : option JS.number;
  gps_longitude : option JS.number
}.
End Request.

(** ** Responses *)

Module Receipt.
Record t : Type := {
  transaction_id : string;
  status : string;
  amount : JS.number;
  merchant_name : string;
  merchant_plate : string;
  origin : option string;
  destination : option string;
  balance_before : JS.number;
  balance_after : JS.number;
  timestamp : string;
  reference : string
}.
End Receipt.

Inductive Data : Type :=
  | ExistingTxn (transaction_id status : string) (amount : JS.number)
  | PaymentReceipt (r : Receipt.t)
  | RouteReceipt (transaction_id reference_code : string)
      (amount new_balance : JS.number) (timestamp : string).

Inductive Response : Type :=
  | sendSuccess (data : Data) (message : string) (statusCode : Z)
  | sendError (message : string) (code : ErrorCodes) (statusCode : Z)
  | json_failure (statusCode : Z) (error : string)
  | json_success (statusCode : Z) (data : Data).

(** ** Handlers

    A handler threads the store through its calls and may [return] a
    response at any point, which ends the run. *)

Definition Handler (A : Type) : Type := DB -> (A + Response) * DB.

Definition ret {A : Type} (a : A) : Handler A := fun db => (inl a, db).

Definition reply {A : Type} (r : Response) : Handler A := fun db => (inr r, db).

Definition bind {A B : Type} (m : Handler A) (k : A -> Handler B) : Handler B :=
  fun db =>
    match m db with
    | (inl a, db') => k a db'
    | (inr r, db') => (inr r, db')
    end.

Definition run (m : Handler Response) (db : DB) : Response * DB :=
  match m db with
  | (inl r, db') => (r, db')
  | (inr r, db') => (r, db')
  end.

Declare Scope handler_scope.
Delimit Scope handler_scope with handler.
Notation "x <- m ;; k" := (bind m (fun x => k))
  (at level 100, m at next level, right associativity) : handler_scope.
Notation "m ;; k" := (bind m (fun _ => k))
  (at level 100, right associativity) : handler_scope.

(** [if (c) return r;] *)
Definition return_if (c : bool) (r : Response) : Handler unit :=
  if c then reply r else ret tt.

(** A read: [null] when the call errs. *)
Definition lookup {A : Type} (error : bool) (q : DB -> option A) (db : DB) : option A :=
  if error then None else q db.

Definition select {A : Type} (error : bool) (q : DB -> option A) : Handler (option A) :=
  fun db => (inl (lookup error q db), db).

(** A write: the table is left alone when the call errs; the result is
    the error flag. *)
Definition write (error : bool) (w : DB -> DB) : Handler bool :=
  fun db => (inl error, if error then db else w db).

Definition get_string (v : option string) : string :=
  match v with
  | Some s => s
  | None => EmptyString
  end.

(** [s.id === origin_stop] *)
Definition eq_opt_string (x : string) (v : option string) : bool :=
  match v with
  | Some s => String.eqb x s
  | None => false
  end.

(** ** [src/controllers/paymentController.js] *)

Section PaymentController.

Variable Math : MathLib.
Variable platform : Platform.

Local Open Scope handler_scope.
Local Open Scope string_scope.

(** *** [scanQR], lines 129-136: the destinations offered after the
    detected origin *)

(** [stops.findIndex(s => s.id === id)], [-1] when no stop matches. *)
Fixpoint findIndex_from (i : Z) (id : string) (stops : list Stop.t) : Z :=
  match stops with
  | [] => (-1)%Z
  | s :: rest =>
      if String.eqb (Stop.id s) id then i else findIndex_from (i + 1)%Z id rest
  end.

Definition findIndex (id : string) (stops : list Stop.t) : Z :=
  findIndex_from 0%Z id stops.

(** [stops.filter((s, idx) => idx > originIndex)] *)
Fixpoint filter_after_from (idx originIndex : Z) (stops : list Stop.t) : list Stop.t :=
  match stops with
  | [] => []
  | s :: rest =>
      if (originIndex <? idx)%Z
      then s :: filter_after_from (idx + 1)%Z originIndex rest
      else filter_after_from (idx + 1)%Z originIndex rest
  end.

(** The [{ id, name }] objects of the response. *)
Definition availableDestinations (stops : list Stop.t) (originId : string)
    : list (string * string) :=
  let originIndex := findIndex originId stops in
  map (fun stop => (Stop.id stop, Stop.name stop))
      (filter_after_from 0%Z originIndex stops).

(** *** [processPayment] *)

(** [parseInt(process.env.GPS_MAX_DISTANCE_METERS) || 500] *)
Definition maxDistance (env : Env) : JS.number :=
  JS.or_else (GPS_MAX_DISTANCE_METERS env) 500%float.

Definition fraud_alert (req : Request.t) (distance : JS.number) : FraudAlert.t :=
  {| FraudAlert.user_id := Request.user_id req;
     FraudAlert.transaction_id := None;
     FraudAlert.alert_type := "suspicious_origin";
     FraudAlert.risk_score := 75%Z;
     FraudAlert.alert_level := "high";
     FraudAlert.details :=
       {| FraudDetails.gps_latitude := Request.gps_latitude req;
          FraudDetails.gps_longitude := Request.gps_longitude req;
          FraudDetails.selected_origin := Request.origin_stop req;
          FraudDetails.distance_meters := distance |} |}.

(** Lines 276-329: the GPS fraud detection.  Its result is the value of
    the local [nearest_stop_distance_meters] when the block is left. *)
Definition fraud_detection (env : Env) (req : Request.t) : Handler (option JS.number) :=
  if JS.truthy JS.truthy_string (Request.route_id req)
     && JS.truthy JS.truthy_string (Request.origin_stop req)
     && JS.truthy JS.truthy_number (Request.gps_latitude req)
     && JS.truthy JS.truthy_number (Request.gps_longitude req)
  then
    route <- select (route_lookup_error (faults env))
               (route_by_id (get_string (Request.route_id req))) ;;
    match route with
    | None => ret None
    | Some route =>
        let stops := Route.stops route in
        let selectedStop :=
          find (fun s => eq_opt_string (Stop.id s) (Request.origin_stop req)) stops in
        match selectedStop with
        | None => ret None
        | Some selectedStop =>
            if JS.truthy JS.truthy_number (Stop.latitude selectedStop)
               && JS.truthy JS.truthy_number (Stop.longitude selectedStop)
            then
              let distance :=
                calculateDistance Math
                  (coordinate (Request.gps_latitude req))
                  (coordinate (Request.gps_longitude req))
                  (coordinate (Stop.latitude selectedStop))
                  (coordinate (Stop.longitude selectedStop)) in
              if JS.gt distance (maxDistance env) then
                write (alert_insert_error (faults env))
                      (set_fraud_alerts (fun rows => (rows ++ [fraud_alert req distance])%list)) ;;
                reply (sendError
                  "Origin location mismatch detected. Please verify your boarding point."
                  ORIGIN_MISMATCH 400%Z)
              else ret (Some distance)
            else ret None
        end
    end
  else ret None.

(** The row of lines 338-360. *)
Definition new_transaction (env : Env) (req : Request.t) (device : Device.t)
    (merchant_commission net_amount : JS.number)
    (auto_detected_origin : bool) (nearest_stop_distance_meters : option JS.number)
    (balance_before balance_after : JS.number) : Transaction.t :=
  {| Transaction.transaction_id := uuidv4 env;
     Transaction.user_id := Request.user_id req;
     Transaction.merchant_id := Device.merchant_id device;
     Transaction.device_id := Request.device_id req;
     Transaction.transaction_type := "payment";
     Transaction.amount := Request.amount req;
     Transaction.currency := "KES";
     Transaction.route_id := JS.or_null JS.truthy_string (Request.route_id req);
     Transaction.origin_stop := JS.or_null JS.truthy_string (Request.origin_stop req);
     Transaction.destination_stop :=
       JS.or_null JS.truthy_string (Request.destination_stop req);
     Transaction.status := "success";
     Transaction.merchant_commission := merchant_commission;
     Transaction.net_amount := net_amount;
     Transaction.reference_code := Request.idempotency_key req;
     Transaction.gps_boarding_latitude :=
       JS.or_null JS.truthy_number (Request.gps_latitude req);
     Transaction.gps_boarding_longitude :=
       JS.or_null JS.truthy_number (Request.gps_longitude req);
     Transaction.auto_detected_origin := auto_detected_origin;
     Transaction.nearest_stop_distance_meters := nearest_stop_distance_meters;
     Transaction.user_balance_before := balance_before;
     Transaction.user_balance_after := balance_after;
     Transaction.processed_at := new_Date env;
     Transaction.created_at := created_at_default env |}.

(** The two rows of lines 376-393. *)
Definition payment_notifications (req : Request.t) (device : Device.t)
    (transaction_id : string) (balance_after : JS.number) : list Notification.t :=
  [ {| Notification.user_id := Some (Request.user_id req);
       Notification.merchant_id := None;
       Notification.transaction_id := transaction_id;
       Notification.notification_type := "sms";
       Notification.recipient := Request.phone_number req;
       Notification.message :=
         "EmSec Payment: KES " ++ toFixed2 platform (Request.amount req)
         ++ " paid to " ++ Merchant.business_name (Device.merchants device)
         ++ ". Balance: KES " ++ toFixed2 platform balance_after;
       Notification.status := "queued" |};
    {| Notification.user_id := None;
       Notification.merchant_id := Some (Device.merchant_id device);
       Notification.transaction_id := transaction_id;
       Notification.notification_type := "push";
       Notification.recipient := "merchant_device_token";
       Notification.message :=
         "Payment received: KES " ++ toFixed2 platform (Request.amount req);
       Notification.status := "queued" |} ].

Definition payment_receipt (req : Request.t) (device : Device.t)
    (transaction : Transaction.t) (balance_before balance_after : JS.number) : Receipt.t :=
  {| Receipt.transaction_id := Transaction.transaction_id transaction;
     Receipt.status := "success";
     Receipt.amount := Request.amount req;
     Receipt.merchant_name := Merchant.business_name (Device.merchants device);
     Receipt.merchant_plate := Merchant.matatu_plate (Device.merchants device);
     Receipt.origin := Request.origin_stop req;
     Receipt.destination := Request.destination_stop req;
     Receipt.balance_before := balance_before;
     Receipt.balance_after := balance_after;
     Receipt.timestamp := Transaction.created_at transaction;
     Receipt.reference := Request.idempotency_key req |}.

(** The body of the [try] block.  With the request fields typed as above
    and every device row carrying its merchant, no statement of it throws,
    so the [catch] branch is not reached. *)
Definition processPayment_body (env : Env) (req : Request.t) : Handler Response :=
  let user_id := Request.user_id req in
  let amount := Request.amount req in
  (* Check for duplicate transaction (idempotency) *)
  existingTxn <- select (txn_lookup_error (faults env))
    (transaction_by_reference (Request.idempotency_key req)) ;;
  match existingTxn with
  | Some existingTxn =>
      reply (sendSuccess
               (ExistingTxn (Transaction.transaction_id existingTxn)
                            (Transaction.status existingTxn)
                            (Transaction.amount existingTxn))
               "Transaction already processed" 200%Z)
  | None =>
  (* Get user details *)
  user <- select (user_lookup_error (faults env)) (user_by_id user_id) ;;
  match user with
  | None => reply (sendError "User not found" USER_NOT_FOUND 404%Z)
  | Some user =>
  (* Check user status *)
  return_if (negb (String.eqb (User.status user) "active"))
    (sendError "Account is not active" ACCOUNT_SUSPENDED 403%Z) ;;
  (* Verify PIN *)
  let pinMatch := bcrypt_compare platform (Request.pin req) (User.pin_hash user) in
  return_if (negb pinMatch) (sendError "Incorrect PIN" INVALID_PIN 401%Z) ;;
  (* Check balance *)
  return_if (JS.lt (JS.parseFloat (User.balance user)) amount)
    (sendError "Insufficient balance" INSUFFICIENT_BALANCE 400%Z) ;;
  (* Get device and merchant info *)
  device <- select (device_lookup_error (faults env))
    (device_by_id (Request.device_id req)) ;;
  match device with
  | None => reply (sendError "Invalid device" INVALID_QR 404%Z)
  | Some device =>
  (* Calculate commission *)
  let commission_rate := JS.parseFloat (Merchant.commission_rate (Device.merchants device)) in
  let merchant_commission := (amount * commission_rate)%float in
  let net_amount := (amount - merchant_commission)%float in
  (* GPS fraud detection (if coordinates provided) *)
  let auto_detected_origin := true in
  nearest_stop_distance_meters <- fraud_detection env req ;;
  (* Create transaction *)
  let transaction_id := uuidv4 env in
  let balance_before := JS.parseFloat (User.balance user) in
  let balance_after := (balance_before - amount)%float in
  let transaction :=
    new_transaction env req device merchant_commission net_amount
      auto_detected_origin nearest_stop_distance_meters balance_before balance_after in
  txnError <- write (txn_insert_error (faults env))
                (set_transactions (fun rows => (rows ++ [transaction])%list)) ;;
  return_if txnError (sendError "Payment failed" SERVER_ERROR 500%Z) ;;
  (* Update user balance *)
  write (balance_update_error (faults env))
        (set_users (update_balance user_id balance_after)) ;;
  (* Queue notifications (SMS to user and push to merchant) *)
  write (notifications_insert_error (faults env))
        (set_notifications
           (fun rows =>
              (rows ++ payment_notifications req device transaction_id balance_after)%list)) ;;
  ret (sendSuccess
         (PaymentReceipt (payment_receipt req device transaction balance_before balance_after))
         "Payment successful" 201%Z)
  end end end.

Definition processPayment (env : Env) (req : Request.t) (db : DB) : Response * DB :=
  run (processPayment_body env req) db.

End PaymentController.

(** ** [routes/payment.js]: the handler of [POST /process] *)

Section PaymentRoute.

Variable platform : Platform.

Local Open Scope handler_scope.
Local Open Scope string_scope.

(** The row of lines 116-138; the column [nearest_stop_distance_meters]
    is not written and stays [null]. *)
Definition route_transaction (env : Env) (req : Request.t)
    (merchantCommission netAmount balanceBefore balanceAfter : JS.number)
    (referenceCode : string) : Transaction.t :=
  {| Transaction.transaction_id := uuidv4 env;
     Transaction.user_id := Request.user_id req;
     Transaction.merchant_id := get_string (Request.merchant_id req);
     Transaction.device_id := Request.device_id req;
     Transaction.transaction_type := "payment";
     Transaction.amount := JS.parseFloat (Request.amount req);
     Transaction.currency := "KES";
     Transaction.route_id := Request.route_id req;
     Transaction.origin_stop :=
       if JS.truthy JS.truthy_string (Request.origin_stop req)
       then Request.origin_stop req else Some "Unknown";
     Transaction.destination_stop := Request.destination_stop req;
     Transaction.status := "success";
     Transaction.merchant_commission := merchantCommission;
     Transaction.net_amount := netAmount;
     Transaction.reference_code := referenceCode;
     Transaction.gps_boarding_latitude := Request.gps_latitude req;
     Transaction.gps_boarding_longitude := Request.gps_longitude req;
     Transaction.auto_detected_origin :=
       if JS.truthy JS.truthy_string (Request.origin_stop req) then true else false;
     Transaction.nearest_stop_distance_meters := None;
     Transaction.user_balance_before := balanceBefore;
     Transaction.user_balance_after := balanceAfter;
     Transaction.processed_at := new_Date env;
     Transaction.created_at := new_Date env |}.

Definition route_audit_log (env : Env) (req : Request.t)
    (transaction : Transaction.t) (referenceCode : string) : AuditLog.t :=
  {| AuditLog.log_id := log_uuid env;
     AuditLog.user_id := Request.user_id req;
     AuditLog.action := "payment_processed";
     AuditLog.entity_type := "transaction";
     AuditLog.entity_id := Transaction.transaction_id transaction;
     AuditLog.details_amount := Request.amount req;
     AuditLog.details_merchant_id := get_string (Request.merchant_id req);
     AuditLog.details_reference := referenceCode;
     AuditLog.ip_address := Request.ip req;
     AuditLog.created_at := new_Date env |}.

Definition route_process_body (env : Env) (req : Request.t) : Handler Response :=
  let userId := Request.user_id req in
  let amount := Request.amount req in
  (* Validate required fields *)
  return_if (negb (JS.truthy JS.truthy_string (Request.merchant_id req))
             || negb (JS.truthy_number amount)
             || negb (JS.truthy_string (Request.pin req)))
    (json_failure 400%Z "Missing required fields") ;;
  (* Get user data and verify PIN *)
  userData <- select (user_lookup_error (faults env)) (user_by_id userId) ;;
  match userData with
  | None => reply (json_failure 404%Z "User not found")
  | Some userData =>
  let pinValid := bcrypt_compare platform (Request.pin req) (User.pin_hash userData) in
  return_if (negb pinValid) (json_failure 401%Z "Invalid PIN") ;;
  (* Check sufficient balance *)
  return_if (JS.lt (JS.parseFloat (User.balance userData)) (JS.parseFloat amount))
    (json_failure 400%Z "Insufficient balance") ;;
  (* Get merchant commission rate *)
  merchantData <- select (merchant_lookup_error (faults env))
    (merchant_by_id (get_string (Request.merchant_id req))) ;;
  let commissionRate :=
    match merchantData with
    | Some m => JS.or_else (Merchant.commission_rate m) 0.05%float
    | None => 0.05%float
    end in
  let merchantCommission := (JS.parseFloat amount * commissionRate)%float in
  let netAmount := (JS.parseFloat amount - merchantCommission)%float in
  (* Calculate new balance *)
  let balanceBefore := JS.parseFloat (User.balance userData) in
  let balanceAfter := (balanceBefore - JS.parseFloat amount)%float in
  (* Generate reference code *)
  let referenceCode := generateReferenceCode env in
  (* Create transaction *)
  let transaction :=
    route_transaction env req merchantCommission netAmount balanceBefore balanceAfter
      referenceCode in
  txError <- write (txn_insert_error (faults env))
               (set_transactions (fun rows => (rows ++ [transaction])%list)) ;;
  return_if txError (json_failure 500%Z "Failed to create transaction") ;;
  (* Update user balance; an error is logged and nothing else *)
  write (balance_update_error (faults env))
        (set_users (update_balance userId balanceAfter)) ;;
  (* Create audit log *)
  write (audit_insert_error (faults env))
        (set_audit_logs
           (fun rows => (rows ++ [route_audit_log env req transaction referenceCode])%list)) ;;
  ret (json_success 200%Z
         (RouteReceipt (Transaction.transaction_id transaction) referenceCode
                       (JS.parseFloat amount) balanceAfter
                       (Transaction.created_at transaction)))
  end.

Definition route_process (env : Env) (req : Request.t) (db : DB) : Response * DB :=
  run (route_process_body env req) db.

End PaymentRoute.

(** ** A math library to run the examples

    The theorems below hold for every [MathLib].  To evaluate the handlers
    on concrete coordinates the examples use this one: Taylor polynomials for
    sine and cosine (arguments within a quarter turn), the arctangent by
    three angle halvings and its series, and [Math.round] by its definition
    (the nearest integer, ties towards [+Infinity]). *)

Module ReferenceMath.

Local Open Scope float_scope.

Definition sin (x : JS.number) : JS.number :=
  let x2 := x * x in
  x * (1 - x2 / 6 * (1 - x2 / 20 * (1 - x2 / 42 * (1 - x2 / 72 * (1 - x2 / 110 *
      (1 - x2 / 156 * (1 - x2 / 210 * (1 - x2 / 272)))))))).

Definition cos (x : JS.number) : JS.number :=
  let x2 := x * x in
  1 - x2 / 2 * (1 - x2 / 12 * (1 - x2 / 30 * (1 - x2 / 56 * (1 - x2 / 90 *
      (1 - x2 / 132 * (1 - x2 / 182 * (1 - x2 / 240))))))).

Definition atan_series (u : JS.number) : JS.number :=
  let u2 := u * u in
  let r := fold_left (fun r k => 1 / k - u2 * r)
             [25; 23; 21; 19; 17; 15; 13; 11; 9; 7; 5; 3] (1 / 27) in
  u * (1 - u2 * r).

Definition halve (t : JS.number) : JS.number := t / (1 + sqrt (1 + t * t)).

Definition atan_pos (t : JS.number) : JS.number :=
  8 * atan_series (halve (halve (halve t))).

Definition atan (t : JS.number) : JS.number :=
  if t <? 0 then - atan_pos (- t) else atan_pos t.

Definition atan2 (y x : JS.number) : JS.number :=
  if 0 <? x then atan (y / x)
  else if x <? 0 then
    (if y <? 0 then atan (y / x) - Math_PI else atan (y / x) + Math_PI)
  else if 0 <? y then Math_PI / 2
  else if y <? 0 then - (Math_PI / 2)
  else 0.

Definition two52 : JS.number := 4503599627370496.

Definition floor (x : JS.number) : JS.number :=
  if abs x <? two52 then
    let r := if 0 <=? x then (x + two52) - two52 else (x - two52) + two52 in
    if x <? r then r - 1 else r
  else x.

Definition round (x : JS.number) : JS.number :=
  let f := floor x in
  if 0.5 <=? x - f then f + 1 else f.

Definition math : MathLib :=
  {| Math_sin := sin; Math_cos := cos; Math_atan2 := atan2; Math_round := round |}.

End ReferenceMath.

(** ** Vocabulary of the properties *)

(** The response of a charge that went through: the receipt of
    [processPayment], or the one of [POST /process]. *)
Definition paid (r : Response) : bool :=
  match r with
  | sendSuccess (PaymentReceipt _) _ _ => true
  | json_success _ (RouteReceipt _ _ _ _ _) => true
  | _ => false
  end.

(** The error code of a response, if it carries one. *)
Definition error_code (r : Response) : option ErrorCodes :=
  match r with
  | sendError _ code _ => Some code
  | _ => None
  end.

(** No two rows of [transactions] carry the same reference code. *)
Definition unique_reference_codes (db : DB) : Prop :=
  NoDup (map Transaction.reference_code (transactions db)).

Section Vocabulary.

Variable Math : MathLib.
Variable platform : Platform.

(** The checks of [processPayment] before the fraud detection all pass:
    no transaction is found under the reference code, the account [user]
    is found, active, the PIN matches, the balance is not less than the
    amount and the device [device] is found. *)
Definition checks_pass (env : Env) (req : Request.t) (db : DB)
    (user : User.t) (device : Device.t) : Prop :=
  lookup (txn_lookup_error (faults env))
         (transaction_by_reference (Request.idempotency_key req)) db = None
  /\ lookup (user_lookup_error (faults env)) (user_by_id (Request.user_id req)) db = Some user
  /\ User.status user = "active"%string
  /\ bcrypt_compare platform (Request.pin req) (User.pin_hash user) = true
  /\ JS.lt (JS.parseFloat (User.balance user)) (Request.amount req) = false
  /\ lookup (device_lookup_error (faults env)) (device_by_id (Request.device_id req)) db
     = Some device.

(** The request claims the origin [stop]: route, origin and GPS fix are
    supplied (truthy), the route is found and [stop] is the first stop of
    the route whose id is the claimed origin. *)
Definition claims_origin (env : Env) (req : Request.t) (db : DB) (stop : Stop.t) : Prop :=
  JS.truthy JS.truthy_string (Request.route_id req) = true
  /\ JS.truthy JS.truthy_string (Request.origin_stop req) = true
  /\ JS.truthy JS.truthy_number (Request.gps_latitude req) = true
  /\ JS.truthy JS.truthy_number (Request.gps_longitude req) = true
  /\ exists route,
       lookup (route_lookup_error (faults env))
              (route_by_id (get_string (Request.route_id req))) db = Some route
       /\ find (fun s => eq_opt_string (Stop.id s) (Request.origin_stop req))
               (Route.stops route) = Some stop.

(** The distance the fraud detection computes for the claimed [stop]. *)
Definition claimed_distance (req : Request.t) (stop : Stop.t) : JS.number :=
  calculateDistance Math
    (coordinate (Request.gps_latitude req)) (coordinate (Request.gps_longitude req))
    (coordinate (Stop.latitude stop)) (coordinate (Stop.longitude stop)).

(** A client that sends one request after the other. *)
Fixpoint charges (calls : list (Env * Request.t)) (db : DB) : list Response * DB :=
  match calls with
  | [] => ([], db)
  | (env, req) :: rest =>
      let (r, db1) := processPayment Math platform env req db in
      let (rs, db2) := charges rest db1 in
      (r :: rs, db2)
  end.

(** What the balance of an account becomes over a list of charged amounts:
    each charge reads the balance with [parseFloat] and subtracts its
    amount. *)
Definition debit (balance amount : JS.number) : JS.number :=
  (JS.parseFloat balance - amount)%float.

(** The balances an account goes through over a list of charged amounts. *)
Fixpoint balances (balance : JS.number) (amounts : list JS.number) : list JS.number :=
  match amounts with
  | [] => []
  | amount :: rest => debit balance amount :: balances (debit balance amount) rest
  end.

End Vocabulary.

(** ** A platform and a store to run the examples *)

Module Sample.

Local Open Scope string_scope.

(** The decimal digits of a natural number. *)
Fixpoint digits_fuel (fuel : nat) (n : Z) (acc : string) : string :=
  match fuel with
  | O => acc
  | S fuel =>
      let acc := String (ascii_of_nat (48 + Z.to_nat (n mod 10))) acc in
      if (n / 10 =? 0)%Z then acc else digits_fuel fuel (n / 10)%Z acc
  end.

Definition digits (n : Z) : string := digits_fuel 400 n "".

(** [x.toFixed(2)] for a number below [1e21]: the integer [n] nearest to
    [100 * |x|] (the larger one on a tie), printed with two decimals. *)
Definition number_toFixed2 (x : JS.number) : string :=
  match Prim2SF x with
  | S754_nan => "NaN"
  | S754_infinity s => if s then "-Infinity" else "Infinity"
  | S754_zero _ => "0.00"
  | S754_finite s m e =>
      let n :=
        if (0 <=? e)%Z then (Z.pos m * 2 ^ e * 100)%Z
        else let d := (2 ^ (- e))%Z in ((200 * Z.pos m + d) / (2 * d))%Z in
      let cents := (n mod 100)%Z in
      (if s then "-" else "") ++ digits (n / 100)%Z ++ "."
      ++ (if (cents <? 10)%Z then "0" else "") ++ digits cents
  end.

(** [bcrypt.compare] stands for any one-way check; the examples store the
    PIN behind a tag. *)
Definition platform : Platform :=
  {| bcrypt_compare := fun pin hash => String.eqb hash ("hashed:" ++ pin);
     toFixed2 := number_toFixed2 |}.

Definition cbd : Stop.t :=
  {| Stop.id := "cbd"; Stop.name := "CBD";
     Stop.latitude := Some (-1.2864)%float; Stop.longitude := Some 36.8172%float |}.

Definition westlands : Stop.t :=
  {| Stop.id := "westlands"; Stop.name := "Westlands";
     Stop.latitude := Some (-1.2635)%float; Stop.longitude := Some 36.8030%float |}.

(** A stop that was never geocoded. *)
Definition kangemi : Stop.t :=
  {| Stop.id := "kangemi"; Stop.name := "Kangemi";
     Stop.latitude := None; Stop.longitude := None |}.

(** A stop on the equator: latitude [0]. *)
Definition nanyuki : Stop.t :=
  {| Stop.id := "nanyuki"; Stop.name := "Nanyuki Equator";
     Stop.latitude := Some 0%float; Stop.longitude := Some 37.0722%float |}.

Definition nyeri : Stop.t :=
  {| Stop.id := "nyeri"; Stop.name := "Nyeri";
     Stop.latitude := Some (-0.4201)%float; Stop.longitude := Some 36.9476%float |}.

Definition route46 : Route.t :=
  {| Route.route_id := "route-46"; Route.stops := [cbd; westlands; kangemi] |}.

Definition route_north : Route.t :=
  {| Route.route_id := "route-north"; Route.stops := [nyeri; nanyuki] |}.

Definition alice : User.t :=
  {| User.user_id := "alice"; User.balance := 1000%float;
     User.pin_hash := "hashed:1234"; User.status := "active" |}.

Definition metro : Merchant.t :=
  {| Merchant.business_name := "Metro Trans"; Merchant.matatu_plate := "KCA 123A";
     Merchant.commission_rate := 0.05%float |}.

Definition matatu : Device.t :=
  {| Device.device_id := "device-46"; Device.merchant_id := "metro";
     Device.merchants := metro |}.

Definition db0 : DB :=
  {| users := [alice]; devices := [matatu]; merchants := [("metro", metro)];
     routes := [route46; route_north]; transactions := []; fraud_alerts := [];
     notifications := []; audit_logs := [] |}.

(** The account with another balance. *)
Definition db_with_balance (b : JS.number) : DB :=
  set_users (update_balance "alice" b) db0.

Definition env (n : string) (f : Faults) : Env :=
  {| uuidv4 := "txn-" ++ n; log_uuid := "log-" ++ n;
     generateReferenceCode := "EM" ++ n;
     new_Date := "2025-01-01T08:00:0" ++ n ++ "Z";
     created_at_default := "2025-01-01T08:00:0" ++ n ++ "Z";
     GPS_MAX_DISTANCE_METERS := nan; faults := f |}.

Definition balance_update_fails : Faults :=
  {| txn_lookup_error := false; user_lookup_error := false;
     device_lookup_error := false; route_lookup_error := false;
     alert_insert_error := false; txn_insert_error := false;
     balance_update_error := true; notifications_insert_error := false;
     merchant_lookup_error := false; audit_insert_error := false |}.

(** A fare paid without route or GPS data. *)
Definition pay (key : string) (amount : JS.number) : Request.t :=
  {| Request.user_id := "alice"; Request.phone_number := "+254700000001";
     Request.ip := "10.0.0.1"; Request.merchant_id := Some "metro";
     Request.device_id := "device-46"; Request.route_id := None;
     Request.origin_stop := None; Request.destination_stop := None;
     Request.amount := amount; Request.pin := "1234";
     Request.idempotency_key := key;
     Request.gps_latitude := None; Request.gps_longitude := None |}.

(** A fare of 50 KES from a claimed origin on a route, with a GPS fix. *)
Definition ride (key route origin : string) (lat lon : option JS.number) : Request.t :=
  {| Request.user_id := "alice"; Request.phone_number := "+254700000001";
     Request.ip := "10.0.0.1"; Request.merchant_id := Some "metro";
     Request.device_id := "device-46"; Request.route_id := Some route;
     Request.origin_stop := Some origin; Request.destination_stop := Some "westlands";
     Request.amount := 50%float; Request.pin := "1234";
     Request.idempotency_key := key;
     Request.gps_latitude := lat; Request.gps_longitude := lon |}.

Definition at_600m : Request.t :=
  ride "R1" "route-46" "cbd" (Some (-1.281)%float) (Some 36.8172%float).

(** The runs the examples below look at. *)

(** A fare with a hand-picked origin and no GPS fix. *)
Definition manual_ride : Request.t := ride "R9" "route-46" "cbd" None None.

Definition run_of (e : Env) (req : Request.t) (db : DB) : Response * DB :=
  processPayment ReferenceMath.math platform e req db.

Definition manual_run : Response * DB := run_of (env "1" no_faults) manual_ride db0.

(** The scenario of the specification: 50 KES at a rate of 0.05 from a
    balance of 1000 KES, and the same request sent again. *)
Definition first_call : Response * DB := run_of (env "1" no_faults) (pay "R1" 50%float) db0.
Definition second_call : Response * DB :=
  run_of (env "1" no_faults) (pay "R1" 50%float) (snd first_call).

(** The same payment when the store refuses the balance update. *)
Definition unapplied_debit : Response * DB :=
  run_of (env "1" balance_update_fails) (pay "R1" 50%float) db0.

(** Two charges, of 1.01 and 1.06 KES. *)
Definition two_charges : list (Env * Request.t) :=
  [ (env "1" no_faults, pay "R1" 1.01%float); (env "2" no_faults, pay "R2" 1.06%float) ].

Definition after_two_charges : list Response * DB :=
  charges ReferenceMath.math platform two_charges db0.

(** A charge of the whole balance, and one above it. *)
Definition whole_balance : Response * DB := run_of (env "4" no_faults) (pay "R4" 1000%float) db0.
Definition overdraft : Response * DB := run_of (env "3" no_faults) (pay "R3" 2000%float) db0.

(** A shop payment of 3.10 KES. *)
Definition shop_payment : Response * DB := run_of (env "1" no_faults) (pay "R6" 3.1%float) db0.

Definition run_at_600m : Response * DB := run_of (env "1" no_faults) at_600m db0.

(** A ride claimed from the CBD stop with a fix on the equator, 143 km to
    the north (latitude 0), and one claimed from the stop on the equator with
    a fix in Nairobi. *)
Definition fix_on_equator : Request.t :=
  ride "R10" "route-46" "cbd" (Some 0%float) (Some 36.8172%float).
Definition origin_on_equator : Request.t :=
  ride "R11" "route-north" "nanyuki" (Some (-1.2864)%float) (Some 36.8172%float).
Definition run_fix_on_equator : Response * DB := run_of (env "1" no_faults) fix_on_equator db0.

End Sample.

(** ** [src/utils/gps.js]: confidence and coordinate checks *)

(** [x <= y] and [x >= y] on numbers. *)
Definition JS_le (x y : JS.number) : bool := PrimFloat.leb x y.
Definition JS_ge (x y : JS.number) : bool := PrimFloat.leb y x.

(** The strings ['high'], ['medium'] and ['low']. *)
Module Confidence.
Inductive t : Type := high | medium | low.

(** The levels from best to worst. *)
Definition rank (c : t) : nat :=
  match c with
  | high => 0
  | medium => 1
  | low => 2
  end.
End Confidence.

(** The first argument is the value of
    [parseInt(process.env.GPS_CONFIDENCE_THRESHOLD_METERS)]. *)
Definition getConfidenceLevel (GPS_CONFIDENCE_THRESHOLD_METERS distanceMeters : JS.number)
    : Confidence.t :=
  let threshold := JS.or_else GPS_CONFIDENCE_THRESHOLD_METERS 100%float in
  if JS.lt distanceMeters threshold then Confidence.high
  else if JS.lt distanceMeters (threshold * 2)%float then Confidence.medium
  else Confidence.low.

(** The two [typeof ... === 'number'] tests hold of every argument of type
    [JS.number]. *)
Definition isValidCoordinates (latitude longitude : JS.number) : bool :=
  JS_ge latitude (-90)%float
  && JS_le latitude 90%float
  && JS_ge longitude (-180)%float
  && JS_le longitude 180%float.

Module kenyaBounds.
Definition minLat : JS.number := (-4.9)%float.
Definition maxLat : JS.number := 4.6%float.
Definition minLon : JS.number := 33.9%float.
Definition maxLon : JS.number := 41.9%float.
End kenyaBounds.

Definition isWithinKenya (latitude longitude : JS.number) : bool :=
  JS_ge latitude kenyaBounds.minLat
  && JS_le latitude kenyaBounds.maxLat
  && JS_ge longitude kenyaBounds.minLon
  && JS_le longitude kenyaBounds.maxLon.

(** ** [src/controllers/paymentController.js]: [scanQR] *)

(** The rows [scanQR] reads: a device with its [merchants (...)] and
    [routes (...)] joins as the query selects them, and the fare rules. *)
Module ScanMerchant.
Record t : Type := {
  merchant_id : string;
  merchant_type : string;
  business_name : string;
  matatu_plate : string;
  status : string;
  (** [saccos?.sacco_name] *)
  sacco_name : option string
}.
End ScanMerchant.

Module ScanRoute.
Record t : Type := {
  route_id : string;
  route_number : string;
  route_name : string;
  stops : list Stop.t
}.
End ScanRoute.

Module ScanDevice.
Record t : Type := {
  device_token : string;
  device_id : string;
  merchant_id : string;
  route_id : option string;
  status : string;
  last_gps_latitude : option JS.number;
  last_gps_longitude : option JS.number;
  (** the value of [new Date(last_gps_updated_at).getTime()], in
      milliseconds; [NaN] for a text that is no date *)
  last_gps_updated_at : JS.number;
  gps_enabled : bool;
  merchants : option ScanMerchant.t;
  routes : option ScanRoute.t
}.
End ScanDevice.

Module FareRule.
Record t : Type := {
  route_id : string;
  origin_stop_id : string;
  destination_stop_id : string;
  fare_amount : JS.number;
  effective_until : option string
}.
End FareRule.

Record Catalog : Type := {
  scan_devices : list ScanDevice.t;
  fare_rules : list FareRule.t
}.

(** What a run of [scanQR] takes from its surroundings: [Date.now()], the
    value of [parseInt(process.env.GPS_CONFIDENCE_THRESHOLD_METERS)] and the
    outcome of its two queries. *)
Record ScanEnv : Type := {
  Date_now : JS.number;
  GPS_CONFIDENCE_THRESHOLD_METERS : JS.number;
  scan_device_lookup_error : bool;
  fares_lookup_error : bool
}.

(** An entry of [available_destinations]; [fare] is [None] when the entry
    has no such field, [Some None] when it is [null]. *)
Module Destination.
Record t : Type := {
  id : string;
  name : string;
  fare : option (option JS.number)
}.
End Destination.

Inductive GpsDetection : Type :=
  | detected (detected_origin detected_origin_name : string)
      (confidence : Confidence.t) (distance_meters : JS.number)
      (matatu_gps_latitude matatu_gps_longitude : JS.number)
  | unavailable (status message : string) (all_stops : list Stop.t).

(** [responseData]; a field that was not assigned is [None]. *)
Module ScanData.
Record t : Type := {
  merchant_id : string;
  merchant_type : string;
  business_name : string;
  matatu_plate : string;
  sacco_name : option (option string);
  route : option (string * string * string);
  gps_detection : option GpsDetection;
  available_destinations : option (list Destination.t);
  requires_amount_input : option bool;
  commission_rate : option JS.number
}.
End ScanData.

Inductive ScanResponse : Type :=
  | scan_sendSuccess (data : ScanData.t) (message : string) (statusCode : Z)
  | scan_sendError (message : string) (code : ErrorCodes) (statusCode : Z).

Section ScanQR.

Variable Math : MathLib.

Local Open Scope string_scope.

(** [from('devices').eq('device_token', device_token).single()] *)
Definition device_by_token (device_token : string) (c : Catalog) : option ScanDevice.t :=
  single (fun d => String.eqb (ScanDevice.device_token d) device_token) (scan_devices c).

(** [from('fare_rules').eq('route_id', ...).eq('origin_stop_id', ...)
    .is('effective_until', null)]: the rows, or [null] when the call errs. *)
Definition active_fares (error : bool) (route_id origin_stop_id : string) (c : Catalog)
    : option (list FareRule.t) :=
  if error then None
  else Some (filter (fun f => String.eqb (FareRule.route_id f) route_id
                              && String.eqb (FareRule.origin_stop_id f) origin_stop_id
                              && match FareRule.effective_until f with
                                 | None => true
                                 | Some _ => false
                                 end)
                    (fare_rules c)).

(** Lines 148-154: [{ ...dest, fare: fare ? parseFloat(fare.fare_amount) : null }]
    with [fare = fares.find(f => f.destination_stop_id === dest.id)]. *)
Definition with_fare (fares : list FareRule.t) (dest : string * string) : Destination.t :=
  let fare := find (fun f => String.eqb (FareRule.destination_stop_id f) (fst dest)) fares in
  {| Destination.id := fst dest;
     Destination.name := snd dest;
     Destination.fare :=
       Some match fare with
            | Some fare => Some (JS.parseFloat (FareRule.fare_amount fare))
            | None => None
            end |}.

Definition without_fare (dest : string * string) : Destination.t :=
  {| Destination.id := fst dest; Destination.name := snd dest; Destination.fare := None |}.

(** [const maxAge = 10 * 60 * 1000] *)
Definition maxAge : JS.number := (10 * 60 * 1000)%float.

(** The body of the [try] block from line 76 on, for a device whose
    [merchants] join is there. *)
Definition scanQR_data (env : ScanEnv) (c : Catalog) (device : ScanDevice.t)
    (merchant : ScanMerchant.t) : ScanResponse :=
  let responseData :=
    {| ScanData.merchant_id := ScanMerchant.merchant_id merchant;
       ScanData.merchant_type := ScanMerchant.merchant_type merchant;
       ScanData.business_name := ScanMerchant.business_name merchant;
       ScanData.matatu_plate := ScanMerchant.matatu_plate merchant;
       ScanData.sacco_name := None;
       ScanData.route := None;
       ScanData.gps_detection := None;
       ScanData.available_destinations := None;
       ScanData.requires_amount_input := None;
       ScanData.commission_rate := None |} in
  let transport (route : ScanRoute.t) (detection : option GpsDetection)
        (destinations : option (list Destination.t)) :=
    {| ScanData.merchant_id := ScanMerchant.merchant_id merchant;
       ScanData.merchant_type := ScanMerchant.merchant_type merchant;
       ScanData.business_name := ScanMerchant.business_name merchant;
       ScanData.matatu_plate := ScanMerchant.matatu_plate merchant;
       ScanData.sacco_name := Some (ScanMerchant.sacco_name merchant);
       ScanData.route := Some (ScanRoute.route_id route, ScanRoute.route_number route,
                               ScanRoute.route_name route);
       ScanData.gps_detection := detection;
       ScanData.available_destinations := destinations;
       ScanData.requires_amount_input := None;
       ScanData.commission_rate := None |} in
  match String.eqb (ScanMerchant.merchant_type merchant) "transport", ScanDevice.routes device with
  | true, Some route =>
      (* If transport merchant, process route and GPS detection *)
      if ScanDevice.gps_enabled device
         && JS.truthy JS.truthy_number (ScanDevice.last_gps_latitude device)
         && JS.truthy JS.truthy_number (ScanDevice.last_gps_longitude device)
      then
        let latitude := coordinate (ScanDevice.last_gps_latitude device) in
        let longitude := coordinate (ScanDevice.last_gps_longitude device) in
        (* Check if GPS is recent (within 10 minutes) *)
        let gpsAge := (Date_now env - ScanDevice.last_gps_updated_at device)%float in
        if JS.gt gpsAge maxAge then
          scan_sendError "Matatu GPS not updated recently. Please try again."
            GPS_UNAVAILABLE 503%Z
        else
          let stops := ScanRoute.stops route in
          match findNearestStop Math latitude longitude stops with
          | None => scan_sendSuccess (transport route None None) "Success" 200%Z
          | Some nearestStop =>
              let gps_detection :=
                detected (NearestStop.id nearestStop) (NearestStop.name nearestStop)
                  (getConfidenceLevel (GPS_CONFIDENCE_THRESHOLD_METERS env)
                     (NearestStop.distance_meters nearestStop))
                  (NearestStop.distance_meters nearestStop) latitude longitude in
              let destinations := availableDestinations stops (NearestStop.id nearestStop) in
              let available_destinations :=
                match destinations with
                | [] => None
                | _ =>
                    match active_fares (fares_lookup_error env) (ScanRoute.route_id route)
                            (NearestStop.id nearestStop) c with
                    | Some fares => Some (map (with_fare fares) destinations)
                    | None => Some (map without_fare destinations)
                    end
                end in
              scan_sendSuccess (transport route (Some gps_detection) available_destinations)
                "Success" 200%Z
          end
      else
        (* GPS not available - manual selection required *)
        scan_sendSuccess
          (transport route
             (Some (unavailable "unavailable"
                      "GPS unavailable. Please select boarding point manually."
                      (ScanRoute.stops route)))
             None)
          "Success" 200%Z
  | _, _ =>
      if String.eqb (ScanMerchant.merchant_type merchant) "shop" then
        (* Shop merchant - requires amount input; the query does not select
           [commission_rate], so [parseFloat] is applied to [undefined] *)
        scan_sendSuccess
          {| ScanData.merchant_id := ScanMerchant.merchant_id merchant;
             ScanData.merchant_type := ScanMerchant.merchant_type merchant;
             ScanData.business_name := ScanMerchant.business_name merchant;
             ScanData.matatu_plate := ScanMerchant.matatu_plate merchant;
             ScanData.sacco_name := None;
             ScanData.route := None;
             ScanData.gps_detection := None;
             ScanData.available_destinations := None;
             ScanData.requires_amount_input := Some true;
             ScanData.commission_rate := Some nan |}
          "Success" 200%Z
      else scan_sendSuccess responseData "Success" 200%Z
  end.

(** [scanQR]; the request body is the device token (the two
    [user_gps_...] fields are read and never used).  Reading [status] off a
    [merchants] join that is [null] throws, which the [catch] branch answers. *)
Definition scanQR (env : ScanEnv) (device_token : string) (c : Catalog) : ScanResponse :=
  match (if scan_device_lookup_error env then None else device_by_token device_token c) with
  | None => scan_sendError "Invalid QR code" INVALID_QR 404%Z
  | Some device =>
      (* Check device status *)
      if negb (String.eqb (ScanDevice.status device) "active") then
        scan_sendError "QR code has been revoked or expired" INVALID_QR 403%Z
      else
        match ScanDevice.merchants device with
        | None => scan_sendError "Server error during QR scan" SERVER_ERROR 500%Z
        | Some merchant =>
            (* Check merchant status *)
            if negb (String.eqb (ScanMerchant.status merchant) "active") then
              scan_sendError "Merchant account is suspended" MERCHANT_INACTIVE 403%Z
            else scanQR_data env c device merchant
        end
  end.

End ScanQR.

(** The fare rule [rule] is in force for the leg from [origin] to
    [destination] on [route]: it names the three and has no end date. *)
Definition quotes_fare (route origin destination : string) (rule : FareRule.t) : Prop :=
  FareRule.route_id rule = route
  /\ FareRule.origin_stop_id rule = origin
  /\ FareRule.destination_stop_id rule = destination
  /\ FareRule.effective_until rule = None.

(** ** [src/middleware/auth.js] and the payment route *)

(** [s.split(' ')] *)
Fixpoint split_space (s : string) : list string :=
  match s with
  | EmptyString => [EmptyString]
  | String c rest =>
      if Ascii.eqb c " "%char then EmptyString :: split_space rest
      else match split_space rest with
           | [] => [String c EmptyString]
           | word :: words => String c word :: words
           end
  end.

(** The text holds no space. *)
Fixpoint no_space (s : string) : bool :=
  match s with
  | EmptyString => true
  | String c rest => negb (Ascii.eqb c " "%char) && no_space rest
  end.

(** What [jwt.verify] hands to its callback: the decoded payload, an error
    named [TokenExpiredError], or another error. *)
Inductive JwtResult : Type :=
  | jwt_decoded (user_id phone_number : string)
  | TokenExpiredError
  | JsonWebTokenError.

(** [authHeader && authHeader.split(' ')[1]]; [None] is [undefined]. *)
Definition header_token (authHeader : option string) : option string :=
  if JS.truthy JS.truthy_string authHeader
  then nth_error (split_space (get_string authHeader)) 1
  else authHeader.

(** [authenticateToken]: the response it sends, or the [req.user] it
    attaches before calling [next()].  [jwt_verify] is [jwt.verify] under
    the configured secret. *)
Definition authenticateToken (jwt_verify : string -> JwtResult) (authHeader : option string)
    : Response + (string * string) :=
  let token := header_token authHeader in
  if negb (JS.truthy JS.truthy_string token) then
    inl (sendError "No authentication token provided" UNAUTHORIZED 401%Z)
  else
    match jwt_verify (get_string token) with
    | TokenExpiredError => inl (sendError "Token has expired" TOKEN_EXPIRED 401%Z)
    | JsonWebTokenError => inl (sendError "Invalid token" INVALID_TOKEN 401%Z)
    | jwt_decoded user_id phone_number => inr (user_id, phone_number)
    end.




(** ** A catalog to run the examples of [scanQR] *)

Module ScanSample.

Local Open Scope string_scope.

Definition metro : ScanMerchant.t :=
  {| ScanMerchant.merchant_id := "metro"; ScanMerchant.merchant_type := "transport";
     ScanMerchant.business_name := "Metro Trans"; ScanMerchant.matatu_plate := "KCA 123A";
     ScanMerchant.status := "active"; ScanMerchant.sacco_name := Some "Metro Sacco" |}.

Definition route46 : ScanRoute.t :=
  {| ScanRoute.route_id := "route-46"; ScanRoute.route_number := "46";
     ScanRoute.route_name := "CBD - Kangemi";
     ScanRoute.stops := [Sample.cbd; Sample.westlands; Sample.kangemi] |}.

(** The matatu stands 500 m north of the CBD stop; its fix was taken at
    [updated] milliseconds. *)
Definition matatu (updated : JS.number) : ScanDevice.t :=
  {| ScanDevice.device_token := "qr-46"; ScanDevice.device_id := "device-46";
     ScanDevice.merchant_id := "metro"; ScanDevice.route_id := Some "route-46";
     ScanDevice.status := "active";
     ScanDevice.last_gps_latitude := Some (-1.2819)%float;
     ScanDevice.last_gps_longitude := Some 36.8172%float;
     ScanDevice.last_gps_updated_at := updated;
     ScanDevice.gps_enabled := true;
     ScanDevice.merchants := Some metro;
     ScanDevice.routes := Some route46 |}.

Definition fares : list FareRule.t :=
  [ {| FareRule.route_id := "route-46"; FareRule.origin_stop_id := "cbd";
       FareRule.destination_stop_id := "westlands"; FareRule.fare_amount := 40%float;
       FareRule.effective_until := Some "2024-12-31" |};
    {| FareRule.route_id := "route-46"; FareRule.origin_stop_id := "cbd";
       FareRule.destination_stop_id := "westlands"; FareRule.fare_amount := 50%float;
       FareRule.effective_until := None |};
    {| FareRule.route_id := "route-46"; FareRule.origin_stop_id := "westlands";
       FareRule.destination_stop_id := "kangemi"; FareRule.fare_amount := 30%float;
       FareRule.effective_until := None |} ].

Definition catalog (updated : JS.number) : Catalog :=
  {| scan_devices := [matatu updated]; fare_rules := fares |}.

(** The scan happens at 1 000 000 ms. *)
Definition env : ScanEnv :=
  {| Date_now := 1000000%float; GPS_CONFIDENCE_THRESHOLD_METERS := nan;
     scan_device_lookup_error := false; fares_lookup_error := false |}.

(** A fix taken exactly ten minutes before the scan, and one taken a
    millisecond earlier. *)
Definition scan_at_ten_minutes : ScanResponse :=
  scanQR ReferenceMath.math env "qr-46" (catalog 400000%float).
Definition scan_after_ten_minutes : ScanResponse :=
  scanQR ReferenceMath.math env "qr-46" (catalog 399999%float).

(** A token check that knows one token. *)
Definition jwt_verify (token : string) : JwtResult :=
  if String.eqb token "alice-token" then jwt_decoded "alice" "+254700000001"
  else if String.eqb token "old-token" then TokenExpiredError
  else JsonWebTokenError.

(** What the scan at ten minutes answers. *)
Definition detection_at_cbd : GpsDetection :=
  detected "cbd" "CBD" Confidence.low 500%float (-1.2819)%float 36.8172%float.

Definition to_westlands : Destination.t :=
  {| Destination.id := "westlands"; Destination.name := "Westlands";
     Destination.fare := Some (Some 50%float) |}.

Definition to_kangemi : Destination.t :=
  {| Destination.id := "kangemi"; Destination.name := "Kangemi";
     Destination.fare := Some None |}.

Definition data_at_ten_minutes : ScanData.t :=
  {| ScanData.merchant_id := "metro"; ScanData.merchant_type := "transport";
     ScanData.business_name := "Metro Trans"; ScanData.matatu_plate := "KCA 123A";
     ScanData.sacco_name := Some (Some "Metro Sacco");
     ScanData.route := Some ("route-46", "46", "CBD - Kangemi");
     ScanData.gps_detection := Some detection_at_cbd;
     ScanData.available_destinations := Some [to_westlands; to_kangemi];
     ScanData.requires_amount_input := None;
     ScanData.commission_rate := None |}.

End ScanSample.

(** ** Two accounts, a replayed request and an amount below zero *)

Module LedgerSample.
Local Open Scope string_scope.

Definition bob : User.t :=
  {| User.user_id := "bob"; User.balance := 300%float;
     User.pin_hash := "hashed:4321"; User.status := "active" |}.

Definition two_accounts : DB := set_users (fun rows => (rows ++ [bob])%list) Sample.db0.

(** The payment of 50 KES sent to [POST /process], and sent again. *)
Definition route_first : Response * DB :=
  route_process Sample.platform (Sample.env "1" no_faults) (Sample.pay "R1" 50%float)
    Sample.db0.
Definition route_second : Response * DB :=
  route_process Sample.platform (Sample.env "2" no_faults) (Sample.pay "R1" 50%float)
    (snd route_first).

(** A payment of minus 50 KES. *)
Definition refund : Request.t := Sample.pay "R7" (-50)%float.

End LedgerSample.

(** ** Specification-level vocabulary for binary64 numbers *)

(** A number that is not negative: a zero, [NaN], or a positive one. *)
Definition not_negative (s : spec_float) : Prop :=
  match s with
  | S754_infinity b | S754_finite b _ _ => b = false
  | S754_zero _ | S754_nan => True
  end.

(** An integer that orders the valid binary64 numbers as [<] does. *)
Definition SFkey (x : spec_float) : Z :=
  match x with
  | S754_zero _ | S754_nan => 0
  | S754_infinity s => cond_Zopp s (4000 * 9007199254740992)
  | S754_finite s m e => cond_Zopp s ((e + 1075) * 9007199254740992 + Z.pos m)
  end.

(** ** Proof automation for handler runs *)

Ltac handler_unfold :=
  unfold processPayment, processPayment_body, route_process, route_process_body,
    run, bind, select, write, return_if, reply, ret in *.

(** Closes the branch of a run whose response contradicts what is known
    about it. *)
Ltac wrong_branch :=
  let H := fresh in
  intros H; inversion H; subst; simpl in *; try discriminate; try congruence.

(** * Properties *)

(** ** Binary64 arithmetic

    The facts about [<] and [-] the properties of the ledger rest on, proved
    from the specification of the primitive operations. *)

Lemma SFcompare_refl s :
  SFcompare s s = Some Eq \/ SFcompare s s = None.
Proof.
  destruct s as [[|]|[|]| |[|] m e]; simpl; auto;
    rewrite Z.compare_refl, Pos.compare_cont_refl; auto.
Qed.

Lemma float_ltb_irrefl (x : float) : PrimFloat.ltb x x = false.
Proof.
  rewrite FloatAxioms.ltb_spec. unfold SFltb.
  destruct (SFcompare_refl (Prim2SF x)) as [E | E]; rewrite E; reflexivity.
Qed.

(** Every result of the rounding of a non-negative mantissa is [NaN] or
    carries the sign it was given. *)
Lemma binary_round_aux_sign prec emax mx ex lx :
  not_negative (binary_round_aux prec emax false mx ex lx).
Proof.
  unfold binary_round_aux.
  destruct (shr_fexp prec emax mx ex lx) as [mrs' e'].
  destruct (shr_fexp prec emax _ e' loc_Exact) as [mrs'' e''].
  destruct (shr_m mrs''); simpl; auto.
  destruct (Z.leb _ _); simpl; auto.
Qed.

Lemma binary_normalize_sign prec emax m e :
  (0 <= m)%Z ->
  not_negative (binary_normalize prec emax m e false).
Proof.
  destruct m as [|p|p]; simpl; intros H; [ exact I | | lia ].
  unfold binary_round.
  destruct (shl_align _ _ _) as [mz ez].
  apply binary_round_aux_sign.
Qed.

Lemma not_negative_not_lt_zero s :
  not_negative s -> SFltb s (S754_zero false) = false.
Proof.
  destruct s as [b|b| |b m e]; simpl; intros H; subst; reflexivity.
Qed.

Lemma digits2_pos_bounds (m : positive) :
  (2 ^ (Z.pos (digits2_pos m) - 1) <= Z.pos m < 2 ^ Z.pos (digits2_pos m))%Z.
Proof.
  induction m as [m IH | m IH | ]; simpl digits2_pos.
  - rewrite Pos2Z.inj_succ.
    replace (Z.succ (Z.pos (digits2_pos m)) - 1)%Z with (Z.succ (Z.pos (digits2_pos m) - 1))%Z by lia.
    rewrite !Z.pow_succ_r by lia. lia.
  - rewrite Pos2Z.inj_succ.
    replace (Z.succ (Z.pos (digits2_pos m)) - 1)%Z with (Z.succ (Z.pos (digits2_pos m) - 1))%Z by lia.
    rewrite !Z.pow_succ_r by lia. lia.
  - simpl. lia.
Qed.

Lemma iter_xO (m d : positive) :
  Z.pos (Pos.iter xO m d) = (Z.pos m * 2 ^ Z.pos d)%Z.
Proof.
  induction d as [|d IH] using Pos.peano_ind.
  - simpl. lia.
  - rewrite Pos.iter_succ, Pos2Z.inj_succ, Z.pow_succ_r by lia.
    rewrite Pos2Z.inj_xO, IH. lia.
Qed.

(** The mantissa of [m * 2^e] once aligned on the exponent [e' <= e]. *)
Lemma shl_align_value m e e' :
  (e' <= e)%Z ->
  Z.pos (fst (shl_align m e e')) = (Z.pos m * 2 ^ (e - e'))%Z.
Proof.
  intros H. unfold shl_align.
  destruct (e' - e)%Z as [|p|p] eqn:E; simpl.
  - replace (e - e')%Z with 0%Z by lia. rewrite Z.pow_0_r. lia.
  - lia.
  - rewrite iter_xO. replace (e - e')%Z with (Z.pos p) by lia. reflexivity.
Qed.

(** Between two valid binary64 mantissas, the one with the larger
    exponent is the larger number. *)
Lemma valid_exponent_order m1 e1 m2 e2 :
  bounded prec emax m1 e1 = true ->
  bounded prec emax m2 e2 = true ->
  (e1 < e2)%Z ->
  (Z.pos m1 < Z.pos m2 * 2 ^ (e2 - e1))%Z.
Proof.
  unfold bounded, canonical_mantissa, fexp, emin, prec, emax.
  intros H1 H2 Hlt.
  apply andb_prop in H1 as [H1 _]. apply andb_prop in H2 as [H2 _].
  apply Z.eqb_eq in H1, H2.
  pose proof (digits2_pos_bounds m1) as [_ B1].
  pose proof (digits2_pos_bounds m2) as [B2 _].
  assert (D1 : (Z.pos (digits2_pos m1) <= 53)%Z) by lia.
  assert (D2 : (Z.pos (digits2_pos m2) = 53)%Z) by lia.
  rewrite D2 in B2.
  assert (P1 : (2 ^ Z.pos (digits2_pos m1) <= 2 ^ 53)%Z)
    by (apply Z.pow_le_mono_r; lia).
  assert (P2 : (2 ^ 1 <= 2 ^ (e2 - e1))%Z) by (apply Z.pow_le_mono_r; lia).
  change (2 ^ (53 - 1))%Z with 4503599627370496%Z in B2.
  change (2 ^ 53)%Z with 9007199254740992%Z in P1.
  change (2 ^ 1)%Z with 2%Z in P2.
  nia.
Qed.

(** The difference of two valid numbers [x] and [y] with [x < y] false
    is not negative. *)
Lemma SFsub_not_negative x y :
  valid_binary x = true -> valid_binary y = true ->
  SFltb x y = false ->
  not_negative (SF64sub x y).
Proof.
  unfold SF64sub, SFltb.
  destruct x as [s1|s1| |s1 m1 e1], y as [s2|s2| |s2 m2 e2];
    try solve [ repeat match goal with b : bool |- _ => destruct b end;
                simpl; intros; auto; discriminate ].
  intros V1 V2 H. cbn [valid_binary] in V1, V2. cbn [SFsub].
  apply binary_normalize_sign.
  rewrite !shl_align_value by lia.
  cbn [SFcompare] in H.
  destruct s1, s2; cbn [cond_Zopp]; try discriminate.
  - destruct (Z.compare_spec e1 e2) as [E | E | E]; try discriminate.
    + subst e2. rewrite Z.min_id, Z.sub_diag, Z.pow_0_r.
      change (Pos.compare_cont Eq m1 m2) with (Pos.compare m1 m2) in H.
      destruct (Pos.compare_spec m1 m2); simpl in H; try discriminate; lia.
    + pose proof (@valid_exponent_order m1 e1 m2 e2 V1 V2 E).
      rewrite Z.min_l, Z.sub_diag, Z.pow_0_r by lia. lia.
  - pose proof (Z.pow_nonneg 2 (e1 - Z.min e1 e2)).
    pose proof (Z.pow_nonneg 2 (e2 - Z.min e1 e2)). nia.
  - destruct (Z.compare_spec e1 e2) as [E | E | E]; try discriminate.
    + subst e2. rewrite Z.min_id, Z.sub_diag, Z.pow_0_r.
      change (Pos.compare_cont Eq m1 m2) with (Pos.compare m1 m2) in H.
      destruct (Pos.compare_spec m1 m2); simpl in H; try discriminate; lia.
    + pose proof (@valid_exponent_order m2 e2 m1 e1 V2 V1 E).
      rewrite Z.min_r, Z.sub_diag, Z.pow_0_r by lia. lia.
Qed.

(** [x - y] is not below zero when [x < y] is false. *)
Lemma float_sub_not_negative (x y : float) :
  PrimFloat.ltb x y = false -> PrimFloat.ltb (x - y) 0 = false.
Proof.
  intros H. rewrite FloatAxioms.ltb_spec in H. rewrite FloatAxioms.ltb_spec, sub_spec.
  change (Prim2SF 0) with (S754_zero false).
  apply not_negative_not_lt_zero, SFsub_not_negative; auto using Prim2SF_valid.
Qed.

(** What [is_finite] says of the specification of a number. *)
Lemma float_is_finite_spec (x : float) :
  PrimFloat.is_finite x = true ->
  (exists s, Prim2SF x = S754_zero s) \/ (exists s m e, Prim2SF x = S754_finite s m e).
Proof.
  unfold is_finite, is_nan, is_infinity.
  rewrite !FloatAxioms.eqb_spec, abs_spec.
  change (Prim2SF infinity) with (S754_infinity false).
  destruct (Prim2SF x) as [s|[|]| |s m e]; simpl; try discriminate; intros _;
    [ left | right ]; eauto.
Qed.

(** A finite number minus itself is [+0]. *)
Lemma float_sub_diag (x : float) :
  PrimFloat.is_finite x = true -> (x - x)%float = 0%float.
Proof.
  intros H. apply Prim2SF_inj. rewrite sub_spec.
  change (Prim2SF 0) with (S754_zero false).
  destruct (float_is_finite_spec x H) as [[s E] | (s & m & e & E)]; rewrite E.
  - destruct s; reflexivity.
  - unfold SF64sub. cbn [SFsub]. rewrite Z.sub_diag. reflexivity.
Qed.


(** *** The order of [<] *)

Lemma bounded_range m e :
  bounded prec emax m e = true ->
  (-1074 <= e <= 971 /\ Z.pos m < 9007199254740992)%Z.
Proof.
  unfold bounded, canonical_mantissa, fexp, emin, prec, emax.
  intros H. apply andb_prop in H as [H1 H2].
  apply Z.eqb_eq in H1. apply Z.leb_le in H2.
  pose proof (digits2_pos_bounds m) as [_ B].
  assert (D : (Z.pos (digits2_pos m) <= 53)%Z) by lia.
  assert (P : (2 ^ Z.pos (digits2_pos m) <= 2 ^ 53)%Z) by (apply Z.pow_le_mono_r; lia).
  change (2 ^ 53)%Z with 9007199254740992%Z in P. lia.
Qed.

Lemma SFcompare_key x y :
  valid_binary x = true -> valid_binary y = true ->
  x <> S754_nan -> y <> S754_nan ->
  SFcompare x y = Some (Z.compare (SFkey x) (SFkey y)).
Proof.
  destruct x as [s1|s1| |s1 m1 e1], y as [s2|s2| |s2 m2 e2];
    intros V1 V2 N1 N2; try congruence; cbn [valid_binary] in V1, V2;
    try (apply bounded_range in V1); try (apply bounded_range in V2);
    cbn [SFcompare SFkey]; f_equal;
    repeat match goal with b : bool |- _ => destruct b end; cbn [cond_Zopp];
    try reflexivity;
    try (symmetry; first [ apply Z.compare_lt_iff; lia | apply Z.compare_gt_iff; lia ]).
  all: change (Pos.compare_cont Eq m1 m2) with (Pos.compare m1 m2);
    destruct (Z.compare_spec e1 e2); destruct (Pos.compare_spec m1 m2); cbn [CompOpp];
    symmetry;
    first [ apply Z.compare_eq_iff; lia | apply Z.compare_lt_iff; lia
          | apply Z.compare_gt_iff; lia ].
Qed.

Lemma SFltb_key x y :
  valid_binary x = true -> valid_binary y = true ->
  SFltb x y = true <->
  x <> S754_nan /\ y <> S754_nan /\ (SFkey x < SFkey y)%Z.
Proof.
  intros V1 V2. unfold SFltb. split.
  - intros H.
    assert (N1 : x <> S754_nan) by (intros ->; discriminate).
    assert (N2 : y <> S754_nan) by (intros ->; destruct x; discriminate).
    rewrite (SFcompare_key V1 V2 N1 N2) in H.
    destruct (Z.compare_spec (SFkey x) (SFkey y)); try discriminate. auto.
  - intros (N1 & N2 & H). rewrite (SFcompare_key V1 V2 N1 N2).
    apply Z.compare_lt_iff in H. rewrite H. reflexivity.
Qed.

Lemma float_ltb_trans (a b c : float) :
  PrimFloat.ltb a b = true -> PrimFloat.ltb b c = true -> PrimFloat.ltb a c = true.
Proof.
  rewrite !FloatAxioms.ltb_spec, !SFltb_key by apply Prim2SF_valid.
  intros (Na & _ & H1) (_ & Nc & H2). repeat split; try assumption. lia.
Qed.

(** [a < m] and not [s < m] put [a] strictly below [s], unless [s] is
    [NaN]. *)
Lemma float_ltb_below (a m s : float) :
  PrimFloat.ltb a m = true -> PrimFloat.ltb s m = false ->
  PrimFloat.ltb a s = true \/ PrimFloat.eqb s s = false.
Proof.
  rewrite !FloatAxioms.ltb_spec, FloatAxioms.eqb_spec.
  intros H1 H2.
  apply SFltb_key in H1 as (Na & Nm & H1); try apply Prim2SF_valid.
  destruct (Prim2SF s) eqn:Es; try (right; reflexivity); left;
    rewrite <- Es in *; apply SFltb_key; try apply Prim2SF_valid;
    (assert (Ns : Prim2SF s <> S754_nan) by (rewrite Es; discriminate));
    repeat split; try assumption;
    destruct (Z.lt_ge_cases (SFkey (Prim2SF s)) (SFkey (Prim2SF m))) as [L | L];
    try lia;
    (assert (Hlt : SFltb (Prim2SF s) (Prim2SF m) = true)
      by (apply SFltb_key; try apply Prim2SF_valid; auto));
    congruence.
Qed.

(** [NaN], the one number that is not equal to itself, is below nothing. *)
Lemma float_nan_not_ltb (x y : float) :
  PrimFloat.eqb x x = false -> PrimFloat.ltb x y = false.
Proof.
  rewrite FloatAxioms.ltb_spec, FloatAxioms.eqb_spec. unfold SFeqb, SFltb.
  destruct (Prim2SF x) as [[|]|[|]| |[|] m e]; simpl; try discriminate; try reflexivity;
    rewrite Z.compare_refl, Pos.compare_cont_refl; discriminate.
Qed.

Section Properties.

Variable Math : MathLib.
Variable platform : Platform.

Local Open Scope string_scope.

(** ** The fraud detection block *)

(** The block either falls through with the value of
    [nearest_stop_distance_meters] and an untouched store, or replies
    [ORIGIN_MISMATCH] after at most one write, to [fraud_alerts]. *)
Lemma fraud_detection_cases env req db :
  (exists d, fraud_detection Math env req db = (inl d, db))
  \/ (exists distance,
        JS.gt distance (maxDistance env) = true
        /\ fraud_detection Math env req db =
           (inr (sendError
                   "Origin location mismatch detected. Please verify your boarding point."
                   ORIGIN_MISMATCH 400%Z),
            if alert_insert_error (faults env) then db
            else set_fraud_alerts (fun rows => rows ++ [fraud_alert req distance])%list db)).
Proof.
  unfold fraud_detection, bind, select, write, reply, ret.
  destruct (_ && _ && _ && _); [ | left; eauto ].
  destruct (lookup _ _ _) as [route|]; [ | left; eauto ].
  destruct (find _ _) as [st|]; [ | left; eauto ].
  destruct (_ && _); [ | left; eauto ].
  match goal with |- context [JS.gt ?d ?m] => destruct (JS.gt d m) eqn:G end.
  - right. eexists. split; [ exact G | ]. reflexivity.
  - left; eauto.
Qed.


(** Without one of the four request fields, or when the claimed stop
    lacks a coordinate, the block does nothing. *)
Lemma fraud_detection_skipped env req db :
  JS.truthy JS.truthy_string (Request.route_id req) = false
  \/ JS.truthy JS.truthy_string (Request.origin_stop req) = false
  \/ JS.truthy JS.truthy_number (Request.gps_latitude req) = false
  \/ JS.truthy JS.truthy_number (Request.gps_longitude req) = false
  \/ (exists stop, claims_origin env req db stop /\ lacks_coordinates stop = true) ->
  fraud_detection Math env req db = (inl None, db).
Proof.
  unfold fraud_detection, bind, select, write, reply, ret.
  intros [H | [H | [H | [H | (stop & Hclaim & Hc)]]]].
  - rewrite H. reflexivity.
  - rewrite H, andb_false_r. reflexivity.
  - rewrite H, andb_false_r. reflexivity.
  - rewrite H, andb_false_r. reflexivity.
  - destruct Hclaim as (Hr & Ho & Hla & Hlo & route & Hroute & Hfind).
    rewrite Hr, Ho, Hla, Hlo. cbn [andb]. rewrite Hroute, Hfind.
    unfold lacks_coordinates in Hc.
    destruct (JS.truthy JS.truthy_number (Stop.latitude stop));
      destruct (JS.truthy JS.truthy_number (Stop.longitude stop));
      simpl in *; try discriminate; reflexivity.
Qed.

(** ** Queries ending in [.single()] *)

Section Single.

Variable A : Type.
Variable key : A -> string.

Lemma filter_absent_key k (rows : list A) :
  ~ In k (map key rows) ->
  filter (fun x => String.eqb (key x) k) rows = [].
Proof.
  induction rows as [|x rows IH]; simpl; intros H; [ reflexivity | ].
  destruct (String.eqb_spec (key x) k) as [E | E].
  - exfalso. apply H. left. exact E.
  - apply IH. intros Hin. apply H. right. exact Hin.
Qed.

(** Under unique keys a query that finds nothing matched no row at all. *)
Lemma single_none_unique k (rows : list A) :
  NoDup (map key rows) ->
  single (fun x => String.eqb (key x) k) rows = None ->
  filter (fun x => String.eqb (key x) k) rows = [].
Proof.
  unfold single.
  induction rows as [|x rows IH]; simpl; intros Hnd Hs; [ reflexivity | ].
  inversion Hnd as [|? ? Hx Hrows]; subst.
  destruct (String.eqb_spec (key x) k) as [E | E].
  - subst k. rewrite filter_absent_key in Hs by exact Hx. discriminate.
  - apply IH; assumption.
Qed.

(** A row appended to a table that held none with its key is the one row
    the query finds. *)
Lemma single_appended k (rows : list A) (row : A) :
  filter (fun x => String.eqb (key x) k) rows = [] ->
  key row = k ->
  single (fun x => String.eqb (key x) k) (rows ++ [row]) = Some row.
Proof.
  intros Hf Hk. unfold single. rewrite filter_app, Hf. simpl.
  rewrite Hk, String.eqb_refl. reflexivity.
Qed.

Lemma NoDup_appended k (rows : list A) (row : A) :
  NoDup (map key rows) ->
  filter (fun x => String.eqb (key x) k) rows = [] ->
  key row = k ->
  NoDup (map key (rows ++ [row])).
Proof.
  intros Hnd Hf Hk. rewrite map_app. simpl.
  apply NoDup_app; [ exact Hnd | repeat constructor; simpl; tauto | ].
  intros a Ha [Hin | []]. subst a.
  apply in_map_iff in Ha as (x & Hx & Hin).
  assert (Hfx : In x (filter (fun x => String.eqb (key x) k) rows)).
  { apply filter_In. split; [ exact Hin | ]. rewrite Hx, Hk. apply String.eqb_refl. }
  rewrite Hf in Hfx. exact Hfx.
Qed.

End Single.

(** The account a handler found is found again after the balance update,
    with the new balance. *)
Lemma user_by_id_update_balance uid b db user :
  single (fun u => String.eqb (User.user_id u) uid) (users db) = Some user ->
  single (fun u => String.eqb (User.user_id u) uid) (update_balance uid b (users db))
  = Some (User.with_balance b user).
Proof.
  unfold single, update_balance. intros H.
  rewrite filter_map_swap.
  match goal with
  | |- context [filter ?f (users db)] =>
      replace (filter f (users db))
        with (filter (fun u => String.eqb (User.user_id u) uid) (users db))
  end.
  - destruct (filter _ (users db)) as [|u [|u' rest]] eqn:Ef; try discriminate.
    inversion H; subst. simpl.
    assert (Hin : In user (filter (fun u => String.eqb (User.user_id u) uid) (users db)))
      by (rewrite Ef; left; reflexivity).
    apply filter_In in Hin as [_ Hu]. rewrite Hu. reflexivity.
  - apply filter_ext. intros u.
    destruct (String.eqb (User.user_id u) uid) eqn:E; simpl; rewrite ?E; reflexivity.
Qed.

(** A reply of the block is the rejection of a claimed origin that was
    evaluated. *)
Lemma fraud_detection_replies env req db r db1 :
  fraud_detection Math env req db = (inr r, db1) ->
  exists stop,
    claims_origin env req db stop
    /\ lacks_coordinates stop = false
    /\ JS.gt (claimed_distance Math req stop) (maxDistance env) = true
    /\ r = sendError
             "Origin location mismatch detected. Please verify your boarding point."
             ORIGIN_MISMATCH 400%Z
    /\ db1 = (if alert_insert_error (faults env) then db
              else set_fraud_alerts
                     (fun rows => rows ++ [fraud_alert req (claimed_distance Math req stop)])%list
                     db).
Proof.
  unfold fraud_detection, bind, select, write, reply, ret, claims_origin.
  destruct (JS.truthy JS.truthy_string (Request.route_id req)) eqn:Hr;
    [ | discriminate ].
  destruct (JS.truthy JS.truthy_string (Request.origin_stop req)) eqn:Ho;
    [ | discriminate ].
  destruct (JS.truthy JS.truthy_number (Request.gps_latitude req)) eqn:Hla;
    [ | discriminate ].
  destruct (JS.truthy JS.truthy_number (Request.gps_longitude req)) eqn:Hlo;
    [ | discriminate ].
  cbn [andb].
  destruct (lookup _ _ _) as [route|] eqn:Hroute; [ | discriminate ].
  destruct (find _ _) as [stop|] eqn:Hfind; [ | discriminate ].
  destruct (JS.truthy JS.truthy_number (Stop.latitude stop)) eqn:H1; [ | discriminate ].
  destruct (JS.truthy JS.truthy_number (Stop.longitude stop)) eqn:H2; [ | discriminate ].
  cbn [andb]. fold (claimed_distance Math req stop).
  destruct (JS.gt _ _) eqn:G; [ | discriminate ].
  intros H. inversion H; subst; clear H.
  exists stop. repeat split; eauto.
  unfold lacks_coordinates. rewrite H1, H2. reflexivity.
Qed.

(** ** [processPayment] *)

(** A run that ends with a receipt passed every check, left the fraud
    detection without a reply and inserted its row. *)
Lemma processPayment_paid env req db resp db' :
  processPayment Math platform env req db = (resp, db') ->
  paid resp = true ->
  exists user device d,
    checks_pass platform env req db user device
    /\ fraud_detection Math env req db = (inl d, db)
    /\ txn_insert_error (faults env) = false
    /\ let amount := Request.amount req in
       let commission :=
         (amount * JS.parseFloat (Merchant.commission_rate (Device.merchants device)))%float in
       let before := JS.parseFloat (User.balance user) in
       let after := (before - amount)%float in
       let t := new_transaction env req device commission (amount - commission)%float
                  true d before after in
       resp = sendSuccess (PaymentReceipt (payment_receipt req device t before after))
                "Payment successful" 201%Z
       /\ transactions db' = (transactions db ++ [t])%list
       /\ users db' = (if balance_update_error (faults env) then users db
                       else update_balance (Request.user_id req) after (users db))
       /\ fraud_alerts db' = fraud_alerts db.
Proof.
  handler_unfold. unfold checks_pass.
  destruct (lookup (txn_lookup_error _) _ db) as [t|] eqn:Et; [ wrong_branch | ].
  destruct (lookup (user_lookup_error _) _ db) as [user|] eqn:Eu; [ | wrong_branch ].
  destruct (String.eqb (User.status user) "active") eqn:Es; simpl; [ | wrong_branch ].
  destruct (bcrypt_compare _ _ _) eqn:Ep; simpl; [ | wrong_branch ].
  destruct (JS.lt _ _) eqn:Eb; simpl; [ wrong_branch | ].
  destruct (lookup (device_lookup_error _) _ db) as [device|] eqn:Ed; [ | wrong_branch ].
  destruct (fraud_detection_cases env req db) as [[d E] | [dist [_ E]]]; rewrite E;
    [ | wrong_branch ].
  destruct (txn_insert_error (faults env)) eqn:Ei; simpl; [ wrong_branch | ].
  intros H _. inversion H; subst; clear H.
  exists user, device, d.
  apply String.eqb_eq in Es.
  repeat split; auto;
    destruct (balance_update_error (faults env)),
             (notifications_insert_error (faults env)); reflexivity.
Qed.

(** Conversely, when the checks pass and the fraud detection falls
    through, the run inserts its row, or fails on the insert and writes
    nothing. *)
Lemma processPayment_commits env req db user device d :
  checks_pass platform env req db user device ->
  fraud_detection Math env req db = (inl d, db) ->
  let amount := Request.amount req in
  let commission :=
    (amount * JS.parseFloat (Merchant.commission_rate (Device.merchants device)))%float in
  let before := JS.parseFloat (User.balance user) in
  let after := (before - amount)%float in
  let t := new_transaction env req device commission (amount - commission)%float
             true d before after in
  let (resp, db') := processPayment Math platform env req db in
  if txn_insert_error (faults env) then
    resp = sendError "Payment failed" SERVER_ERROR 500%Z /\ db' = db
  else
    resp = sendSuccess (PaymentReceipt (payment_receipt req device t before after))
             "Payment successful" 201%Z
    /\ transactions db' = (transactions db ++ [t])%list
    /\ users db' = (if balance_update_error (faults env) then users db
                    else update_balance (Request.user_id req) after (users db))
    /\ fraud_alerts db' = fraud_alerts db.
Proof.
  intros (Ht & Hu & Hs & Hp & Hb & Hd) Hf. simpl.
  handler_unfold.
  rewrite Ht, Hu, Hs. simpl. rewrite Hp. simpl. rewrite Hb. simpl. rewrite Hd, Hf.
  destruct (txn_insert_error (faults env)); simpl; [ split; reflexivity | ].
  repeat split;
    destruct (balance_update_error (faults env)),
             (notifications_insert_error (faults env)); reflexivity.
Qed.

(** A run that does not end with a receipt leaves [users] and
    [transactions] as they were. *)
Lemma processPayment_unpaid env req db resp db' :
  processPayment Math platform env req db = (resp, db') ->
  paid resp = false ->
  users db' = users db /\ transactions db' = transactions db.
Proof.
  handler_unfold.
  destruct (lookup (txn_lookup_error _) _ db) as [t|]; [ wrong_branch; auto | ].
  destruct (lookup (user_lookup_error _) _ db) as [user|]; [ | wrong_branch; auto ].
  destruct (negb (String.eqb (User.status user) "active")); simpl; [ wrong_branch; auto | ].
  destruct (negb (bcrypt_compare _ _ _)); simpl; [ wrong_branch; auto | ].
  destruct (JS.lt _ _); simpl; [ wrong_branch; auto | ].
  destruct (lookup (device_lookup_error _) _ db) as [device|]; [ | wrong_branch; auto ].
  destruct (fraud_detection_cases env req db) as [[d E] | [dist [_ E]]]; rewrite E.
  - destruct (txn_insert_error (faults env)); simpl; wrong_branch; auto.
  - wrong_branch. destruct (alert_insert_error (faults env)); auto.
Qed.

(** ** [POST /process] *)

(** The commission rate of [POST /process]:
    [merchantData?.commission_rate || 0.05]. *)
Lemma route_process_outcome env req db :
  let amount := JS.parseFloat (Request.amount req) in
  let commissionRate :=
    match lookup (merchant_lookup_error (faults env))
                 (merchant_by_id (get_string (Request.merchant_id req))) db with
    | Some m => JS.or_else (Merchant.commission_rate m) 0.05%float
    | None => 0.05%float
    end in
  let (resp, db') := route_process platform env req db in
  (paid resp = false /\ transactions db' = transactions db /\ users db' = users db)
  \/ (paid resp = true
      /\ txn_insert_error (faults env) = false
      /\ exists user,
           lookup (user_lookup_error (faults env)) (user_by_id (Request.user_id req)) db
           = Some user
           /\ JS.lt (JS.parseFloat (User.balance user)) amount = false
           /\ let before := JS.parseFloat (User.balance user) in
              let t := route_transaction env req (amount * commissionRate)%float
                         (amount - amount * commissionRate)%float
                         before (before - amount)%float (generateReferenceCode env) in
              transactions db' = (transactions db ++ [t])%list
              /\ users db' = (if balance_update_error (faults env) then users db
                              else update_balance (Request.user_id req)
                                     (before - amount)%float (users db))).
Proof.
  simpl. handler_unfold.
  destruct (negb _ || negb _ || negb _); simpl; [ left; auto | ].
  destruct (lookup (user_lookup_error _) _ db) as [user|] eqn:Eu; [ | left; auto ].
  destruct (negb (bcrypt_compare _ _ _)); simpl; [ left; auto | ].
  destruct (JS.lt _ _) eqn:Eb; simpl; [ left; auto | ].
  destruct (txn_insert_error (faults env)) eqn:Ei; simpl; [ left; auto | ].
  right. split; [ reflexivity | ]. split; [ reflexivity | ].
  exists user. split; [ reflexivity | ]. split; [ assumption | ].
  split;
    destruct (balance_update_error (faults env)), (audit_insert_error (faults env));
    reflexivity.
Qed.

(** ** The properties of the specification *)


(** C6, as amended.  The row of a successful payment stores the binary64
    product [amount * commission_rate] as commission and the binary64
    difference [amount - commission] as net amount, each rounded once; no
    further relation between the two and the amount is computed or checked.
    Both payment handlers behave so; [POST /process] takes the rate
    [merchantData?.commission_rate || 0.05]. *)
Theorem commission_split_as_computed env req db :
  (let (resp, db') := processPayment Math platform env req db in
   paid resp = true ->
   exists device t,
     lookup (device_lookup_error (faults env)) (device_by_id (Request.device_id req)) db
     = Some device
     /\ transactions db' = (transactions db ++ [t])%list
     /\ Transaction.amount t = Request.amount req
     /\ Transaction.merchant_commission t
        = (Request.amount req
           * JS.parseFloat (Merchant.commission_rate (Device.merchants device)))%float
     /\ Transaction.net_amount t
        = (Request.amount req - Transaction.merchant_commission t)%float)
  /\
  (let (resp, db') := route_process platform env req db in
   paid resp = true ->
   exists t,
     transactions db' = (transactions db ++ [t])%list
     /\ Transaction.amount t = JS.parseFloat (Request.amount req)
     /\ Transaction.merchant_commission t
        = (JS.parseFloat (Request.amount req)
           * match lookup (merchant_lookup_error (faults env))
                          (merchant_by_id (get_string (Request.merchant_id req))) db with
             | Some m => JS.or_else (Merchant.commission_rate m) 0.05%float
             | None => 0.05%float
             end)%float
     /\ Transaction.net_amount t
        = (JS.parseFloat (Request.amount req) - Transaction.merchant_commission t)%float).
Proof.
  split.
  - destruct (processPayment Math platform env req db) as [resp db'] eqn:E.
    intros P.
    destruct (@processPayment_paid _ _ _ _ _ E P)
      as (user & device & d & Hc & _ & _ & _ & Ht & _ & _).
    destruct Hc as (_ & _ & _ & _ & _ & Hd).
    eexists device, _. split; [ exact Hd | ]. split; [ exact Ht | ].
    simpl. repeat split.
  - pose proof (route_process_outcome env req db) as H. simpl in H.
    destruct (route_process platform env req db) as [resp db'].
    intros P.
    destruct H as [(P' & _) | (_ & _ & user & _ & _ & Ht & _)]; [ congruence | ].
    eexists. split; [ exact Ht | ]. simpl. repeat split.
Qed.

(** C9.  Every payment that [processPayment] answers with a receipt
    stored a row whose [auto_detected_origin] is [true]: the flag is the
    constant the local is initialised with, whatever the request says about
    origin and GPS. *)
Theorem auto_detected_origin_always_true env req db resp db' :
  processPayment Math platform env req db = (resp, db') ->
  paid resp = true ->
  exists t,
    transactions db' = (transactions db ++ [t])%list
    /\ Transaction.reference_code t = Request.idempotency_key req
    /\ Transaction.origin_stop t = JS.or_null JS.truthy_string (Request.origin_stop req)
    /\ Transaction.gps_boarding_latitude t
       = JS.or_null JS.truthy_number (Request.gps_latitude req)
    /\ Transaction.auto_detected_origin t = true.
Proof.
  intros E P.
  destruct (@processPayment_paid _ _ _ _ _ E P)
    as (user & device & d & _ & _ & _ & _ & Ht & _ & _).
  eexists. split; [ exact Ht | ]. simpl. repeat split.
Qed.

(** C2, as amended.  Over a store with unique reference codes, once a
    payment was answered with a receipt, a later call carrying the same
    reference code (whatever its other arguments) finds the stored row and
    answers success with that row's [transaction_id], [status] and [amount]
    only, under the message "Transaction already processed" and status 200;
    it writes nothing, so there is exactly one row and one balance decrement.
    The replayed answer agrees with the receipt on those three fields; it is
    not the receipt. *)
Theorem replay_returns_stored_transaction env1 env2 req req2 db resp1 db1 :
  unique_reference_codes db ->
  txn_lookup_error (faults env1) = false ->
  txn_lookup_error (faults env2) = false ->
  processPayment Math platform env1 req db = (resp1, db1) ->
  paid resp1 = true ->
  Request.idempotency_key req2 = Request.idempotency_key req ->
  processPayment Math platform env2 req2 db1
  = (sendSuccess (ExistingTxn (uuidv4 env1) "success" (Request.amount req))
       "Transaction already processed" 200%Z, db1)
  /\ unique_reference_codes db1
  /\ exists r,
       resp1 = sendSuccess (PaymentReceipt r) "Payment successful" 201%Z
       /\ Receipt.transaction_id r = uuidv4 env1
       /\ Receipt.status r = "success"
       /\ Receipt.amount r = Request.amount req.
Proof.
  intros Hnd He1 He2 E P Hkey.
  destruct (@processPayment_paid _ _ _ _ _ E P)
    as (user & device & d & Hc & _ & _ & Hresp & Ht & _ & _).
  destruct Hc as (Hnone & _).
  unfold lookup in Hnone. rewrite He1 in Hnone.
  unfold transaction_by_reference in Hnone.
  pose proof (single_none_unique Transaction.reference_code _ _ Hnd Hnone) as Hf.
  split; [ | split ].
  - handler_unfold. unfold lookup, transaction_by_reference.
    rewrite He2, Hkey, Ht.
    erewrite single_appended; [ reflexivity | exact Hf | reflexivity ].
  - unfold unique_reference_codes. rewrite Ht.
    eapply NoDup_appended; [ exact Hnd | exact Hf | reflexivity ].
  - eexists. split; [ exact Hresp | ]. simpl. repeat split.
Qed.

(** What one paid charge does to the balance of its account. *)
Lemma processPayment_debits env req db resp db' :
  processPayment Math platform env req db = (resp, db') ->
  paid resp = true ->
  exists b,
    balance_of db (Request.user_id req) = Some b
    /\ JS.lt (JS.parseFloat b) (Request.amount req) = false
    /\ JS.lt (debit b (Request.amount req)) 0%float = false
    /\ balance_of db' (Request.user_id req)
       = Some (if balance_update_error (faults env) then b
               else debit b (Request.amount req)).
Proof.
  intros E P.
  destruct (@processPayment_paid _ _ _ _ _ E P)
    as (user & device & d & Hc & _ & _ & _ & _ & Hu & _).
  destruct Hc as (_ & Hlookup & _ & _ & Hb & _).
  unfold lookup in Hlookup.
  destruct (user_lookup_error (faults env)); [ discriminate | ].
  exists (User.balance user).
  unfold balance_of. rewrite Hlookup. simpl.
  split; [ reflexivity | ]. split; [ exact Hb | ].
  split; [ apply float_sub_not_negative; exact Hb | ].
  unfold user_by_id in *. rewrite Hu.
  destruct (balance_update_error (faults env)).
  - rewrite Hlookup. reflexivity.
  - erewrite user_by_id_update_balance by exact Hlookup. reflexivity.
Qed.

(** A charge that exceeds the balance. *)
Lemma processPayment_insufficient env req db user :
  lookup (txn_lookup_error (faults env))
         (transaction_by_reference (Request.idempotency_key req)) db = None ->
  lookup (user_lookup_error (faults env)) (user_by_id (Request.user_id req)) db = Some user ->
  User.status user = "active" ->
  bcrypt_compare platform (Request.pin req) (User.pin_hash user) = true ->
  JS.lt (JS.parseFloat (User.balance user)) (Request.amount req) = true ->
  processPayment Math platform env req db
  = (sendError "Insufficient balance" INSUFFICIENT_BALANCE 400%Z, db).
Proof.
  intros Ht Hu Hs Hp Hb. handler_unfold.
  rewrite Ht, Hu, Hs. simpl. rewrite Hp. simpl. rewrite Hb. reflexivity.
Qed.

(** The balances of a run of paid charges against one account. *)
Lemma charges_debit calls : forall db rs db' uid b0,
  charges Math platform calls db = (rs, db') ->
  Forall (fun r => paid r = true) rs ->
  Forall (fun c => Request.user_id (snd c) = uid
                   /\ balance_update_error (faults (fst c)) = false) calls ->
  balance_of db uid = Some b0 ->
  let amounts := map (fun c => Request.amount (snd c)) calls in
  balance_of db' uid = Some (fold_left debit amounts b0)
  /\ Forall (fun b => JS.lt b 0%float = false) (balances b0 amounts).
Proof.
  induction calls as [|[env req] calls IH]; simpl; intros db rs db' uid b0 E Hp Hc Hb.
  - inversion E; subst. split; [ exact Hb | constructor ].
  - destruct (processPayment Math platform env req db) as [r db1] eqn:E1.
    destruct (charges Math platform calls db1) as [rs' db2] eqn:E2.
    inversion E; subst; clear E.
    inversion Hp as [|? ? Hr Hrs]; subst.
    inversion Hc as [|? ? [Hu Hf] Hcs]; subst. simpl in Hf.
    simpl in *.
    destruct (@processPayment_debits _ _ _ _ _ E1 Hr) as (b & Hb0 & _ & Hnn & Hb1). rewrite Hb in Hb0. inversion Hb0; subst b.
    rewrite Hf in Hb1.
    destruct (IH _ _ _ _ _ E2 Hrs Hcs Hb1) as [Hfinal Hall].
    split; [ exact Hfinal | constructor; assumption ].
Qed.

(** C3, as amended.  Over every run of charges against one account that
    are all answered with a receipt and whose balance updates the store
    applies, the balance ends as the starting balance with the amounts
    subtracted one after the other in binary64 arithmetic (each charge reads
    the balance with [parseFloat] and writes the rounded difference), and no
    balance on the way is below zero.  A charge whose amount exceeds the
    balance is answered [INSUFFICIENT_BALANCE] once the replay, account and
    PIN checks have passed, and leaves the store as it was.  A charge of
    exactly the (finite) balance that reaches the commit leaves the balance
    at exactly 0. *)
Theorem balance_after_charges :
  (forall calls db rs db' uid b0,
     charges Math platform calls db = (rs, db') ->
     Forall (fun r => paid r = true) rs ->
     Forall (fun c => Request.user_id (snd c) = uid
                      /\ balance_update_error (faults (fst c)) = false) calls ->
     balance_of db uid = Some b0 ->
     let amounts := map (fun c => Request.amount (snd c)) calls in
     balance_of db' uid = Some (fold_left debit amounts b0)
     /\ Forall (fun b => JS.lt b 0%float = false) (balances b0 amounts))
  /\
  (forall env req db user,
     lookup (txn_lookup_error (faults env))
            (transaction_by_reference (Request.idempotency_key req)) db = None ->
     lookup (user_lookup_error (faults env)) (user_by_id (Request.user_id req)) db
     = Some user ->
     User.status user = "active" ->
     bcrypt_compare platform (Request.pin req) (User.pin_hash user) = true ->
     JS.lt (JS.parseFloat (User.balance user)) (Request.amount req) = true ->
     processPayment Math platform env req db
     = (sendError "Insufficient balance" INSUFFICIENT_BALANCE 400%Z, db))
  /\
  (forall env req db user device d,
     lookup (txn_lookup_error (faults env))
            (transaction_by_reference (Request.idempotency_key req)) db = None ->
     lookup (user_lookup_error (faults env)) (user_by_id (Request.user_id req)) db
     = Some user ->
     User.status user = "active" ->
     bcrypt_compare platform (Request.pin req) (User.pin_hash user) = true ->
     lookup (device_lookup_error (faults env)) (device_by_id (Request.device_id req)) db
     = Some device ->
     fraud_detection Math env req db = (inl d, db) ->
     txn_insert_error (faults env) = false ->
     balance_update_error (faults env) = false ->
     Request.amount req = JS.parseFloat (User.balance user) ->
     PrimFloat.is_finite (Request.amount req) = true ->
     let (resp, db') := processPayment Math platform env req db in
     paid resp = true /\ balance_of db' (Request.user_id req) = Some 0%float).
Proof.
  split; [ | split ].
  - intros calls db rs db' uid b0. apply charges_debit.
  - intros env req db user. apply processPayment_insufficient.
  - intros env req db user device d Ht Hu Hs Hp Hd Hf Hi Hbu Ha Hfin.
    assert (Hc : checks_pass platform env req db user device).
    { unfold checks_pass. repeat split; try assumption.
      rewrite <- Ha. apply float_ltb_irrefl. }
    pose proof (@processPayment_commits _ _ _ _ _ _ Hc Hf) as H. simpl in H.
    destruct (processPayment Math platform env req db) as [resp db'] eqn:E.
    rewrite Hi in H. destruct H as (Hr & _ & Hus & _).
    assert (P : paid resp = true) by (rewrite Hr; reflexivity).
    split; [ exact P | ].
    destruct (@processPayment_debits _ _ _ _ _ E P) as (b & Hb0 & _ & _ & Hb1).
    rewrite Hbu in Hb1. rewrite Hb1. f_equal.
    unfold lookup in Hu. destruct (user_lookup_error (faults env)); [ discriminate | ].
    unfold balance_of in Hb0. rewrite Hu in Hb0. simpl in Hb0. inversion Hb0; subst b.
    unfold debit. rewrite Ha. apply float_sub_diag. rewrite <- Ha. exact Hfin.
Qed.


(** A run answered [ORIGIN_MISMATCH] was stopped by the fraud detection. *)
Lemma processPayment_mismatch env req db resp db' :
  processPayment Math platform env req db = (resp, db') ->
  error_code resp = Some ORIGIN_MISMATCH ->
  fraud_detection Math env req db = (inr resp, db').
Proof.
  handler_unfold.
  destruct (lookup (txn_lookup_error _) _ db) as [t|]; [ wrong_branch | ].
  destruct (lookup (user_lookup_error _) _ db) as [user|]; [ | wrong_branch ].
  destruct (negb (String.eqb (User.status user) "active")); simpl; [ wrong_branch | ].
  destruct (negb (bcrypt_compare _ _ _)); simpl; [ wrong_branch | ].
  destruct (JS.lt _ _); simpl; [ wrong_branch | ].
  destruct (lookup (device_lookup_error _) _ db) as [device|]; [ | wrong_branch ].
  destruct (fraud_detection Math env req db) as [[d | r] db1].
  - destruct (txn_insert_error (faults env)); simpl; wrong_branch.
  - intros H _. inversion H; subst. reflexivity.
Qed.


(** C5.  A payment answered [ORIGIN_MISMATCH] claimed an origin stop with
    coordinates that lies further from the GPS fix than the maximum.  The
    answer is the 400 error of that code; the handler asked the store for one
    alert row of type [suspicious_origin], risk score 75 and level [high]
    whose details are the fix, the claimed origin and the distance, so exactly
    that row is appended (none when the store refuses the insert); [users],
    [transactions] and [notifications] are as they were. *)
Theorem origin_mismatch_rejection env req db resp db' :
  processPayment Math platform env req db = (resp, db') ->
  error_code resp = Some ORIGIN_MISMATCH ->
  exists stop,
    claims_origin env req db stop
    /\ lacks_coordinates stop = false
    /\ JS.gt (claimed_distance Math req stop) (maxDistance env) = true
    /\ resp = sendError
                "Origin location mismatch detected. Please verify your boarding point."
                ORIGIN_MISMATCH 400%Z
    /\ (exists alert,
          fraud_alerts db' = (if alert_insert_error (faults env) then fraud_alerts db
                              else fraud_alerts db ++ [alert])%list
          /\ FraudAlert.user_id alert = Request.user_id req
          /\ FraudAlert.transaction_id alert = None
          /\ FraudAlert.alert_type alert = "suspicious_origin"
          /\ FraudAlert.risk_score alert = 75%Z
          /\ FraudAlert.alert_level alert = "high"
          /\ FraudAlert.details alert
             = {| FraudDetails.gps_latitude := Request.gps_latitude req;
                  FraudDetails.gps_longitude := Request.gps_longitude req;
                  FraudDetails.selected_origin := Request.origin_stop req;
                  FraudDetails.distance_meters := claimed_distance Math req stop |})
    /\ users db' = users db
    /\ transactions db' = transactions db
    /\ notifications db' = notifications db.
Proof.
  intros E Hcode.
  pose proof (@processPayment_mismatch _ _ _ _ _ E Hcode) as Hf.
  destruct (@fraud_detection_replies _ _ _ _ _ Hf) as (stop & Hclaim & Hcoord & G & Hr & Hdb).
  exists stop. repeat (split; [ assumption | ]).
  split.
  - exists (fraud_alert req (claimed_distance Math req stop)).
    subst db'. destruct (alert_insert_error (faults env)); simpl; repeat split.
  - subst db'. destruct (alert_insert_error (faults env)); simpl; repeat split.
Qed.

End Properties.

(** ** Reference codes stay unique *)

(** Every run whose replay lookup the store answers keeps the reference
    codes of [transactions] unique: a row is inserted only after the lookup
    found none under its reference code. *)
Theorem unique_reference_codes_preserved Math platform env req db :
  unique_reference_codes db ->
  txn_lookup_error (faults env) = false ->
  unique_reference_codes (snd (processPayment Math platform env req db)).
Proof.
  intros Hnd He.
  destruct (processPayment Math platform env req db) as [resp db'] eqn:E. simpl.
  destruct (paid resp) eqn:P.
  - destruct (@processPayment_paid _ _ _ _ _ _ _ E P)
      as (user & device & d & Hc & _ & _ & _ & Ht & _ & _).
    destruct Hc as (Hnone & _).
    unfold lookup in Hnone. rewrite He in Hnone.
    unfold transaction_by_reference in Hnone.
    pose proof (single_none_unique Transaction.reference_code _ _ Hnd Hnone) as Hf.
    unfold unique_reference_codes. rewrite Ht.
    eapply NoDup_appended; [ exact Hnd | exact Hf | reflexivity ].
  - destruct (@processPayment_unpaid _ _ _ _ _ _ _ E P) as [_ Ht].
    unfold unique_reference_codes. rewrite Ht. exact Hnd.
Qed.

(** ** The stops of a route *)

Lemma findIndex_from_found i id pre s post :
  Stop.id s = id ->
  (forall x, In x pre -> Stop.id x <> id) ->
  findIndex_from i id (pre ++ s :: post) = (i + Z.of_nat (List.length pre))%Z.
Proof.
  intros Hs. revert i.
  induction pre as [|x pre IH]; intros i Hpre; simpl.
  - rewrite Hs, String.eqb_refl. lia.
  - destruct (String.eqb_spec (Stop.id x) id) as [E | _].
    + exfalso. apply (Hpre x); [ left; reflexivity | exact E ].
    + rewrite IH by (intros y Hy; apply Hpre; right; exact Hy). lia.
Qed.

Lemma findIndex_from_absent i id stops :
  ~ In id (map Stop.id stops) ->
  findIndex_from i id stops = (-1)%Z.
Proof.
  revert i. induction stops as [|x stops IH]; intros i H; simpl; [ reflexivity | ].
  destruct (String.eqb_spec (Stop.id x) id) as [E | _].
  - exfalso. apply H. left. exact E.
  - apply IH. intros Hin. apply H. right. exact Hin.
Qed.

(** Past the origin index the filter keeps every stop. *)
Lemma filter_after_from_all idx originIndex stops :
  (originIndex < idx)%Z ->
  filter_after_from idx originIndex stops = stops.
Proof.
  revert idx. induction stops as [|x stops IH]; intros idx H; simpl; [ reflexivity | ].
  destruct (Z.ltb_spec originIndex idx); [ | lia ].
  rewrite IH by lia. reflexivity.
Qed.

(** Up to the origin index it drops them. *)
Lemma filter_after_from_skipn idx originIndex stops :
  (idx <= originIndex + 1)%Z ->
  filter_after_from idx originIndex stops
  = skipn (Z.to_nat (originIndex + 1 - idx)) stops.
Proof.
  revert idx. induction stops as [|x stops IH]; intros idx H; simpl.
  - rewrite skipn_nil. reflexivity.
  - destruct (Z.ltb_spec originIndex idx).
    + replace (originIndex + 1 - idx)%Z with 0%Z by lia. simpl.
      rewrite filter_after_from_all by lia. reflexivity.
    + rewrite IH by lia.
      replace (Z.to_nat (originIndex + 1 - idx))
        with (S (Z.to_nat (originIndex + 1 - (idx + 1)))) by lia.
      reflexivity.
Qed.

(** The first stop that carries a given id splits the route. *)
Lemma first_occurrence (s : Stop.t) stops :
  In s stops ->
  exists pre s' post,
    stops = pre ++ s' :: post
    /\ Stop.id s' = Stop.id s
    /\ (forall x, In x pre -> Stop.id x <> Stop.id s).
Proof.
  induction stops as [|x stops IH]; intros Hin; [ destruct Hin | ].
  destruct (String.eqb_spec (Stop.id x) (Stop.id s)) as [E | E].
  - exists [], x, stops. repeat split; [ exact E | intros y [] ].
  - destruct Hin as [Hx | Hin]; [ subst x; congruence | ].
    destruct (IH Hin) as (pre & s' & post & Hsplit & Hid & Hpre).
    exists (x :: pre), s', post. subst stops. repeat split; [ exact Hid | ].
    intros y [Hy | Hy]; [ subst y; exact E | apply Hpre; exact Hy ].
Qed.

(** The stop [findNearestStop] returns is one of the stops it was given. *)
Lemma nearest_loop_In Math latitude longitude stops : forall nearest minDistance n,
  nearest_loop Math latitude longitude stops nearest minDistance = Some n ->
  nearest = Some n \/ In (NearestStop.stop n) stops.
Proof.
  induction stops as [|x stops IH]; simpl; intros nearest minDistance n H; [ left; exact H | ].
  destruct (lacks_coordinates x).
  - destruct (IH _ _ _ H); auto.
  - destruct (JS.lt _ _).
    + destruct (IH _ _ _ H) as [E | Hin]; [ | auto ].
      inversion E; subst. right. left. reflexivity.
    + destruct (IH _ _ _ H); auto.
Qed.

Lemma findNearestStop_In Math latitude longitude stops n :
  findNearestStop Math latitude longitude stops = Some n ->
  In (NearestStop.stop n) stops.
Proof.
  unfold findNearestStop. destruct stops as [|x stops]; [ discriminate | ].
  intros H. destruct (nearest_loop_In _ _ _ _ _ _ H) as [E | Hin];
    [ discriminate | exact Hin ].
Qed.

(** Once a stop is held the loop never returns [null]. *)
Lemma nearest_loop_some Math latitude longitude stops : forall n minDistance,
  nearest_loop Math latitude longitude stops (Some n) minDistance <> None.
Proof.
  induction stops as [|x stops IH]; simpl; intros n minDistance; [ discriminate | ].
  destruct (lacks_coordinates x); [ apply IH | ].
  destruct (JS.lt _ _); apply IH.
Qed.

(** The loop returns [null] only when no stop with truthy coordinates lies
    below the starting [minDistance]. *)
Lemma nearest_loop_none Math latitude longitude stops : forall minDistance,
  nearest_loop Math latitude longitude stops None minDistance = None ->
  forall s, In s stops -> lacks_coordinates s = false ->
            JS.lt (distance_to Math latitude longitude s) minDistance = false.
Proof.
  induction stops as [|x stops IH]; simpl; intros minDistance H s Hin Hs; [ destruct Hin | ].
  destruct (lacks_coordinates x) eqn:Hx.
  - destruct Hin as [E | Hin]; [ subst; congruence | eapply IH; eassumption ].
  - destruct (JS.lt (distance_to Math latitude longitude x) minDistance) eqn:Hlt.
    + exfalso. exact (nearest_loop_some _ _ _ _ _ _ H).
    + destruct Hin as [E | Hin]; [ subst; exact Hlt | eapply IH; eassumption ].
Qed.

(** What the loop returns: the stop it held when no stop with truthy
    coordinates lies below [minDistance]; otherwise a stop of the list with
    truthy coordinates that lies below [minDistance], strictly below every
    such stop before it and not above any such stop after it. *)
Lemma nearest_loop_spec Math latitude longitude stops : forall nearest minDistance n,
  nearest_loop Math latitude longitude stops nearest minDistance = Some n ->
  let d := distance_to Math latitude longitude in
  (nearest = Some n
   /\ forall s, In s stops -> lacks_coordinates s = false -> JS.lt (d s) minDistance = false)
  \/ (exists pre post,
        stops = pre ++ NearestStop.stop n :: post
        /\ lacks_coordinates (NearestStop.stop n) = false
        /\ NearestStop.distance_meters n = d (NearestStop.stop n)
        /\ JS.lt (d (NearestStop.stop n)) minDistance = true
        /\ (forall s, In s pre -> lacks_coordinates s = false ->
                      JS.lt (d (NearestStop.stop n)) (d s) = true
                      \/ JS.strict_eq (d s) (d s) = false)
        /\ (forall s, In s post -> lacks_coordinates s = false ->
                      JS.lt (d s) (d (NearestStop.stop n)) = false)).
Proof.
  induction stops as [|x stops IH]; simpl; intros nearest minDistance n H.
  - left. split; [ exact H | intros s [] ].
  - destruct (lacks_coordinates x) eqn:Hx.
    + destruct (IH _ _ _ H) as [[E Hall] | (pre & post & Hsplit & Hn & Hd & Hlt & Hpre & Hpost)].
      * left. split; [ exact E | ].
        intros s [Es | Hin] Hs; [ subst; congruence | apply Hall; assumption ].
      * right. exists (x :: pre), post. rewrite Hsplit.
        repeat split; try assumption.
        intros s [Es | Hin] Hs; [ subst; congruence | apply Hpre; assumption ].
    + destruct (JS.lt (distance_to Math latitude longitude x) minDistance) eqn:Hlt.
      * destruct (IH _ _ _ H)
          as [[E Hall] | (pre & post & Hsplit & Hn & Hd & Hlt' & Hpre & Hpost)].
        -- inversion E; subst n; clear E. right. exists [], stops. simpl.
           repeat split; try assumption. intros s [].
        -- right. exists (x :: pre), post. rewrite Hsplit.
           repeat split; try assumption.
           ++ unfold JS.lt in *. eapply float_ltb_trans; eassumption.
           ++ intros s [Es | Hin] Hs; [ subst; left; exact Hlt' | apply Hpre; assumption ].
      * destruct (IH _ _ _ H)
          as [[E Hall] | (pre & post & Hsplit & Hn & Hd & Hlt' & Hpre & Hpost)].
        -- left. split; [ exact E | ].
           intros s [Es | Hin] Hs; [ subst; exact Hlt | apply Hall; assumption ].
        -- right. exists (x :: pre), post. rewrite Hsplit.
           repeat split; try assumption.
           intros s [Es | Hin] Hs; [ subst | apply Hpre; assumption ].
           unfold JS.lt, JS.strict_eq in *. eapply float_ltb_below; eassumption.
Qed.

(** What [findNearestStop] computes.  A stop counts when its latitude and
    its longitude are truthy.  The result is a stop of the list that counts,
    with its distance to the fix, which is finite and not [NaN]; no stop that
    counts is strictly nearer, and every stop that counts before it is
    strictly further (or at a [NaN] distance): ties go to the first.  The
    result is [null] exactly when no stop that counts lies at a distance
    below [Infinity]. *)
Theorem findNearestStop_spec Math latitude longitude stops :
  let d := distance_to Math latitude longitude in
  (forall n,
     findNearestStop Math latitude longitude stops = Some n ->
     exists pre post,
       stops = pre ++ NearestStop.stop n :: post
       /\ lacks_coordinates (NearestStop.stop n) = false
       /\ NearestStop.distance_meters n = d (NearestStop.stop n)
       /\ JS.lt (d (NearestStop.stop n)) JS.Infinity = true
       /\ (forall s, In s stops -> lacks_coordinates s = false ->
                     JS.lt (d s) (d (NearestStop.stop n)) = false)
       /\ (forall s, In s pre -> lacks_coordinates s = false ->
                     JS.lt (d (NearestStop.stop n)) (d s) = true
                     \/ JS.strict_eq (d s) (d s) = false))
  /\ (findNearestStop Math latitude longitude stops = None <->
      forall s, In s stops -> lacks_coordinates s = false ->
                JS.lt (d s) JS.Infinity = false).
Proof.
  simpl. split.
  - intros n H. unfold findNearestStop in H.
    assert (Hloop : nearest_loop Math latitude longitude stops None JS.Infinity = Some n)
      by (destruct stops; [ discriminate | exact H ]).
    destruct (nearest_loop_spec _ _ _ _ _ _ Hloop)
      as [[E _] | (pre & post & Hsplit & Hn & Hd & Hlt & Hpre & Hpost)];
      [ discriminate | ].
    exists pre, post. repeat split; try assumption.
    intros s Hin Hs. rewrite Hsplit in Hin.
    apply in_app_or in Hin as [Hin | [Es | Hin]].
    + destruct (Hpre s Hin Hs) as [Hlt' | Hnan].
      * unfold JS.lt in *.
        destruct (PrimFloat.ltb (distance_to Math latitude longitude s)
                    (distance_to Math latitude longitude (NearestStop.stop n))) eqn:Hc;
          [ | reflexivity ].
        pose proof (float_ltb_trans Hc Hlt') as Hirr.
        rewrite float_ltb_irrefl in Hirr. discriminate.
      * apply float_nan_not_ltb. exact Hnan.
    + subst s. apply float_ltb_irrefl.
    + apply Hpost; assumption.
  - split.
    + intros H s Hin Hs. unfold findNearestStop in H.
      destruct stops as [|x stops]; [ destruct Hin | ].
      exact (nearest_loop_none _ _ _ _ _ H s Hin Hs).
    + intros Hall. unfold findNearestStop.
      destruct stops as [|x stops]; [ reflexivity | ].
      destruct (nearest_loop Math latitude longitude (x :: stops) None JS.Infinity)
        as [n|] eqn:Hloop; [ | reflexivity ].
      destruct (nearest_loop_spec _ _ _ _ _ _ Hloop)
        as [[E _] | (pre & post & Hsplit & Hn & Hd & Hlt & _)]; [ discriminate | ].
      rewrite Hall in Hlt; [ discriminate | | exact Hn ].
      rewrite Hsplit. apply in_or_app. right. left. reflexivity.
Qed.


(** C7 on the failing input: a stop on the equator carries coordinates
    (latitude 0), yet a list that holds only that stop has no nearest stop,
    whatever the fix; and from a fix 11 m off that stop the stop returned is
    the one 48.7 km away. *)
Theorem stop_on_equator_is_skipped :
  Stop.latitude Sample.nanyuki = Some 0%float
  /\ (forall Math latitude longitude,
        findNearestStop Math latitude longitude [Sample.nanyuki] = None)
  /\ distance_to ReferenceMath.math 0.0001%float 37.0722%float Sample.nanyuki = 11%float
  /\ findNearestStop ReferenceMath.math 0.0001%float 37.0722%float
       [Sample.nyeri; Sample.nanyuki]
     = Some {| NearestStop.stop := Sample.nyeri;
               NearestStop.distance_meters := 48735%float |}.
Proof.
  split; [ reflexivity | ]. split; [ intros; reflexivity | ].
  split; vm_compute; reflexivity.
Qed.

(** ** Payments whose GPS check does not run *)

(** Only a rejection by the fraud detection writes to [fraud_alerts]. *)
Lemma processPayment_alerts Math platform env req db resp db' :
  processPayment Math platform env req db = (resp, db') ->
  fraud_alerts db' = fraud_alerts db \/ error_code resp = Some ORIGIN_MISMATCH.
Proof.
  intros E. destruct (paid resp) eqn:P.
  - left.
    destruct (@processPayment_paid _ _ _ _ _ _ _ E P)
      as (user & device & d & _ & _ & _ & _ & _ & _ & Hfa).
    exact Hfa.
  - revert E. handler_unfold.
    destruct (lookup (txn_lookup_error _) _ db) as [t|]; [ wrong_branch; auto | ].
    destruct (lookup (user_lookup_error _) _ db) as [user|]; [ | wrong_branch; auto ].
    destruct (negb (String.eqb (User.status user) "active")); simpl; [ wrong_branch; auto | ].
    destruct (negb (bcrypt_compare _ _ _)); simpl; [ wrong_branch; auto | ].
    destruct (JS.lt _ _); simpl; [ wrong_branch; auto | ].
    destruct (lookup (device_lookup_error _) _ db) as [device|]; [ | wrong_branch; auto ].
    destruct (fraud_detection_cases Math env req db) as [[d E] | [dist [_ E]]]; rewrite E.
    + destruct (txn_insert_error (faults env)); simpl; wrong_branch; auto.
    + wrong_branch; auto.
Qed.

(** A run depends on the math library through the fraud detection only. *)
Lemma processPayment_same_detection Math Math' platform env req db :
  fraud_detection Math' env req db = fraud_detection Math env req db ->
  processPayment Math' platform env req db = processPayment Math platform env req db.
Proof.
  intros H. handler_unfold.
  destruct (lookup (txn_lookup_error _) _ db) as [t|]; [ reflexivity | ].
  destruct (lookup (user_lookup_error _) _ db) as [user|]; [ | reflexivity ].
  destruct (negb (String.eqb (User.status user) "active")); simpl; [ reflexivity | ].
  destruct (negb (bcrypt_compare _ _ _)); simpl; [ reflexivity | ].
  destruct (JS.lt _ _); simpl; [ reflexivity | ].
  destruct (lookup (device_lookup_error _) _ db) as [device|]; [ | reflexivity ].
  rewrite H. reflexivity.
Qed.

(** C10.  When [route_id], [origin_stop], [gps_latitude] or
    [gps_longitude] of the request is falsy (absent, the empty string, 0 or
    [NaN]), or when the claimed origin stop has a falsy latitude or
    longitude, the fraud detection block falls through with
    [nearest_stop_distance_meters] still [null] and without a write.  The
    run is then the same under every math library (no distance is computed),
    leaves [fraud_alerts] as it was, is not answered [ORIGIN_MISMATCH],
    stores [null] as the distance of any row it inserts, and is answered with
    a receipt whenever the checks pass and the insert is accepted. *)
Theorem gps_check_skipped_on_falsy Math platform env req db :
  JS.truthy JS.truthy_string (Request.route_id req) = false
  \/ JS.truthy JS.truthy_string (Request.origin_stop req) = false
  \/ JS.truthy JS.truthy_number (Request.gps_latitude req) = false
  \/ JS.truthy JS.truthy_number (Request.gps_longitude req) = false
  \/ (exists stop, claims_origin env req db stop /\ lacks_coordinates stop = true) ->
  fraud_detection Math env req db = (inl None, db)
  /\ (forall Math',
        processPayment Math' platform env req db = processPayment Math platform env req db)
  /\ (let (resp, db') := processPayment Math platform env req db in
      fraud_alerts db' = fraud_alerts db
      /\ error_code resp <> Some ORIGIN_MISMATCH
      /\ (forall t, transactions db' = (transactions db ++ [t])%list ->
                    Transaction.nearest_stop_distance_meters t = None)
      /\ (forall user device,
            checks_pass platform env req db user device ->
            txn_insert_error (faults env) = false ->
            paid resp = true)).
Proof.
  intros Hfalsy.
  assert (Hskip : forall M, fraud_detection M env req db = (inl None, db))
    by (intros M; apply fraud_detection_skipped; exact Hfalsy).
  split; [ apply Hskip | ].
  split; [ intros Math'; apply processPayment_same_detection; rewrite !Hskip; reflexivity | ].
  destruct (processPayment Math platform env req db) as [resp db'] eqn:E.
  assert (Hcode : error_code resp <> Some ORIGIN_MISMATCH).
  { intros Hcode. pose proof (@processPayment_mismatch _ _ _ _ _ _ _ E Hcode) as Hf.
    rewrite Hskip in Hf. discriminate. }
  split; [ | split; [ exact Hcode | split ] ].
  - destruct (processPayment_alerts _ _ _ _ _ E) as [H | H]; [ exact H | contradiction ].
  - intros t Ht. destruct (paid resp) eqn:P.
    + destruct (@processPayment_paid _ _ _ _ _ _ _ E P)
        as (user & device & d & _ & Hf & _ & _ & Ht' & _ & _).
      rewrite Hskip in Hf. inversion Hf; subst d.
      rewrite Ht in Ht'. apply app_inj_tail in Ht' as [_ Heq]. subst t. reflexivity.
    + destruct (@processPayment_unpaid _ _ _ _ _ _ _ E P) as [_ Hsame].
      rewrite Ht in Hsame. apply (f_equal (@List.length _)) in Hsame.
      rewrite length_app in Hsame. simpl in Hsame. lia.
  - intros user device Hc Hi.
    pose proof (@processPayment_commits _ _ _ _ _ _ _ _ Hc (Hskip Math)) as H.
    simpl in H. rewrite E, Hi in H. destruct H as [Hr _]. rewrite Hr. reflexivity.
Qed.

(** * The properties on concrete runs

    Each lemma below evaluates the handlers on the sample store, under the
    reference math library. *)


(** C2 as stated fails on the scenario of the specification: the same
    request sent twice is answered first with the receipt (status 201) and
    then with the three stored fields (status 200), two answers that differ. *)
Lemma replay_is_not_the_receipt :
  paid (fst Sample.first_call) = true
  /\ fst Sample.second_call
     = sendSuccess (ExistingTxn "txn-1" "success" 50%float)
         "Transaction already processed" 200%Z
  /\ fst Sample.first_call <> fst Sample.second_call.
Proof.
  split; [ reflexivity | ]. split; [ reflexivity | ].
  vm_compute. discriminate.
Qed.

(** The replay on the scenario of the specification. *)
Lemma replay_returns_stored_transaction_witness :
  Sample.run_of (Sample.env "1" no_faults) (Sample.pay "R1" 50%float)
    (snd Sample.first_call)
  = (sendSuccess (ExistingTxn "txn-1" "success" 50%float)
       "Transaction already processed" 200%Z, snd Sample.first_call)
  /\ unique_reference_codes (snd Sample.first_call)
  /\ exists r,
       fst Sample.first_call = sendSuccess (PaymentReceipt r) "Payment successful" 201%Z
       /\ Receipt.transaction_id r = "txn-1"%string
       /\ Receipt.status r = "success"%string
       /\ Receipt.amount r = 50%float.
Proof.
  apply (@replay_returns_stored_transaction ReferenceMath.math Sample.platform
           (Sample.env "1" no_faults) (Sample.env "1" no_faults)
           (Sample.pay "R1" 50%float) (Sample.pay "R1" 50%float) Sample.db0
           (fst Sample.first_call) (snd Sample.first_call)).
  - constructor.
  - reflexivity.
  - reflexivity.
  - reflexivity.
  - reflexivity.
  - reflexivity.
Defined.

(** C3 as stated fails twice over.  Two charges of 1.01 and 1.06 KES
    against 1000 KES, both answered with a receipt, leave a balance that is
    not 1000 minus their sum; and the one charge whose balance update the
    store refuses leaves the balance where it was. *)
Lemma balance_is_not_minus_the_sum :
  (Forall (fun r => paid r = true) (fst Sample.after_two_charges)
   /\ balance_of (snd Sample.after_two_charges) "alice" = Some 997.93000000000006%float
   /\ (1000 - (1.01 + 1.06))%float = 997.92999999999995%float
   /\ PrimFloat.eqb 997.93000000000006%float (1000 - (1.01 + 1.06))%float = false)
  /\ (paid (fst Sample.unapplied_debit) = true
      /\ balance_of (snd Sample.unapplied_debit) "alice" = Some 1000%float
      /\ PrimFloat.eqb 1000%float (1000 - 50)%float = false).
Proof.
  split.
  - split; [ vm_compute; repeat constructor | ].
    split; [ vm_compute; reflexivity | ].
    split; vm_compute; reflexivity.
  - split; [ reflexivity | ]. split; reflexivity.
Qed.

(** The three parts of C3 as amended, on the sample store. *)
Lemma balance_after_charges_witness :
  (balance_of (snd Sample.after_two_charges) "alice"
   = Some (fold_left debit [1.01%float; 1.06%float] 1000%float)
   /\ Forall (fun b => JS.lt b 0%float = false)
             (balances 1000%float [1.01%float; 1.06%float]))
  /\ Sample.overdraft
     = (sendError "Insufficient balance" INSUFFICIENT_BALANCE 400%Z, Sample.db0)
  /\ (paid (fst Sample.whole_balance) = true
      /\ balance_of (snd Sample.whole_balance) "alice" = Some 0%float).
Proof.
  destruct (balance_after_charges ReferenceMath.math Sample.platform)
    as (Hseq & Hover & Hwhole).
  split; [ | split ].
  - apply (Hseq Sample.two_charges Sample.db0
             (fst Sample.after_two_charges) (snd Sample.after_two_charges)).
    + reflexivity.
    + vm_compute. repeat constructor.
    + repeat constructor.
    + reflexivity.
  - apply (Hover (Sample.env "3" no_faults) (Sample.pay "R3" 2000%float)
             Sample.db0 Sample.alice); reflexivity.
  - apply (Hwhole (Sample.env "4" no_faults) (Sample.pay "R4" 1000%float)
             Sample.db0 Sample.alice Sample.matatu None); reflexivity.
Defined.


(** C5 on the scenario of the specification: a fix 600 m from the claimed
    origin under the 500 m maximum. *)
Lemma origin_mismatch_rejection_witness :
  exists stop,
    claims_origin (Sample.env "1" no_faults) Sample.at_600m Sample.db0 stop
    /\ lacks_coordinates stop = false
    /\ JS.gt (claimed_distance ReferenceMath.math Sample.at_600m stop) 500%float = true
    /\ fst Sample.run_at_600m
       = sendError
           "Origin location mismatch detected. Please verify your boarding point."
           ORIGIN_MISMATCH 400%Z
    /\ (exists alert,
          fraud_alerts (snd Sample.run_at_600m) = [alert]
          /\ FraudAlert.user_id alert = "alice"%string
          /\ FraudAlert.transaction_id alert = None
          /\ FraudAlert.alert_type alert = "suspicious_origin"%string
          /\ FraudAlert.risk_score alert = 75%Z
          /\ FraudAlert.alert_level alert = "high"%string
          /\ FraudAlert.details alert
             = {| FraudDetails.gps_latitude := Some (-1.281)%float;
                  FraudDetails.gps_longitude := Some 36.8172%float;
                  FraudDetails.selected_origin := Some "cbd"%string;
                  FraudDetails.distance_meters :=
                    claimed_distance ReferenceMath.math Sample.at_600m stop |})
    /\ users (snd Sample.run_at_600m) = users Sample.db0
    /\ transactions (snd Sample.run_at_600m) = []
    /\ notifications (snd Sample.run_at_600m) = [].
Proof.
  exact (@origin_mismatch_rejection ReferenceMath.math Sample.platform
           (Sample.env "1" no_faults) Sample.at_600m Sample.db0
           (fst Sample.run_at_600m) (snd Sample.run_at_600m) eq_refl eq_refl).
Defined.

(** C6 as stated fails on a payment of 3.10 KES at the rate 0.05: the
    stored commission and net amount add up to 3.1000000000000005, which is
    not the stored amount. *)
Lemma commission_plus_net_is_not_amount :
  paid (fst Sample.shop_payment) = true
  /\ (PrimFloat.leb 0 0.05 && PrimFloat.ltb 0.05 1)%float = true
  /\ exists t,
       transactions (snd Sample.shop_payment) = [t]
       /\ Transaction.amount t = 3.1%float
       /\ Transaction.merchant_commission t = 0.15500000000000003%float
       /\ Transaction.net_amount t = 2.9450000000000003%float
       /\ (Transaction.merchant_commission t + Transaction.net_amount t)%float
          = 3.1000000000000005%float
       /\ JS.strict_eq
            (Transaction.merchant_commission t + Transaction.net_amount t)%float
            (Transaction.amount t) = false.
Proof.
  split; [ reflexivity | ]. split; [ reflexivity | ].
  eexists. split; [ vm_compute; reflexivity | ].
  repeat split; vm_compute; reflexivity.
Qed.

(** C6 as amended on the scenario of the specification: 50 KES at the rate
    0.05 stores the commission 2.5 and the net amount 47.5, under both
    handlers. *)
Lemma commission_split_as_computed_witness :
  (exists device t,
     device_by_id "device-46" Sample.db0 = Some device
     /\ transactions (snd Sample.first_call) = [t]
     /\ Transaction.amount t = 50%float
     /\ Transaction.merchant_commission t
        = (50 * JS.parseFloat (Merchant.commission_rate (Device.merchants device)))%float
     /\ Transaction.net_amount t = (50 - Transaction.merchant_commission t)%float)
  /\
  (exists t,
     transactions (snd (route_process Sample.platform (Sample.env "1" no_faults)
                          (Sample.pay "R1" 50%float) Sample.db0)) = [t]
     /\ Transaction.amount t = 50%float
     /\ Transaction.merchant_commission t = 2.5%float
     /\ Transaction.net_amount t = (50 - Transaction.merchant_commission t)%float)
  /\ (50 * JS.parseFloat (Merchant.commission_rate Sample.metro))%float = 2.5%float
  /\ (50 - 2.5)%float = 47.5%float.
Proof.
  destruct (commission_split_as_computed ReferenceMath.math Sample.platform
              (Sample.env "1" no_faults) (Sample.pay "R1" 50%float) Sample.db0)
    as [Hcontroller Hroute].
  split; [ exact (Hcontroller eq_refl) | ].
  split; [ exact (Hroute eq_refl) | ].
  split; reflexivity.
Defined.



(** C9 on a ride whose origin was picked by hand, with no GPS fix. *)
Lemma auto_detected_origin_always_true_witness :
  exists t,
    transactions (snd Sample.manual_run) = [t]
    /\ Transaction.reference_code t = "R9"%string
    /\ Transaction.origin_stop t = Some "cbd"%string
    /\ Transaction.gps_boarding_latitude t = None
    /\ Transaction.auto_detected_origin t = true.
Proof.
  exact (@auto_detected_origin_always_true ReferenceMath.math Sample.platform
           (Sample.env "1" no_faults) Sample.manual_ride Sample.db0
           (fst Sample.manual_run) (snd Sample.manual_run) eq_refl eq_refl).
Defined.

(** C10 on a ride claimed from the CBD stop with a fix on the equator,
    143 km away: latitude 0 is falsy, the check does not run and the ride is
    paid with a [null] distance.  Likewise the check does not run for a ride
    claimed from the stop on the equator. *)
Lemma gps_check_skipped_on_falsy_witness :
  claimed_distance ReferenceMath.math Sample.fix_on_equator Sample.cbd = 143041%float
  /\ fraud_detection ReferenceMath.math (Sample.env "1" no_faults)
       Sample.fix_on_equator Sample.db0 = (inl None, Sample.db0)
  /\ paid (fst Sample.run_fix_on_equator) = true
  /\ fraud_alerts (snd Sample.run_fix_on_equator) = []
  /\ (forall t, transactions (snd Sample.run_fix_on_equator) = [t] ->
                Transaction.nearest_stop_distance_meters t = None)
  /\ fraud_detection ReferenceMath.math (Sample.env "1" no_faults)
       Sample.origin_on_equator Sample.db0 = (inl None, Sample.db0).
Proof.
  split; [ vm_compute; reflexivity | ].
  destruct (@gps_check_skipped_on_falsy ReferenceMath.math Sample.platform
              (Sample.env "1" no_faults) Sample.fix_on_equator Sample.db0)
    as (Hskip & _ & Halerts & _ & Hnull & Hpaid).
  { right. right. left. reflexivity. }
  split; [ exact Hskip | ].
  split; [ apply (Hpaid Sample.alice Sample.matatu); repeat split | ].
  split; [ exact Halerts | ].
  split; [ exact Hnull | ].
  apply (@gps_check_skipped_on_falsy ReferenceMath.math Sample.platform
           (Sample.env "1" no_faults) Sample.origin_on_equator Sample.db0).
  right. right. right. right. exists Sample.nanyuki.
  split; [ | reflexivity ].
  repeat split. exists Sample.route_north. split; reflexivity.
Defined.

(** [findNearestStop] on route 46 from a fix at the CBD stop: the CBD stop
    at 0 m, before Westlands at 2994 m; Kangemi has no coordinates. *)
Lemma findNearestStop_spec_witness :
  exists pre post,
    Route.stops Sample.route46 = (pre ++ Sample.cbd :: post)%list
    /\ lacks_coordinates Sample.cbd = false
    /\ 0%float = distance_to ReferenceMath.math (-1.2864)%float 36.8172%float Sample.cbd
    /\ JS.lt (distance_to ReferenceMath.math (-1.2864)%float 36.8172%float Sample.cbd)
             JS.Infinity = true
    /\ (forall s, In s (Route.stops Sample.route46) -> lacks_coordinates s = false ->
                  JS.lt (distance_to ReferenceMath.math (-1.2864)%float 36.8172%float s)
                        (distance_to ReferenceMath.math (-1.2864)%float 36.8172%float
                           Sample.cbd) = false)
    /\ (forall s, In s pre -> lacks_coordinates s = false ->
                  JS.lt (distance_to ReferenceMath.math (-1.2864)%float 36.8172%float
                           Sample.cbd)
                        (distance_to ReferenceMath.math (-1.2864)%float 36.8172%float s)
                  = true
                  \/ JS.strict_eq
                       (distance_to ReferenceMath.math (-1.2864)%float 36.8172%float s)
                       (distance_to ReferenceMath.math (-1.2864)%float 36.8172%float s)
                     = false).
Proof.
  apply (proj1 (findNearestStop_spec ReferenceMath.math (-1.2864)%float 36.8172%float
                  (Route.stops Sample.route46))
           {| NearestStop.stop := Sample.cbd; NearestStop.distance_meters := 0%float |}).
  vm_compute. reflexivity.
Defined.

(** The sample store after the scenario payment still has unique reference
    codes. *)
Lemma unique_reference_codes_preserved_witness :
  unique_reference_codes (snd Sample.first_call).
Proof.
  apply (@unique_reference_codes_preserved ReferenceMath.math Sample.platform
           (Sample.env "1" no_faults) (Sample.pay "R1" 50%float) Sample.db0).
  - constructor.
  - reflexivity.
Defined.

(** * Further properties

    Properties of the other functions of [src/utils/gps.js], of [scanQR],
    of the handler of [POST /process], of [authenticateToken] and of the
    route that puts it before [processPayment]. *)

(** ** More of the order of binary64 numbers *)

Lemma SFleb_key x y :
  valid_binary x = true -> valid_binary y = true ->
  SFleb x y = true <->
  x <> S754_nan /\ y <> S754_nan /\ (SFkey x <= SFkey y)%Z.
Proof.
  intros V1 V2. unfold SFleb. split.
  - intros H.
    assert (N1 : x <> S754_nan) by (intros ->; discriminate).
    assert (N2 : y <> S754_nan) by (intros ->; destruct x; discriminate).
    rewrite (SFcompare_key V1 V2 N1 N2) in H.
    destruct (Z.compare_spec (SFkey x) (SFkey y)); try discriminate; repeat split; auto; lia.
  - intros (N1 & N2 & H). rewrite (SFcompare_key V1 V2 N1 N2).
    destruct (Z.compare_spec (SFkey x) (SFkey y)); try reflexivity. lia.
Qed.

Lemma float_leb_trans (a b c : float) :
  PrimFloat.leb a b = true -> PrimFloat.leb b c = true -> PrimFloat.leb a c = true.
Proof.
  rewrite !FloatAxioms.leb_spec, !SFleb_key by apply Prim2SF_valid.
  intros (Na & _ & H1) (_ & Nc & H2). repeat split; try assumption. lia.
Qed.

Lemma float_leb_ltb_trans (a b c : float) :
  PrimFloat.leb a b = true -> PrimFloat.ltb b c = true -> PrimFloat.ltb a c = true.
Proof.
  rewrite FloatAxioms.leb_spec, !FloatAxioms.ltb_spec, SFleb_key, !SFltb_key
    by apply Prim2SF_valid.
  intros (Na & _ & H1) (_ & Nc & H2). repeat split; try assumption. lia.
Qed.

(** Only numbers that are not [NaN] compare by [<=]. *)
Lemma float_leb_not_nan (a b : float) :
  PrimFloat.leb a b = true -> PrimFloat.eqb a a = true /\ PrimFloat.eqb b b = true.
Proof.
  rewrite FloatAxioms.leb_spec, !FloatAxioms.eqb_spec, SFleb_key by apply Prim2SF_valid.
  intros (Na & Nb & _). unfold SFeqb.
  rewrite !SFcompare_key by (try apply Prim2SF_valid; assumption).
  rewrite !Z.compare_refl. split; reflexivity.
Qed.

Lemma float_finite_of_spec (x : float) :
  (exists s, Prim2SF x = S754_zero s) \/ (exists s m e, Prim2SF x = S754_finite s m e) ->
  PrimFloat.is_finite x = true.
Proof.
  unfold is_finite, is_nan, is_infinity.
  rewrite !FloatAxioms.eqb_spec, abs_spec.
  change (Prim2SF infinity) with (S754_infinity false).
  intros [[s E] | (s & m & e & E)]; rewrite E; unfold SFeqb; simpl.
  - reflexivity.
  - destruct s; rewrite Z.compare_refl, Pos.compare_cont_refl; reflexivity.
Qed.

(** A number between two finite numbers is finite. *)
Lemma float_between_finite (a x b : float) :
  PrimFloat.is_finite a = true -> PrimFloat.is_finite b = true ->
  PrimFloat.leb a x = true -> PrimFloat.leb x b = true ->
  PrimFloat.is_finite x = true.
Proof.
  intros Fa Fb. rewrite !FloatAxioms.leb_spec, !SFleb_key by apply Prim2SF_valid.
  intros (_ & Nx & H1) (_ & _ & H2).
  pose proof (Prim2SF_valid a) as Va. pose proof (Prim2SF_valid b) as Vb.
  apply float_finite_of_spec.
  destruct (float_is_finite_spec a Fa) as [[sa Ea] | (sa & ma & ea & Ea)];
    destruct (float_is_finite_spec b Fb) as [[sb Eb] | (sb & mb & eb & Eb)];
    rewrite Ea in *; rewrite Eb in *; cbn [valid_binary] in Va, Vb;
    try (apply bounded_range in Va); try (apply bounded_range in Vb);
    destruct (Prim2SF x) as [s|s| |s m e]; try congruence; eauto;
    exfalso; cbn [SFkey] in H1, H2;
    repeat match goal with b : bool |- _ => destruct b end; cbn [cond_Zopp] in *; lia.
Qed.

(** [NaN] is the one number that is not equal to itself. *)
Lemma float_nan_spec (x : float) :
  PrimFloat.eqb x x = false -> Prim2SF x = S754_nan.
Proof.
  rewrite FloatAxioms.eqb_spec. unfold SFeqb.
  destruct (Prim2SF x) as [[|]|[|]| |[|] m e]; simpl; try discriminate; try reflexivity;
    rewrite Z.compare_refl, Pos.compare_cont_refl; discriminate.
Qed.

(** Nothing is below a difference with [NaN]. *)
Lemma float_not_ltb_sub_nan (a x y : float) :
  PrimFloat.eqb y y = false -> PrimFloat.ltb a (x - y) = false.
Proof.
  intros H. apply float_nan_spec in H.
  rewrite FloatAxioms.ltb_spec, sub_spec, H. unfold SFltb, SF64sub.
  destruct (Prim2SF a), (Prim2SF x); reflexivity.
Qed.

(** ** Confidence levels and coordinate checks *)

(** X3.  [getConfidenceLevel] never grades a stop that is at least as far
    away better: when [d1 <= d2], or when [d2] is [NaN], the level of [d2]
    is the level of [d1] or a worse one, whatever the configured threshold.
    In particular a [NaN] distance is graded [low]. *)
Theorem confidence_never_better_when_farther T d1 d2 :
  JS_le d1 d2 = true \/ PrimFloat.eqb d2 d2 = false ->
  Confidence.rank (getConfidenceLevel T d1) <= Confidence.rank (getConfidenceLevel T d2).
Proof.
  unfold getConfidenceLevel, JS_le, JS.lt.
  set (t := JS.or_else T 100%float).
  intros [H | H].
  - destruct (PrimFloat.ltb d2 t) eqn:E2.
    + rewrite (float_leb_ltb_trans H E2). apply le_n.
    + destruct (PrimFloat.ltb d2 (t * 2)) eqn:E3.
      * rewrite (float_leb_ltb_trans H E3).
        destruct (PrimFloat.ltb d1 t); simpl; lia.
      * destruct (PrimFloat.ltb d1 t), (PrimFloat.ltb d1 (t * 2)); simpl; lia.
  - rewrite !(fun y => @float_nan_not_ltb d2 y H).
    destruct (PrimFloat.ltb d1 t), (PrimFloat.ltb d1 (t * 2)); simpl; lia.
Qed.


(** X4.  [isValidCoordinates] accepts finite numbers only: [NaN],
    [Infinity] and [-Infinity] are rejected as a latitude and as a
    longitude. *)
Theorem valid_coordinates_are_finite latitude longitude :
  isValidCoordinates latitude longitude = true ->
  PrimFloat.is_finite latitude = true /\ PrimFloat.is_finite longitude = true.
Proof.
  unfold isValidCoordinates, JS_ge, JS_le. intros H.
  apply andb_prop in H as [H H4]. apply andb_prop in H as [H H3].
  apply andb_prop in H as [H1 H2].
  split.
  - apply (@float_between_finite (-90)%float latitude 90%float); auto.
  - apply (@float_between_finite (-180)%float longitude 180%float); auto.
Qed.

(** X5.  The bounding box of [isWithinKenya] lies within the valid range:
    every pair it accepts, [isValidCoordinates] accepts. *)
Theorem within_kenya_is_valid latitude longitude :
  isWithinKenya latitude longitude = true ->
  isValidCoordinates latitude longitude = true.
Proof.
  unfold isWithinKenya, isValidCoordinates, JS_ge, JS_le. intros H.
  apply andb_prop in H as [H H4]. apply andb_prop in H as [H H3].
  apply andb_prop in H as [H1 H2].
  rewrite (@float_leb_trans (-90)%float kenyaBounds.minLat latitude eq_refl H1).
  rewrite (@float_leb_trans latitude kenyaBounds.maxLat 90%float H2 eq_refl).
  rewrite (@float_leb_trans (-180)%float kenyaBounds.minLon longitude eq_refl H3).
  rewrite (@float_leb_trans longitude kenyaBounds.maxLon 180%float H4 eq_refl).
  reflexivity.
Qed.

(** X6.  A stop whose coordinates [isValidCoordinates] accepts is skipped
    by [findNearestStop] (its test [!stop.latitude || !stop.longitude])
    exactly when its latitude or its longitude is zero. *)
Theorem valid_stop_skipped_iff_zero (stop : Stop.t) lat lon :
  Stop.latitude stop = Some lat ->
  Stop.longitude stop = Some lon ->
  isValidCoordinates lat lon = true ->
  lacks_coordinates stop = true <->
  (JS.strict_eq lat 0%float = true \/ JS.strict_eq lon 0%float = true).
Proof.
  intros E1 E2 H.
  unfold isValidCoordinates, JS_ge, JS_le in H.
  apply andb_prop in H as [H H4]. apply andb_prop in H as [H H3].
  apply andb_prop in H as [H1 H2].
  apply float_leb_not_nan in H2 as [N1 _]. apply float_leb_not_nan in H4 as [N2 _].
  unfold lacks_coordinates. rewrite E1, E2. simpl.
  unfold JS.truthy_number, JS.strict_eq.
  rewrite N1, N2.
  destruct (PrimFloat.eqb lat 0), (PrimFloat.eqb lon 0); simpl; intuition congruence.
Qed.

(** ** Signs of products, quotients and differences *)

Lemma binary_round_aux_opp prec emax s m e l :
  binary_round_aux prec emax (negb s) m e l = SFopp (binary_round_aux prec emax s m e l).
Proof.
  unfold binary_round_aux.
  destruct (shr_fexp prec emax m e l) as [mrs' e'].
  destruct (shr_fexp prec emax _ e' loc_Exact) as [mrs'' e''].
  destruct (shr_m mrs''); simpl; auto.
  destruct (Z.leb _ _); reflexivity.
Qed.

Lemma binary_round_opp prec emax s m e :
  binary_round prec emax (negb s) m e = SFopp (binary_round prec emax s m e).
Proof.
  unfold binary_round. destruct (shl_align _ _ _) as [mz ez].
  apply binary_round_aux_opp.
Qed.

Lemma SFmul_opp_l x y : SF64mul (SFopp x) y = SFopp (SF64mul x y).
Proof.
  unfold SF64mul.
  destruct x as [s1|s1| |s1 m1 e1], y as [s2|s2| |s2 m2 e2]; cbn [SFopp SFmul];
    try reflexivity; try (destruct s1, s2; reflexivity).
  replace (xorb (negb s1) s2) with (negb (xorb s1 s2)) by (destruct s1, s2; reflexivity).
  apply binary_round_aux_opp.
Qed.

Lemma SFmul_comm x y : SF64mul x y = SF64mul y x.
Proof.
  unfold SF64mul.
  destruct x as [s1|s1| |s1 m1 e1], y as [s2|s2| |s2 m2 e2]; cbn [SFmul];
    try reflexivity; try (destruct s1, s2; reflexivity).
  rewrite (xorb_comm s1 s2), (Pos.mul_comm m1 m2), (Z.add_comm e1 e2). reflexivity.
Qed.

Lemma SFdiv_opp_l x y : SF64div (SFopp x) y = SFopp (SF64div x y).
Proof.
  unfold SF64div.
  destruct x as [s1|s1| |s1 m1 e1], y as [s2|s2| |s2 m2 e2]; cbn [SFopp SFdiv];
    try reflexivity; try (destruct s1, s2; reflexivity).
  destruct (SFdiv_core_binary prec emax (Z.pos m1) e1 (Z.pos m2) e2) as [[mz ez] lz].
  replace (xorb (negb s1) s2) with (negb (xorb s1 s2)) by (destruct s1, s2; reflexivity).
  apply binary_round_aux_opp.
Qed.

Lemma SFsub_swap x y :
  SF64sub y x = SFopp (SF64sub x y) \/ SF64sub y x = SF64sub x y.
Proof.
  unfold SF64sub.
  destruct x as [s1|s1| |s1 m1 e1], y as [s2|s2| |s2 m2 e2]; cbn [SFopp SFsub];
    try (right; reflexivity);
    try (destruct s1, s2; (left; reflexivity) || (right; reflexivity));
    try (left; destruct s1; reflexivity); try (left; destruct s2; reflexivity).
  rewrite (Z.min_comm e2 e1).
  set (a := cond_Zopp s1 (Z.pos (fst (shl_align m1 e1 (Z.min e1 e2))))).
  set (b := cond_Zopp s2 (Z.pos (fst (shl_align m2 e2 (Z.min e1 e2))))).
  replace (b - a)%Z with (- (a - b))%Z by lia.
  clearbody a b.
  destruct (a - b)%Z as [|p|p]; cbn [Z.opp binary_normalize].
  - right. reflexivity.
  - left. apply (binary_round_opp prec emax false).
  - left. rewrite <- (binary_round_opp prec emax true). reflexivity.
Qed.

Lemma SFopp_involutive x : SFopp (SFopp x) = x.
Proof. destruct x as [s|s| |s m e]; simpl; rewrite ?negb_involutive; reflexivity. Qed.

Lemma float_opp_involutive (x : float) : (- - x)%float = x.
Proof.
  apply Prim2SF_inj. rewrite !opp_spec. apply SFopp_involutive.
Qed.

Lemma float_mul_opp_l (x y : float) : (- x * y)%float = (- (x * y))%float.
Proof.
  apply Prim2SF_inj. rewrite opp_spec, !mul_spec, opp_spec. apply SFmul_opp_l.
Qed.

Lemma float_mul_comm (x y : float) : (x * y)%float = (y * x)%float.
Proof.
  apply Prim2SF_inj. rewrite !mul_spec. apply SFmul_comm.
Qed.

Lemma float_mul_opp_r (x y : float) : (x * - y)%float = (- (x * y))%float.
Proof.
  rewrite (float_mul_comm x (- y)), float_mul_opp_l, (float_mul_comm y x). reflexivity.
Qed.

Lemma float_div_opp_l (x y : float) : (- x / y)%float = (- (x / y))%float.
Proof.
  apply Prim2SF_inj. rewrite opp_spec, !div_spec, opp_spec. apply SFdiv_opp_l.
Qed.

(** Swapping the operands of a difference negates it or leaves it (a zero
    or [NaN]) as it is. *)
Lemma float_sub_swap (x y : float) :
  (y - x)%float = (- (x - y))%float \/ (y - x)%float = (x - y)%float.
Proof.
  destruct (SFsub_swap (Prim2SF x) (Prim2SF y)) as [H | H]; [ left | right ];
    apply Prim2SF_inj; rewrite ?opp_spec, !sub_spec; exact H.
Qed.

Section Haversine.

Variable Math : MathLib.
Hypothesis sin_odd : forall x, Math_sin Math (- x)%float = (- Math_sin Math x)%float.

(** The term [Math.sin(d * Math.PI / 180 / 2)] of [calculateDistance],
    multiplied on the left by [c], is the same for [d] and for the
    difference taken the other way round. *)
Lemma haversine_term_swap (c x y : float) :
  let h (d : float) := Math_sin Math (d * Math_PI / 180 / 2)%float in
  (c * h (y - x) * h (y - x))%float = (c * h (x - y) * h (x - y))%float.
Proof.
  intros h. destruct (float_sub_swap x y) as [E | E]; rewrite E; [ | reflexivity ].
  unfold h.
  rewrite float_mul_opp_l, !float_div_opp_l, sin_odd.
  repeat (rewrite float_mul_opp_r || rewrite float_mul_opp_l).
  rewrite float_opp_involutive.
  reflexivity.
Qed.

Lemma haversine_square_swap (x y : float) :
  let h (d : float) := Math_sin Math (d * Math_PI / 180 / 2)%float in
  (h (y - x) * h (y - x))%float = (h (x - y) * h (x - y))%float.
Proof.
  intros h. destruct (float_sub_swap x y) as [E | E]; rewrite E; [ | reflexivity ].
  unfold h.
  rewrite float_mul_opp_l, !float_div_opp_l, sin_odd.
  repeat (rewrite float_mul_opp_r || rewrite float_mul_opp_l).
  rewrite float_opp_involutive.
  reflexivity.
Qed.

End Haversine.

(** X7.  When [Math.sin] is odd, as the sine is, [calculateDistance]
    gives bit for bit the same distance from the first point to the second
    as from the second to the first, for all numbers, [NaN] and infinities
    included, whatever [Math.cos], [Math.atan2] and [Math.round] compute. *)
Theorem calculateDistance_symmetric (Math : MathLib) lat1 lon1 lat2 lon2 :
  (forall x, Math_sin Math (- x)%float = (- Math_sin Math x)%float) ->
  calculateDistance Math lat2 lon2 lat1 lon1 = calculateDistance Math lat1 lon1 lat2 lon2.
Proof.
  intros sin_odd. unfold calculateDistance.
  pose proof (haversine_square_swap Math sin_odd lat2 lat1) as H1.
  pose proof (haversine_term_swap Math sin_odd
                (Math_cos Math (lat1 * Math_PI / 180) * Math_cos Math (lat2 * Math_PI / 180))%float
                lon2 lon1) as H2.
  cbv zeta in H1, H2 |- *.
  rewrite (float_mul_comm (Math_cos Math (lat2 * Math_PI / 180)%float)
                          (Math_cos Math (lat1 * Math_PI / 180)%float)).
  rewrite H1, H2. reflexivity.
Qed.

Local Open Scope string_scope.

(** ** [scanQR] *)

Lemma single_filter {A : Type} (p : A -> bool) rows row :
  single p rows = Some row -> filter p rows = [row].
Proof.
  unfold single. destruct (filter p rows) as [|x [|y l]]; congruence.
Qed.

(** A scan that succeeds went through the four checks at the head of
    [scanQR]. *)
Lemma scanQR_success_inv Math env token c data message status :
  scanQR Math env token c = scan_sendSuccess data message status ->
  exists device merchant,
    scan_device_lookup_error env = false
    /\ device_by_token token c = Some device
    /\ ScanDevice.status device = "active"%string
    /\ ScanDevice.merchants device = Some merchant
    /\ ScanMerchant.status merchant = "active"%string
    /\ scanQR_data Math env c device merchant = scan_sendSuccess data message status.
Proof.
  unfold scanQR.
  destruct (scan_device_lookup_error env); [ discriminate | ].
  destruct (device_by_token token c) as [device|]; [ | discriminate ].
  destruct (String.eqb (ScanDevice.status device) "active") eqn:Es; [ | discriminate ].
  destruct (ScanDevice.merchants device) as [merchant|] eqn:Em; [ | discriminate ].
  destruct (String.eqb (ScanMerchant.status merchant) "active") eqn:Ea; [ | discriminate ].
  simpl. intros H. exists device, merchant.
  apply String.eqb_eq in Es, Ea. auto 10.
Qed.

Lemma scanQR_data_merchant Math env c device merchant data message status :
  scanQR_data Math env c device merchant = scan_sendSuccess data message status ->
  ScanData.merchant_id data = ScanMerchant.merchant_id merchant
  /\ ScanData.merchant_type data = ScanMerchant.merchant_type merchant
  /\ ScanData.business_name data = ScanMerchant.business_name merchant
  /\ ScanData.matatu_plate data = ScanMerchant.matatu_plate merchant
  /\ message = "Success"%string /\ status = 200%Z.
Proof.
  unfold scanQR_data.
  destruct (String.eqb (ScanMerchant.merchant_type merchant) "transport"),
           (ScanDevice.routes device) as [route|];
    repeat match goal with
           | |- context [if ?b then _ else _] => destruct b
           | |- context [match findNearestStop ?M ?a ?b ?l with _ => _ end] =>
               destruct (findNearestStop M a b l)
           end;
    intros H; inversion H; subst; auto 10.
Qed.

(** X8.  [scanQR] answers with merchant details only when the device
    lookup succeeded and found exactly one device under the token, that
    device is [active], its merchant row is there and [active]; the details
    are those of that merchant, sent with the message [Success] and the
    status 200.  A revoked device or a suspended merchant is never
    disclosed. *)
Theorem scanQR_discloses_active_merchants_only Math env token c data message status :
  scanQR Math env token c = scan_sendSuccess data message status ->
  exists device merchant,
    scan_device_lookup_error env = false
    /\ filter (fun d => String.eqb (ScanDevice.device_token d) token) (scan_devices c)
       = [device]
    /\ ScanDevice.status device = "active"%string
    /\ ScanDevice.merchants device = Some merchant
    /\ ScanMerchant.status merchant = "active"%string
    /\ ScanData.merchant_id data = ScanMerchant.merchant_id merchant
    /\ ScanData.merchant_type data = ScanMerchant.merchant_type merchant
    /\ ScanData.business_name data = ScanMerchant.business_name merchant
    /\ ScanData.matatu_plate data = ScanMerchant.matatu_plate merchant
    /\ message = "Success"%string /\ status = 200%Z.
Proof.
  intros H.
  apply scanQR_success_inv in H as (device & merchant & E & Hd & Hs & Hm & Ha & Hdata).
  exists device, merchant.
  apply scanQR_data_merchant in Hdata as (? & ? & ? & ? & ? & ?).
  apply single_filter in Hd. auto 15.
Qed.


(** X9.  For an active transport device with a route, [scanQR] answers
    [GPS_UNAVAILABLE] (503) exactly when GPS is enabled, both stored
    coordinates are truthy and the fix is more than ten minutes old
    ([Date.now() - updated > 600000]).  A fix that is exactly ten minutes
    old, or one whose time stamp reads as [NaN], is not refused.  When GPS
    is disabled or a stored coordinate is falsy (absent, zero or [NaN]) the
    age is not looked at: the answer lists all the stops of the route for a
    manual choice and offers no destinations. *)
Theorem scanQR_gps_freshness Math env token c device merchant route :
  scan_device_lookup_error env = false ->
  device_by_token token c = Some device ->
  ScanDevice.status device = "active" ->
  ScanDevice.merchants device = Some merchant ->
  ScanMerchant.status merchant = "active" ->
  ScanMerchant.merchant_type merchant = "transport" ->
  ScanDevice.routes device = Some route ->
  let gpsAge := (Date_now env - ScanDevice.last_gps_updated_at device)%float in
  let has_fix :=
    ScanDevice.gps_enabled device
    && JS.truthy JS.truthy_number (ScanDevice.last_gps_latitude device)
    && JS.truthy JS.truthy_number (ScanDevice.last_gps_longitude device) in
  (scanQR Math env token c
   = scan_sendError "Matatu GPS not updated recently. Please try again." GPS_UNAVAILABLE 503%Z
   <-> has_fix = true /\ JS.gt gpsAge maxAge = true)
  /\ (gpsAge = maxAge \/ PrimFloat.eqb (ScanDevice.last_gps_updated_at device)
                           (ScanDevice.last_gps_updated_at device) = false ->
      exists data, scanQR Math env token c = scan_sendSuccess data "Success" 200%Z)
  /\ (has_fix = false ->
      exists data,
        scanQR Math env token c = scan_sendSuccess data "Success" 200%Z
        /\ ScanData.gps_detection data
           = Some (unavailable "unavailable"
                     "GPS unavailable. Please select boarding point manually."
                     (ScanRoute.stops route))
        /\ ScanData.available_destinations data = None).
Proof.
  intros E Hd Hs Hm Ha Ht Hr gpsAge has_fix.
  assert (Hrun : scanQR Math env token c = scanQR_data Math env c device merchant).
  { unfold scanQR. rewrite E, Hd, Hs, Hm, Ha. reflexivity. }
  rewrite Hrun. unfold scanQR_data. rewrite Ht, Hr. cbn [String.eqb Ascii.eqb Bool.eqb].
  fold gpsAge. fold has_fix.
  split; [ | split ].
  - destruct has_fix.
    + destruct (JS.gt gpsAge maxAge).
      * split; auto.
      * split; [ | intros [_ H]; discriminate ].
        destruct (findNearestStop _ _ _ _); discriminate.
    + split; [ discriminate | intros [H _]; discriminate ].
  - intros Hage.
    assert (Hfresh : JS.gt gpsAge maxAge = false).
    { unfold JS.gt. destruct Hage as [-> | Hnan].
      - apply float_ltb_irrefl.
      - apply float_not_ltb_sub_nan. exact Hnan. }
    rewrite Hfresh.
    destruct has_fix; [ | eauto ].
    destruct (findNearestStop _ _ _ _); eauto.
  - intros ->. eauto.
Qed.

(** What a scan that reports a detected origin went through. *)
Lemma scanQR_data_detected Math env c device merchant data message status
    o oname conf dist lat lon :
  scanQR_data Math env c device merchant = scan_sendSuccess data message status ->
  ScanData.gps_detection data = Some (detected o oname conf dist lat lon) ->
  exists route n,
    ScanDevice.routes device = Some route
    /\ ScanData.route data
       = Some (ScanRoute.route_id route, ScanRoute.route_number route,
               ScanRoute.route_name route)
    /\ ScanDevice.gps_enabled device = true
    /\ ScanDevice.last_gps_latitude device = Some lat
    /\ ScanDevice.last_gps_longitude device = Some lon
    /\ JS.gt (Date_now env - ScanDevice.last_gps_updated_at device)%float maxAge = false
    /\ findNearestStop Math lat lon (ScanRoute.stops route) = Some n
    /\ o = NearestStop.id n /\ oname = NearestStop.name n
    /\ dist = NearestStop.distance_meters n
    /\ conf = getConfidenceLevel (GPS_CONFIDENCE_THRESHOLD_METERS env) dist
    /\ ScanData.available_destinations data
       = match availableDestinations (ScanRoute.stops route) (NearestStop.id n) with
         | [] => None
         | destinations =>
             match active_fares (fares_lookup_error env) (ScanRoute.route_id route)
                     (NearestStop.id n) c with
             | Some fares => Some (map (with_fare fares) destinations)
             | None => Some (map without_fare destinations)
             end
         end.
Proof.
  unfold scanQR_data.
  destruct (String.eqb (ScanMerchant.merchant_type merchant) "transport"),
           (ScanDevice.routes device) as [route|];
    try solve [ destruct (String.eqb (ScanMerchant.merchant_type merchant) "shop");
                intros H; inversion H; subst; discriminate ].
  destruct (ScanDevice.gps_enabled device); cbn [andb];
    [ | intros H; inversion H; subst; discriminate ].
  destruct (ScanDevice.last_gps_latitude device) as [la|]; cbn [JS.truthy andb];
    [ | intros H; inversion H; subst; discriminate ].
  destruct (JS.truthy_number la); cbn [andb];
    [ | intros H; inversion H; subst; discriminate ].
  destruct (ScanDevice.last_gps_longitude device) as [lo|]; cbn [JS.truthy];
    [ | intros H; inversion H; subst; discriminate ].
  destruct (JS.truthy_number lo); [ | intros H; inversion H; subst; discriminate ].
  destruct (JS.gt _ maxAge) eqn:Eage; [ discriminate | ].
  cbn [coordinate].
  destruct (findNearestStop Math la lo (ScanRoute.stops route)) as [n|] eqn:En;
    intros H; inversion H; subst; clear H; cbn [ScanData.gps_detection];
    [ | discriminate ].
  intros D. inversion D; subst; clear D.
  exists route, n. cbn [ScanData.route ScanData.available_destinations].
  repeat split; auto.
  destruct (availableDestinations _ _); reflexivity.
Qed.

Lemma availableDestinations_after stops origin pre s post :
  stops = (pre ++ s :: post)%list ->
  Stop.id s = origin ->
  (forall x, In x pre -> Stop.id x <> origin) ->
  availableDestinations stops origin
  = map (fun stop => (Stop.id stop, Stop.name stop)) post.
Proof.
  intros Hsplit Hs Hpre. subst stops.
  unfold availableDestinations, findIndex.
  rewrite findIndex_from_found by assumption.
  rewrite filter_after_from_skipn by lia. f_equal.
  replace (Z.to_nat (0 + Z.of_nat (List.length pre) + 1 - 0))
    with (S (List.length pre)) by lia.
  rewrite skipn_app, skipn_all2 by lia.
  replace (S (List.length pre) - List.length pre) with 1 by lia. reflexivity.
Qed.

(** X10.  When [scanQR] reports a detected origin, it is the stop
    [findNearestStop] returns for the stored fix of the device on the stops
    of its route, with that stop's name and distance and the confidence
    [getConfidenceLevel] gives the distance.  The destinations offered are
    the stops after the first stop of the route carrying the id of the
    origin, in route order, each with its [id] and [name]; the field is
    absent exactly when no stop comes after it. *)
Theorem scanQR_offers_stops_after_nearest Math env token c data message status
    o oname conf dist lat lon :
  scanQR Math env token c = scan_sendSuccess data message status ->
  ScanData.gps_detection data = Some (detected o oname conf dist lat lon) ->
  exists device route n pre s post,
    device_by_token token c = Some device
    /\ ScanDevice.routes device = Some route
    /\ ScanDevice.last_gps_latitude device = Some lat
    /\ ScanDevice.last_gps_longitude device = Some lon
    /\ findNearestStop Math lat lon (ScanRoute.stops route) = Some n
    /\ o = NearestStop.id n /\ oname = NearestStop.name n
    /\ dist = NearestStop.distance_meters n
    /\ conf = getConfidenceLevel (GPS_CONFIDENCE_THRESHOLD_METERS env) dist
    /\ ScanRoute.stops route = (pre ++ s :: post)%list
    /\ Stop.id s = o
    /\ (forall x, In x pre -> Stop.id x <> o)
    /\ match ScanData.available_destinations data with
       | None => post = []
       | Some destinations =>
           post <> []
           /\ map (fun d => (Destination.id d, Destination.name d)) destinations
              = map (fun stop => (Stop.id stop, Stop.name stop)) post
       end.
Proof.
  intros H D.
  apply scanQR_success_inv in H as (device & merchant & _ & Hd & _ & _ & _ & Hdata).
  eapply scanQR_data_detected in Hdata; [ | exact D ].
  destruct Hdata
    as (route & n & Hr & _ & _ & Hla & Hlo & _ & Hn & -> & -> & -> & -> & Hdest).
  pose proof Hn as Hin. apply findNearestStop_In in Hin.
  apply first_occurrence in Hin as Hocc. destruct Hocc as (pre & s & post & Hsplit & Hid & Hpre).
  exists device, route, n, pre, s, post.
  repeat (split; [ solve [ auto ] | ]).
  rewrite Hdest.
  erewrite availableDestinations_after by eassumption.
  destruct post as [|p post]; [ reflexivity | ].
  cbn [map].
  destruct (active_fares _ _ _ c) as [fares|]; (split; [ discriminate | ]);
    cbn [map with_fare without_fare Destination.id Destination.name fst snd];
    f_equal; rewrite !map_map; apply map_ext; intros; reflexivity.
Qed.

Lemma find_filter_some {A : Type} (p q : A -> bool) l r :
  find q (filter p l) = Some r ->
  exists before after,
    l = (before ++ r :: after)%list /\ p r = true /\ q r = true
    /\ forall x, In x before -> p x && q x = false.
Proof.
  induction l as [|a l IH]; cbn [filter find]; [ discriminate | ].
  destruct (p a) eqn:Ep.
  - cbn [find]. destruct (q a) eqn:Eq.
    + intros H. inversion H; subst. exists [], l. repeat split; auto.
      intros x [].
    + intros H. destruct (IH H) as (before & after & -> & Hp & Hq & Hb).
      exists (a :: before), after. repeat split; auto.
      intros x [<- | Hx]; [ rewrite Ep, Eq; reflexivity | auto ].
  - intros H. destruct (IH H) as (before & after & -> & Hp & Hq & Hb).
    exists (a :: before), after. repeat split; auto.
    intros x [<- | Hx]; [ rewrite Ep; reflexivity | auto ].
Qed.

Lemma find_filter_none {A : Type} (p q : A -> bool) l :
  find q (filter p l) = None ->
  forall x, In x l -> p x && q x = false.
Proof.
  induction l as [|a l IH]; cbn [filter find]; [ intros _ x [] | ].
  destruct (p a) eqn:Ep.
  - cbn [find]. destruct (q a) eqn:Eq; [ discriminate | ].
    intros H x [<- | Hx]; [ rewrite Ep, Eq; reflexivity | auto ].
  - intros H x [<- | Hx]; [ rewrite Ep; reflexivity | auto ].
Qed.

(** The test of the fares query and of [fares.find] together is
    [quotes_fare]. *)
Lemma quotes_fare_test route origin destination rule :
  quotes_fare route origin destination rule <->
  String.eqb (FareRule.route_id rule) route
  && String.eqb (FareRule.origin_stop_id rule) origin
  && match FareRule.effective_until rule with
     | None => true
     | Some _ => false
     end
  && String.eqb (FareRule.destination_stop_id rule) destination = true.
Proof.
  unfold quotes_fare. rewrite !andb_true_iff, !String.eqb_eq.
  destruct (FareRule.effective_until rule); intuition congruence.
Qed.

(** X11.  Each destination [scanQR] offers after a detected origin
    carries the fare of the first fare rule, in table order, that names the
    route, the detected origin and that destination and has no end date
    ([effective_until] is [null]); its fare is [null] exactly when there is
    no such rule, and it has no [fare] field exactly when the fares query
    erred. *)
Theorem scanQR_quotes_fare_rules_in_force Math env token c data message status
    o oname conf dist lat lon rid rnum rname destinations d :
  scanQR Math env token c = scan_sendSuccess data message status ->
  ScanData.gps_detection data = Some (detected o oname conf dist lat lon) ->
  ScanData.route data = Some (rid, rnum, rname) ->
  ScanData.available_destinations data = Some destinations ->
  In d destinations ->
  match Destination.fare d with
  | None => fares_lookup_error env = true
  | Some None =>
      fares_lookup_error env = false
      /\ forall rule, In rule (fare_rules c) -> ~ quotes_fare rid o (Destination.id d) rule
  | Some (Some fare) =>
      fares_lookup_error env = false
      /\ exists before rule after,
           fare_rules c = (before ++ rule :: after)%list
           /\ quotes_fare rid o (Destination.id d) rule
           /\ (forall r, In r before -> ~ quotes_fare rid o (Destination.id d) r)
           /\ fare = JS.parseFloat (FareRule.fare_amount rule)
  end.
Proof.
  intros H D R A Hd.
  apply scanQR_success_inv in H as (device & merchant & _ & _ & _ & _ & _ & Hdata).
  eapply scanQR_data_detected in Hdata; [ | exact D ].
  destruct Hdata as (route & n & _ & Hroute & _ & _ & _ & _ & _ & -> & _ & _ & _ & Hdest).
  rewrite R in Hroute. inversion Hroute; subst rid rnum rname; clear Hroute.
  rewrite A in Hdest.
  destruct (availableDestinations (ScanRoute.stops route) (NearestStop.id n)) as [|x xs];
    [ discriminate | ].
  unfold active_fares in Hdest.
  destruct (fares_lookup_error env).
  - inversion Hdest; subst destinations.
    change (In d (map without_fare (x :: xs))) in Hd.
    apply in_map_iff in Hd as (dest & <- & _). reflexivity.
  - inversion Hdest; subst destinations.
    match type of Hd with
    | In _ (?f x :: map ?f xs) => change (In d (map f (x :: xs))) in Hd
    end.
    apply in_map_iff in Hd as (dest & <- & _).
    unfold with_fare. cbn [Destination.fare Destination.id].
    match goal with |- context [find ?q (filter ?p ?l)] =>
      destruct (find q (filter p l)) as [rule|] eqn:Ef end.
    + split; [ reflexivity | ].
      apply find_filter_some in Ef as (before & after & Hsplit & Hp & Hq & Hb).
      exists before, rule, after.
      split; [ exact Hsplit | ]. split; [ | split; [ | reflexivity ] ].
      * apply quotes_fare_test. rewrite Hp, Hq. reflexivity.
      * intros r Hr Hquote. apply quotes_fare_test in Hquote.
        specialize (Hb r Hr). cbv beta in Hb. congruence.
    + split; [ reflexivity | ].
      intros rule Hr Hquote. apply quotes_fare_test in Hquote.
      pose proof (find_filter_none _ _ _ Ef rule Hr) as Hb. cbv beta in Hb. congruence.
Qed.

(** ** One account per charge *)

(** An update of the balance of one account leaves the row of every other
    account as it was. *)
Lemma user_by_id_update_balance_other uid other b rows :
  other <> uid ->
  single (fun u => String.eqb (User.user_id u) other) (update_balance uid b rows)
  = single (fun u => String.eqb (User.user_id u) other) rows.
Proof.
  intros Hne. unfold single, update_balance.
  assert (E : filter (fun u => String.eqb (User.user_id u) other)
                (map (fun u => if String.eqb (User.user_id u) uid
                               then User.with_balance b u else u) rows)
              = filter (fun u => String.eqb (User.user_id u) other) rows).
  { induction rows as [|u rows IH]; [ reflexivity | ].
    cbn [map filter]. rewrite IH.
    destruct (String.eqb (User.user_id u) uid) eqn:E; [ | reflexivity ].
    apply String.eqb_eq in E. cbn [User.with_balance User.user_id].
    destruct (String.eqb (User.user_id u) other) eqn:E'; [ | reflexivity ].
    apply String.eqb_eq in E'. congruence. }
  rewrite E. reflexivity.
Qed.

(** A run of [processPayment] leaves the row of every account but the
    payer's as it was. *)
Lemma processPayment_other_accounts Math platform env req db other :
  other <> Request.user_id req ->
  user_by_id other (snd (processPayment Math platform env req db)) = user_by_id other db.
Proof.
  intros Hne. unfold user_by_id.
  destruct (processPayment Math platform env req db) as [resp db'] eqn:E. cbn [snd].
  destruct (paid resp) eqn:Ep.
  - eapply processPayment_paid in E; [ | exact Ep ].
    destruct E as (user & device & d & _ & _ & _ & _ & _ & Hu & _).
    rewrite Hu. destruct (balance_update_error (faults env)); [ reflexivity | ].
    apply user_by_id_update_balance_other. exact Hne.
  - eapply processPayment_unpaid in E; [ | exact Ep ].
    destruct E as [Hu _]. rewrite Hu. reflexivity.
Qed.

(** X12.  A run of [processPayment] or of [POST /process], whatever its
    outcome, leaves the row of every account other than the payer's as it
    was. *)
Theorem charge_leaves_other_accounts Math platform env req db other :
  other <> Request.user_id req ->
  user_by_id other (snd (processPayment Math platform env req db)) = user_by_id other db
  /\ user_by_id other (snd (route_process platform env req db)) = user_by_id other db.
Proof.
  intros Hne. split; [ apply processPayment_other_accounts; exact Hne | ].
  unfold user_by_id.
  pose proof (@route_process_outcome platform env req db) as H. cbv zeta in H.
  destruct (route_process platform env req db) as [resp db']. cbn [snd].
  destruct H as [(_ & _ & Hu) | (_ & _ & user & _ & _ & _ & Hu)]; rewrite Hu.
  - reflexivity.
  - destruct (balance_update_error (faults env)); [ reflexivity | ].
    apply user_by_id_update_balance_other. exact Hne.
Qed.

(** ** [POST /process] has no idempotency check and no fraud detection *)

(** X13.  [POST /process] has no idempotency check.  When the same
    request is sent twice and both runs answer with a receipt, the store
    holds two more rows, both for the payer and the amount of the request,
    under the reference codes generated for each run, and, the balance
    updates being applied, the balance was debited twice. *)
Theorem route_process_replay_charges_again platform env1 env2 req db r1 db1 r2 db2 :
  route_process platform env1 req db = (r1, db1) ->
  route_process platform env2 req db1 = (r2, db2) ->
  paid r1 = true -> paid r2 = true ->
  balance_update_error (faults env1) = false ->
  balance_update_error (faults env2) = false ->
  let amount := JS.parseFloat (Request.amount req) in
  exists b t1 t2,
    balance_of db (Request.user_id req) = Some b
    /\ transactions db2 = (transactions db ++ [t1; t2])%list
    /\ Transaction.user_id t1 = Request.user_id req
    /\ Transaction.user_id t2 = Request.user_id req
    /\ Transaction.amount t1 = amount /\ Transaction.amount t2 = amount
    /\ Transaction.reference_code t1 = generateReferenceCode env1
    /\ Transaction.reference_code t2 = generateReferenceCode env2
    /\ balance_of db2 (Request.user_id req) = Some (debit (debit b amount) amount).
Proof.
  intros E1 E2 P1 P2 F1 F2 amount. subst amount.
  pose proof (@route_process_outcome platform env1 req db) as H1.
  pose proof (@route_process_outcome platform env2 req db1) as H2.
  cbv zeta in H1, H2. rewrite E1 in H1. rewrite E2 in H2.
  destruct H1 as [(N & _) | (_ & _ & u1 & Hu1 & _ & Ht1 & Hb1)]; [ congruence | ].
  destruct H2 as [(N & _) | (_ & _ & u2 & Hu2 & _ & Ht2 & Hb2)]; [ congruence | ].
  rewrite F1 in Hb1. rewrite F2 in Hb2.
  unfold lookup in Hu1, Hu2.
  destruct (user_lookup_error (faults env1)); [ discriminate | ].
  destruct (user_lookup_error (faults env2)); [ discriminate | ].
  unfold user_by_id in Hu1, Hu2.
  pose proof (user_by_id_update_balance (Request.user_id req)
                (JS.parseFloat (User.balance u1) - JS.parseFloat (Request.amount req))%float
                db Hu1) as Hw1.
  rewrite <- Hb1 in Hw1. rewrite Hw1 in Hu2. inversion Hu2; subst u2; clear Hu2.
  match type of Hw1 with single _ _ = Some ?u =>
    pose proof (user_by_id_update_balance (Request.user_id req)
                  (JS.parseFloat (User.balance u) - JS.parseFloat (Request.amount req))%float
                  db1 Hw1) as Hw2 end.
  cbn [User.with_balance User.balance] in Hb2, Ht2, Hw2.
  rewrite <- Hb2 in Hw2.
  eexists (User.balance u1), _, _.
  split; [ unfold balance_of, user_by_id; rewrite Hu1; reflexivity | ].
  split; [ rewrite Ht2, Ht1, <- app_assoc; reflexivity | ].
  cbn [route_transaction Transaction.user_id Transaction.amount Transaction.reference_code].
  repeat (split; [ reflexivity | ]).
  unfold balance_of, user_by_id. rewrite Hw2. reflexivity.
Qed.

(** X14.  [POST /process] runs no fraud detection.  Two requests that
    agree on the payer, [merchant_id], [amount] and [pin] get the same answer
    and leave the same [users] table, whatever route, origin, destination,
    device and GPS fix each carries; and no run writes a fraud alert. *)
Theorem route_process_ignores_origin_and_gps platform env req req' db :
  Request.user_id req' = Request.user_id req ->
  Request.merchant_id req' = Request.merchant_id req ->
  Request.amount req' = Request.amount req ->
  Request.pin req' = Request.pin req ->
  fst (route_process platform env req' db) = fst (route_process platform env req db)
  /\ users (snd (route_process platform env req' db))
     = users (snd (route_process platform env req db))
  /\ fraud_alerts (snd (route_process platform env req db)) = fraud_alerts db.
Proof.
  intros Hu Hm Ha Hp. handler_unfold. rewrite Hu, Hm, Ha, Hp.
  destruct (negb _ || negb _ || negb _); simpl; [ auto | ].
  destruct (lookup (user_lookup_error _) _ db) as [user|]; [ | simpl; auto ].
  destruct (negb (bcrypt_compare _ _ _)); simpl; [ auto | ].
  destruct (JS.lt _ _); simpl; [ auto | ].
  destruct (txn_insert_error (faults env)); simpl; [ auto | ].
  destruct (balance_update_error (faults env)), (audit_insert_error (faults env));
    simpl; auto.
Qed.

(** ** The balance check and amounts below zero *)

Lemma float_not_ltb_negative (a b : float) :
  PrimFloat.ltb a 0 = true -> PrimFloat.ltb b 0 = false -> PrimFloat.ltb b a = false.
Proof.
  intros Ha Hb. destruct (PrimFloat.ltb b a) eqn:E; [ | reflexivity ].
  rewrite (float_ltb_trans E Ha) in Hb. discriminate.
Qed.

(** X15.  [processPayment] does not check the sign of the amount.  For
    an active payer with the right PIN and a balance that is not negative, a
    known device and a request the fraud detection lets through, an amount
    below zero passes the balance check: the run answers with a receipt and
    sets the balance to [balance - amount]. *)
Theorem processPayment_accepts_negative_amount Math platform env req db user device d :
  lookup (txn_lookup_error (faults env))
         (transaction_by_reference (Request.idempotency_key req)) db = None ->
  lookup (user_lookup_error (faults env)) (user_by_id (Request.user_id req)) db = Some user ->
  User.status user = "active" ->
  bcrypt_compare platform (Request.pin req) (User.pin_hash user) = true ->
  lookup (device_lookup_error (faults env)) (device_by_id (Request.device_id req)) db
  = Some device ->
  fraud_detection Math env req db = (inl d, db) ->
  txn_insert_error (faults env) = false ->
  balance_update_error (faults env) = false ->
  JS.lt (Request.amount req) 0%float = true ->
  JS.lt (JS.parseFloat (User.balance user)) 0%float = false ->
  let (resp, db') := processPayment Math platform env req db in
  paid resp = true
  /\ balance_of db' (Request.user_id req)
     = Some (JS.parseFloat (User.balance user) - Request.amount req)%float.
Proof.
  intros Ht Hu Hs Hp Hd Hf Hi Hb Hneg Hbal.
  assert (Hc : checks_pass platform env req db user device).
  { unfold checks_pass. repeat (split; [ assumption | ]).
    split; [ | assumption ].
    unfold JS.lt in *. apply float_not_ltb_negative; assumption. }
  pose proof (processPayment_commits Math Hc Hf) as H. cbv zeta in H.
  destruct (processPayment Math platform env req db) as [resp db'].
  rewrite Hi in H. destruct H as (-> & _ & Husers & _).
  split; [ reflexivity | ].
  rewrite Hb in Husers.
  unfold balance_of, user_by_id. rewrite Husers.
  unfold lookup in Hu. destruct (user_lookup_error (faults env)); [ discriminate | ].
  unfold user_by_id in Hu.
  rewrite (user_by_id_update_balance (Request.user_id req) _ db Hu). reflexivity.
Qed.

(** ** The ledger only grows *)




(** ** [authenticateToken] *)

Lemma split_space_one_word a :
  no_space a = true -> split_space a = [a].
Proof.
  induction a as [|ch a IH]; cbn [no_space split_space]; [ reflexivity | ].
  intros H. apply andb_prop in H as [Hc Ha].
  apply negb_true_iff in Hc. rewrite Hc, (IH Ha). reflexivity.
Qed.

Lemma split_space_first_word a b :
  no_space a = true -> split_space (a ++ " " ++ b) = a :: split_space b.
Proof.
  induction a as [|ch a IH]; cbn [no_space split_space String.append].
  - reflexivity.
  - intros H. apply andb_prop in H as [Hc Ha].
    apply negb_true_iff in Hc. rewrite Hc.
    change (a ++ String " " b) with (a ++ " " ++ b). rewrite (IH Ha). reflexivity.
Qed.

Lemma truthy_string_append a b :
  JS.truthy_string (a ++ " " ++ b) = true.
Proof. destruct a; reflexivity. Qed.

(** X17.  [authenticateToken] takes the second space-separated word of
    the [Authorization] header as the token and does not look at the first:
    for any scheme word and any non-empty token without spaces, the outcome
    is that of [jwt.verify] on the token ([req.user] set from the payload,
    [TOKEN_EXPIRED] or [INVALID_TOKEN]).  A header of one word carries no
    token and is answered [UNAUTHORIZED]. *)
Theorem authenticateToken_reads_second_word jwt_verify scheme token :
  no_space scheme = true ->
  no_space token = true ->
  token <> "" ->
  authenticateToken jwt_verify (Some (scheme ++ " " ++ token))
  = match jwt_verify token with
    | jwt_decoded user_id phone_number => inr (user_id, phone_number)
    | TokenExpiredError => inl (sendError "Token has expired" TOKEN_EXPIRED 401%Z)
    | JsonWebTokenError => inl (sendError "Invalid token" INVALID_TOKEN 401%Z)
    end
  /\ authenticateToken jwt_verify (Some scheme)
     = inl (sendError "No authentication token provided" UNAUTHORIZED 401%Z).
Proof.
  intros Hs Ht Hne. unfold authenticateToken, header_token. split.
  - cbn [JS.truthy get_string]. rewrite truthy_string_append.
    rewrite (@split_space_first_word scheme token Hs), (@split_space_one_word token Ht).
    cbn [nth_error JS.truthy get_string].
    assert (E : JS.truthy_string token = true).
    { unfold JS.truthy_string. apply negb_true_iff, String.eqb_neq. exact Hne. }
    rewrite E. reflexivity.
  - cbn [JS.truthy get_string].
    destruct (JS.truthy_string scheme) eqn:E.
    + rewrite (@split_space_one_word scheme Hs). reflexivity.
    + cbn [JS.truthy]. rewrite E. reflexivity.
Qed.


(** ** What a run leaves in the other tables *)

(** X19.  A run of [processPayment] never changes [devices], [routes],
    [merchants] or [audit_logs].  It queues notifications only with a
    receipt: then, unless the insert errs, exactly two rows are appended, an
    SMS for the payer to the phone number of the token and a push message,
    both [queued] under the id of the new transaction.  Without a receipt
    [notifications] is left as it was. *)
Theorem processPayment_notifies_on_receipt_only Math platform env req db :
  let (resp, db') := processPayment Math platform env req db in
  devices db' = devices db /\ routes db' = routes db /\ merchants db' = merchants db
  /\ audit_logs db' = audit_logs db
  /\ if paid resp && negb (notifications_insert_error (faults env))
     then exists sms push,
            notifications db' = (notifications db ++ [sms; push])%list
            /\ Notification.notification_type sms = "sms"
            /\ Notification.user_id sms = Some (Request.user_id req)
            /\ Notification.recipient sms = Request.phone_number req
            /\ Notification.notification_type push = "push"
            /\ Notification.transaction_id sms = uuidv4 env
            /\ Notification.transaction_id push = uuidv4 env
            /\ Notification.status sms = "queued" /\ Notification.status push = "queued"
     else notifications db' = notifications db.
Proof.
  handler_unfold.
  destruct (lookup (txn_lookup_error _) _ db) as [t|]; [ simpl; auto 10 | ].
  destruct (lookup (user_lookup_error _) _ db) as [user|]; [ | simpl; auto 10 ].
  destruct (negb (String.eqb (User.status user) "active")); simpl; [ auto 10 | ].
  destruct (negb (bcrypt_compare _ _ _)); simpl; [ auto 10 | ].
  destruct (JS.lt _ _); simpl; [ auto 10 | ].
  destruct (lookup (device_lookup_error _) _ db) as [device|]; [ | simpl; auto 10 ].
  destruct (fraud_detection_cases Math env req db) as [[d E] | [dist [_ E]]]; rewrite E.
  - destruct (txn_insert_error (faults env)); simpl; [ auto 10 | ].
    destruct (balance_update_error (faults env)),
             (notifications_insert_error (faults env)); simpl;
      repeat (split; [ reflexivity | ]); try reflexivity;
      eexists _, _; (split; [ reflexivity | ]); simpl; auto 10.
  - simpl. destruct (alert_insert_error (faults env)); simpl; auto 10.
Qed.

(** X20.  A run of [POST /process] never changes [devices], [routes],
    [merchants] or [notifications].  It writes the audit log only with a
    receipt: then, unless the insert errs, exactly one row is appended, for
    the payer, with the action [payment_processed], the id of the new
    transaction, its reference code and the address of the caller.  Without
    a receipt [audit_logs] is left as it was. *)
Theorem route_process_audits_on_receipt_only platform env req db :
  let (resp, db') := route_process platform env req db in
  devices db' = devices db /\ routes db' = routes db /\ merchants db' = merchants db
  /\ notifications db' = notifications db
  /\ if paid resp && negb (audit_insert_error (faults env))
     then exists log,
            audit_logs db' = (audit_logs db ++ [log])%list
            /\ AuditLog.user_id log = Request.user_id req
            /\ AuditLog.action log = "payment_processed"
            /\ AuditLog.entity_id log = uuidv4 env
            /\ AuditLog.details_reference log = generateReferenceCode env
            /\ AuditLog.ip_address log = Request.ip req
     else audit_logs db' = audit_logs db.
Proof.
  handler_unfold.
  destruct (negb _ || negb _ || negb _); simpl; [ auto 10 | ].
  destruct (lookup (user_lookup_error _) _ db) as [user|]; [ | simpl; auto 10 ].
  destruct (negb (bcrypt_compare _ _ _)); simpl; [ auto 10 | ].
  destruct (JS.lt _ _); simpl; [ auto 10 | ].
  destruct (txn_insert_error (faults env)); simpl; [ auto 10 | ].
  destruct (balance_update_error (faults env)), (audit_insert_error (faults env)); simpl;
    repeat (split; [ reflexivity | ]); try reflexivity;
    eexists; (split; [ reflexivity | ]); simpl; auto 10.
Qed.

(** * The further properties on concrete runs *)

(** A stop 99 m away is graded [high], one 100 m away [medium], one 200 m
    away [low], at the default threshold of 100 m. *)
Lemma confidence_never_better_when_farther_witness :
  getConfidenceLevel nan 99%float = Confidence.high
  /\ getConfidenceLevel nan 100%float = Confidence.medium
  /\ getConfidenceLevel nan 200%float = Confidence.low
  /\ Confidence.rank (getConfidenceLevel nan 99%float)
     <= Confidence.rank (getConfidenceLevel nan 100%float).
Proof.
  repeat split; try reflexivity.
  apply confidence_never_better_when_farther. left. reflexivity.
Defined.

(** The sine of the reference library is odd. *)
Lemma reference_sin_odd (x : float) : ReferenceMath.sin (- x)%float = (- ReferenceMath.sin x)%float.
Proof.
  unfold ReferenceMath.sin. cbv zeta.
  repeat (rewrite float_mul_opp_r || rewrite float_mul_opp_l).
  rewrite float_opp_involutive.
  reflexivity.
Qed.

(** The distance between the CBD stop and a point near Nanyuki, both ways. *)
Lemma calculateDistance_symmetric_witness :
  calculateDistance ReferenceMath.math (-1.2864)%float 36.8172%float 0.0167%float 37.0740%float
  = calculateDistance ReferenceMath.math 0.0167%float 37.0740%float (-1.2864)%float 36.8172%float.
Proof.
  apply calculateDistance_symmetric. exact reference_sin_odd.
Defined.

(** The CBD stop has valid coordinates, which are finite. *)
Lemma valid_coordinates_are_finite_witness :
  isValidCoordinates (-1.2864)%float 36.8172%float = true
  /\ PrimFloat.is_finite (-1.2864)%float = true
  /\ PrimFloat.is_finite 36.8172%float = true.
Proof.
  split; [ reflexivity | ].
  apply valid_coordinates_are_finite. reflexivity.
Defined.

(** The CBD stop lies in Kenya; [NaN] and a point on the date line do not. *)
Lemma within_kenya_is_valid_witness :
  isWithinKenya (-1.2864)%float 36.8172%float = true
  /\ isWithinKenya nan 36.8172%float = false
  /\ isWithinKenya 0%float 180%float = false
  /\ isValidCoordinates (-1.2864)%float 36.8172%float = true.
Proof.
  split; [ reflexivity | ]. split; [ reflexivity | ]. split; [ reflexivity | ].
  apply within_kenya_is_valid. reflexivity.
Defined.

(** The stop on the equator is skipped, the CBD stop is not. *)
Lemma valid_stop_skipped_iff_zero_witness :
  (lacks_coordinates Sample.nanyuki = true <->
   (JS.strict_eq 0%float 0%float = true \/ JS.strict_eq 37.0722%float 0%float = true))
  /\ lacks_coordinates Sample.nanyuki = true
  /\ lacks_coordinates Sample.cbd = false.
Proof.
  split; [ | split; reflexivity ].
  apply (@valid_stop_skipped_iff_zero Sample.nanyuki 0%float 37.0722%float);
    reflexivity.
Defined.

(** The device token of the sample is answered with the merchant's details. *)
Lemma scanQR_discloses_active_merchants_only_witness :
  ScanSample.scan_at_ten_minutes
  = scan_sendSuccess ScanSample.data_at_ten_minutes "Success" 200%Z
  /\ exists device merchant,
       scan_device_lookup_error ScanSample.env = false
       /\ filter (fun d => String.eqb (ScanDevice.device_token d) "qr-46")
                 (scan_devices (ScanSample.catalog 400000%float))
          = [device]
       /\ ScanDevice.status device = "active"
       /\ ScanDevice.merchants device = Some merchant
       /\ ScanMerchant.status merchant = "active"
       /\ ScanData.merchant_id ScanSample.data_at_ten_minutes
          = ScanMerchant.merchant_id merchant
       /\ ScanData.merchant_type ScanSample.data_at_ten_minutes
          = ScanMerchant.merchant_type merchant
       /\ ScanData.business_name ScanSample.data_at_ten_minutes
          = ScanMerchant.business_name merchant
       /\ ScanData.matatu_plate ScanSample.data_at_ten_minutes
          = ScanMerchant.matatu_plate merchant
       /\ "Success" = "Success" /\ 200%Z = 200%Z.
Proof.
  split; [ vm_compute; reflexivity | ].
  apply (@scanQR_discloses_active_merchants_only ReferenceMath.math ScanSample.env "qr-46"
           (ScanSample.catalog 400000%float)).
  vm_compute. reflexivity.
Defined.

(** A fix that is exactly ten minutes old is used; a millisecond later the
    scan is refused. *)
Lemma scanQR_gps_freshness_witness :
  ScanSample.scan_after_ten_minutes
  = scan_sendError "Matatu GPS not updated recently. Please try again." GPS_UNAVAILABLE 503%Z
  /\ exists data, ScanSample.scan_at_ten_minutes = scan_sendSuccess data "Success" 200%Z.
Proof.
  split.
  - apply (proj1 (@scanQR_gps_freshness ReferenceMath.math ScanSample.env "qr-46"
                    (ScanSample.catalog 399999%float) (ScanSample.matatu 399999%float)
                    ScanSample.metro ScanSample.route46
                    eq_refl eq_refl eq_refl eq_refl eq_refl eq_refl eq_refl)).
    split; reflexivity.
  - apply (proj1 (proj2 (@scanQR_gps_freshness ReferenceMath.math ScanSample.env "qr-46"
                    (ScanSample.catalog 400000%float) (ScanSample.matatu 400000%float)
                    ScanSample.metro ScanSample.route46
                    eq_refl eq_refl eq_refl eq_refl eq_refl eq_refl eq_refl))).
    left. reflexivity.
Defined.

(** The matatu stands at the CBD stop, the first of the route: the two
    stops after it are offered. *)
Lemma scanQR_offers_stops_after_nearest_witness :
  exists device route n pre s post,
    device_by_token "qr-46" (ScanSample.catalog 400000%float) = Some device
    /\ ScanDevice.routes device = Some route
    /\ ScanDevice.last_gps_latitude device = Some (-1.2819)%float
    /\ ScanDevice.last_gps_longitude device = Some 36.8172%float
    /\ findNearestStop ReferenceMath.math (-1.2819)%float 36.8172%float
         (ScanRoute.stops route) = Some n
    /\ "cbd" = NearestStop.id n /\ "CBD" = NearestStop.name n
    /\ 500%float = NearestStop.distance_meters n
    /\ Confidence.low
       = getConfidenceLevel (GPS_CONFIDENCE_THRESHOLD_METERS ScanSample.env) 500%float
    /\ ScanRoute.stops route = (pre ++ s :: post)%list
    /\ Stop.id s = "cbd"
    /\ (forall x, In x pre -> Stop.id x <> "cbd")
    /\ post <> []
    /\ map (fun d => (Destination.id d, Destination.name d))
           [ScanSample.to_westlands; ScanSample.to_kangemi]
       = map (fun stop => (Stop.id stop, Stop.name stop)) post.
Proof.
  apply (@scanQR_offers_stops_after_nearest ReferenceMath.math ScanSample.env "qr-46"
           (ScanSample.catalog 400000%float) ScanSample.data_at_ten_minutes
           "Success" 200%Z "cbd" "CBD" Confidence.low 500%float
           (-1.2819)%float 36.8172%float).
  - vm_compute. reflexivity.
  - reflexivity.
Defined.

(** The fare to Westlands is the 50 KES of the rule in force, not the 40
    KES of the rule that ended; no rule quotes Kangemi from the CBD stop. *)
Lemma scanQR_quotes_fare_rules_in_force_witness :
  (fares_lookup_error ScanSample.env = false
   /\ exists before rule after,
        fare_rules (ScanSample.catalog 400000%float) = (before ++ rule :: after)%list
        /\ quotes_fare "route-46" "cbd" "westlands" rule
        /\ (forall r, In r before -> ~ quotes_fare "route-46" "cbd" "westlands" r)
        /\ 50%float = JS.parseFloat (FareRule.fare_amount rule))
  /\ (fares_lookup_error ScanSample.env = false
      /\ forall rule, In rule (fare_rules (ScanSample.catalog 400000%float)) ->
                      ~ quotes_fare "route-46" "cbd" "kangemi" rule).
Proof.
  split.
  - apply (@scanQR_quotes_fare_rules_in_force ReferenceMath.math ScanSample.env "qr-46"
             (ScanSample.catalog 400000%float) ScanSample.data_at_ten_minutes
             "Success" 200%Z "cbd" "CBD" Confidence.low 500%float
             (-1.2819)%float 36.8172%float "route-46" "46" "CBD - Kangemi"
             [ScanSample.to_westlands; ScanSample.to_kangemi] ScanSample.to_westlands).
    + vm_compute. reflexivity.
    + reflexivity.
    + reflexivity.
    + reflexivity.
    + left. reflexivity.
  - apply (@scanQR_quotes_fare_rules_in_force ReferenceMath.math ScanSample.env "qr-46"
             (ScanSample.catalog 400000%float) ScanSample.data_at_ten_minutes
             "Success" 200%Z "cbd" "CBD" Confidence.low 500%float
             (-1.2819)%float 36.8172%float "route-46" "46" "CBD - Kangemi"
             [ScanSample.to_westlands; ScanSample.to_kangemi] ScanSample.to_kangemi).
    + vm_compute. reflexivity.
    + reflexivity.
    + reflexivity.
    + reflexivity.
    + right. left. reflexivity.
Defined.

(** Alice pays; the row of Bob stays as it was under either handler. *)
Lemma charge_leaves_other_accounts_witness :
  user_by_id "bob" LedgerSample.two_accounts = Some LedgerSample.bob
  /\ paid (fst (processPayment ReferenceMath.math Sample.platform (Sample.env "1" no_faults)
                  (Sample.pay "R1" 50%float) LedgerSample.two_accounts)) = true
  /\ user_by_id "bob"
       (snd (processPayment ReferenceMath.math Sample.platform (Sample.env "1" no_faults)
               (Sample.pay "R1" 50%float) LedgerSample.two_accounts))
     = user_by_id "bob" LedgerSample.two_accounts
  /\ user_by_id "bob"
       (snd (route_process Sample.platform (Sample.env "1" no_faults)
               (Sample.pay "R1" 50%float) LedgerSample.two_accounts))
     = user_by_id "bob" LedgerSample.two_accounts.
Proof.
  split; [ reflexivity | ]. split; [ vm_compute; reflexivity | ].
  apply charge_leaves_other_accounts. discriminate.
Defined.

(** The payment of 50 KES sent twice to [POST /process]: two rows, and the
    balance goes from 1000 to 900. *)
Lemma route_process_replay_charges_again_witness :
  balance_of (snd LedgerSample.route_second) "alice" = Some 900%float
  /\ exists b t1 t2,
       balance_of Sample.db0 "alice" = Some b
       /\ transactions (snd LedgerSample.route_second)
          = (transactions Sample.db0 ++ [t1; t2])%list
       /\ Transaction.user_id t1 = "alice"
       /\ Transaction.user_id t2 = "alice"
       /\ Transaction.amount t1 = JS.parseFloat 50%float
       /\ Transaction.amount t2 = JS.parseFloat 50%float
       /\ Transaction.reference_code t1 = generateReferenceCode (Sample.env "1" no_faults)
       /\ Transaction.reference_code t2 = generateReferenceCode (Sample.env "2" no_faults)
       /\ balance_of (snd LedgerSample.route_second) "alice"
          = Some (debit (debit b (JS.parseFloat 50%float)) (JS.parseFloat 50%float)).
Proof.
  split; [ vm_compute; reflexivity | ].
  apply (@route_process_replay_charges_again Sample.platform
           (Sample.env "1" no_faults) (Sample.env "2" no_faults) (Sample.pay "R1" 50%float)
           Sample.db0 (fst LedgerSample.route_first) (snd LedgerSample.route_first)
           (fst LedgerSample.route_second) (snd LedgerSample.route_second)).
  - apply surjective_pairing.
  - apply surjective_pairing.
  - vm_compute. reflexivity.
  - vm_compute. reflexivity.
  - reflexivity.
  - reflexivity.
Defined.

(** A ride claimed from the CBD stop with a fix 600 m away is refused by
    [processPayment] and charged by [POST /process], with the answer of a
    payment that names no origin at all. *)
Lemma route_process_ignores_origin_and_gps_witness :
  error_code (fst (processPayment ReferenceMath.math Sample.platform
                     (Sample.env "1" no_faults) Sample.at_600m Sample.db0))
  = Some ORIGIN_MISMATCH
  /\ paid (fst (route_process Sample.platform (Sample.env "1" no_faults)
                  Sample.at_600m Sample.db0)) = true
  /\ fst (route_process Sample.platform (Sample.env "1" no_faults) Sample.at_600m Sample.db0)
     = fst (route_process Sample.platform (Sample.env "1" no_faults)
              (Sample.pay "R1" 50%float) Sample.db0)
  /\ users (snd (route_process Sample.platform (Sample.env "1" no_faults)
                   Sample.at_600m Sample.db0))
     = users (snd (route_process Sample.platform (Sample.env "1" no_faults)
                     (Sample.pay "R1" 50%float) Sample.db0))
  /\ fraud_alerts (snd (route_process Sample.platform (Sample.env "1" no_faults)
                          (Sample.pay "R1" 50%float) Sample.db0))
     = fraud_alerts Sample.db0.
Proof.
  split; [ vm_compute; reflexivity | ]. split; [ vm_compute; reflexivity | ].
  apply route_process_ignores_origin_and_gps; reflexivity.
Defined.

(** A payment of minus 50 KES from a balance of 1000 KES is answered with
    a receipt and leaves 1050 KES. *)
Lemma processPayment_accepts_negative_amount_witness :
  (1000 - -50)%float = 1050%float
  /\ let (resp, db') :=
       processPayment ReferenceMath.math Sample.platform (Sample.env "7" no_faults)
         LedgerSample.refund Sample.db0 in
     paid resp = true
     /\ balance_of db' "alice" = Some (JS.parseFloat 1000 - -50)%float.
Proof.
  split; [ reflexivity | ].
  apply (@processPayment_accepts_negative_amount ReferenceMath.math Sample.platform
           (Sample.env "7" no_faults) LedgerSample.refund Sample.db0
           Sample.alice Sample.matatu None); reflexivity.
Defined.

(** A header of the scheme [Basic] is read like one of the scheme
    [Bearer]. *)
Lemma authenticateToken_reads_second_word_witness :
  authenticateToken ScanSample.jwt_verify (Some "Basic alice-token")
  = inr ("alice", "+254700000001")
  /\ authenticateToken ScanSample.jwt_verify (Some "Basic")
     = inl (sendError "No authentication token provided" UNAUTHORIZED 401%Z).
Proof.
  apply (@authenticateToken_reads_second_word ScanSample.jwt_verify "Basic" "alice-token");
    [ reflexivity | reflexivity | discriminate ].
Defined.
